(* ===== verification/_CoqProject ===== *)
-Q . S2P
Prelude.v
Stats.v
RpnExpr.v
BoxBlur.v
VSCore.v
Regress.v
Reconstruct.v
Pipeline.v
Resample.v
