(* ===== verification/Prelude.v ===== *)
(** * A verification development of lvsfunc's chroma reconstruction

    The modelled program is [src/lvsfunc/recon.py], a VapourSynth script
    that repairs chroma destroyed by naive subsampling.  It has four parts:

    - [chroma_reconstruct] (lines 22-68), the per-frame pipeline: reject a
      variable-format clip, convert to 32-bit float, split the planes,
      downscale luma to chroma size with [src_left=-.5] and b=c=1/3,
      "demangle" luma, U and V back to full size with [src_left=.25]
      ([dmgl]), take the luma residual [y_fix] with [MakeDiff], fit the
      regressions, add the corrections with [MergeDiff], join the planes,
      and either resize to the input format or only change the depth;
    - [_Regress] (lines 71-108), per-pixel linear regression of one clip
      against others from box-filtered moments, every formula written as a
      reverse-Polish [std.Expr] string;
    - [_ReconstructMulti] (lines 111-116) and [_mean] (lines 119-120),
      which weight the regression slope by a confidence ramp on the
      correlation, box-blur it and multiply it by the residual;
    - [RegressClips] (lines 16-19), the record of three result clips.

    The script only calls VapourSynth and vsutil; those collaborators are
    not under [src/] and are modelled from the specification
    ([spec.md] sections 4.1, 4.2, 6 and 9): [std.Expr] as a stack machine
    over tokens, [std.BoxBlur] as a separable sliding-window mean with a
    clamp-to-edge border, [std.MakeDiff]/[std.MergeDiff] as float
    subtraction/addition, [vsutil.split]/[join]/[depth]/[get_depth], and
    the zimg resizer as an interface ([Resampler]), with one instance
    ([Zimg.zimg_resampler]) modelling its Mitchell-Netravali and point
    kernels and its conversions between integer codes and floats.

    Layout of the library (each file requires the ones before it):
    - [Prelude]: this header; the numeric interface [ExprNum] through
      which every sample operation goes, with three instances: [R]
      (exact arithmetic, used by the theorems), [Q] (used to run the
      model on concrete planes) and [fsample] (an exact value with a
      proposition saying its float computation stayed finite, see
      Numbers below); window offsets and the clamp-to-edge index;
      list-sum lemmas and the [recon] hint database.
    - [Stats]: means, variances and covariances over a finite window of
      sample points, their bilinearity, non-negativity of the variance and
      the Cauchy-Schwarz bound, the facts the regression theorems rest on.
    - [RpnExpr] (Module [Expr]): [std.Expr] as the script uses it:
      whitespace tokenizer, number-literal parser (sign, digits, point,
      exponent: "0.5", "1e-07"), the static stack check done when the
      filter is created ([compile]) and the per-pixel stack machine
      ([run], [pixel]).  The stack check is also given as a typing
      relation [wt]; the checker accepts exactly the well-typed token
      lists ([compile_words_typed]), typing is exact for the machine
      ([wt_run_exact]), and an accepted program never fails on a pixel
      ([compile_run_total]).
    - [BoxBlur] (Module [Blur]): planes as functions [Z -> Z -> A], the
      horizontal and vertical running-sum passes of [std.BoxBlur] and the
      reference mean over the clamped window ([box_mean]); the passes
      compute that mean at every pixel ([box_blur_mean]), commute with
      every map that respects the ring operations ([box_blur_hom]) and
      keep every property closed under them ([box_blur_closed]).
    - [VSCore] (Module [VS]): formats, clips (format, size, planes), the
      well-formedness predicate [wf], the filter-creation monad [VS] (an
      error or a value, with the trace of created filters), the calls
      [resize], [MakeDiff], [MergeDiff], [Expr], [BoxBlur], [split],
      [join], [depth], [get_depth] with the checks VapourSynth makes when
      a filter is created.  Two ways to reason about a call: [vs_ok] (it
      succeeds with this value and creates these filters) and [vs_then]
      (it behaves as the rest of a script after creating these filters).
    - [Regress] (Module [Regress]): [_Regress] call by call, generic in
      the sample arithmetic, and the section 4.3 formulas on five window
      moments.  Theorems C1, C3-C5, C15, C21, C22, C24: the refinement
      of the per-pixel regression field (every pixel of slope, intercept
      and correlation is the formula on the moments of its window), the
      correlation bound [0 <= corr < 1], flat and exactly linear windows,
      the radius error raised before any filter, the loops over [ys]
      (one result per [y], [4 + 10 k] filters), the [std.Expr] error
      when [eps] renders as a word that is not a number ([inf]), and,
      with [_Regress] run at [fsample], that every sample it returns is
      finite (the role of [eps]).  Line 108, the [zip] into
      [RegressClips], is [regress_clips].  The section 8 scenario is
      evaluated on rationals ([regress_scenario]).
    - [Reconstruct] (Module [Reconstruct]): [_ReconstructMulti] and
      [_mean].  Theorems C6-C8, C20: the per-pixel value (residual times
      the window mean of the weighted slope), the confidence floor (a
      correlation below 0.5 contributes nothing), [_mean] as the window
      mean, and the weight ramp in [0, 1).
    - [Pipeline] (Module [Pipeline]): [chroma_reconstruct] as
      [recon_prepare] (lines 43-58), [recon_finish] (lines 59-66, the
      join of line 66 being [recon_join]) and [recon_output] (lines
      67-68); [chroma_reconstruct_defaults] is the call with the defaults
      of line 22 ([radius=2], [i444=False]); [prepare_run], [finish_run] and
      [chroma_run] give the exact planes of each half through the
      resampler.  Theorems C2, C9-C14, C16-C19: the end-to-end
      per-pixel chroma formula, the format round trip, the planes of the
      default output, the confidence floor at the level of the script,
      the independence of the U and V branches, the error paths
      (radius, variable format, GRAY [IndexError]), the 4:4:4 output,
      the full-resolution intermediate planes and the RGB input the
      script accepts.  [chroma_filter_graph] lists the 45 filters of one
      frame in creation order.
    - [Resample] (Module [Zimg]): the resampler of [resize.*]: the
      Mitchell-Netravali kernels, the one-dimensional filter (taps
      around [(i + 1/2) * src/dst + shift], widened when downscaling,
      mirrored at the edges, normalised), the separable two-dimensional
      scaling with the chroma siting shift, and the limited-range
      conversions [unpack]/[pack] (rounding, clamping).  Theorem C23,
      with this resampler: the luma codes of an integer clip come back
      unchanged in the 4:4:4 output.

    Choices and bounds.  Radii are [Z] as in Python and checked, as line
    79 does, with [not radius > 0]; the window of radius [r] has
    [(2r+1)^2] points, every point clamped into the plane.  The resampler
    is an interface (class [Resampler]); theorems that depend on
    resampled values are stated for any instance (witnesses use
    [nearest_resampler]), except C23, stated for [Zimg.zimg_resampler].
    Planes are functions, compared with functional extensionality.  No
    fuel is needed: the stack machine and the running sums recurse
    structurally on the token list and on the line length.  The rational
    instance approximates the square root by 40 Newton steps rounded to
    [2^-40], enough for the examples' values in [0, 1]; the theorems do
    not use it.

    Not modelled: the frame level of VapourSynth (the script contains
    no frame-level code: it builds one filter graph, which VapourSynth
    applies to every frame of the node, so the model runs the graph on
    one frame's planes), frame properties (the chroma siting is
    VapourSynth's default, left, and the range limited for YUV and GRAY;
    the script sets no property; a conversion between the YUV and RGB
    families reads its matrix from [_Matrix] when a frame is requested,
    which the model does not represent, so no theorem states the values
    of such a conversion), the error-diffusion dither [vsutil.depth]
    uses when it lowers the depth (line 68 with [i444]; the model
    rounds, which agrees wherever the value is a code, as in C23),
    half-float samples (16-bit float is treated as exact), the rounding
    and clamping of [std.Expr] and [std.BoxBlur] on integer formats
    (every call of the script runs on the 32-bit float clip of line 52,
    so none occurs), float overflow, and the IEEE rounding of 32-bit
    floats.

    Numbers: VapourSynth evaluates the float formats in IEEE single
    precision.  The theorems on values are stated over the real numbers
    (exact arithmetic) and the same definitions run over [Q] for
    concrete examples.  The division of [R] is total ([x / 0 = 0]), so
    over [R] a division by zero would go unseen; the instance [fsample]
    makes it visible: a sample there is an exact value and the
    proposition that its float computation stayed finite, which fails
    at a division by zero or at the square root of a negative number
    (the sources of [inf] and [nan] apart from overflow).  Its [max] and
    [min] are finite when both operands are.  C4 and C24 run [_Regress]
    at this instance. *)

From Stdlib Require Import List ZArith Lia QArith Qminmax Qround Qreals Reals Lra.
Import ListNotations.

Declare Scope recon_scope.
Delimit Scope recon_scope with recon.

(** ** Numeric interface: the operations [std.Expr] and the filters use *)

Class ExprNum (A : Type) := {
  nzero : A;
  nlit : Q -> A;
  nadd : A -> A -> A;
  nsub : A -> A -> A;
  nmul : A -> A -> A;
  ndiv : A -> A -> A;
  nmax : A -> A -> A;
  nmin : A -> A -> A;
  nsqrt : A -> A;
  nabs : A -> A
}.


(** Exact arithmetic: the instance every theorem is stated at. *)
#[export] Instance R_num : ExprNum R := {
  nzero := 0%R;
  nlit := Q2R;
  nadd := Rplus;
  nsub := Rminus;
  nmul := Rmult;
  ndiv := Rdiv;
  nmax := Rmax;
  nmin := Rmin;
  nsqrt := sqrt;
  nabs := Rabs
}.

(** Rational arithmetic, to run the model on concrete planes.  The square
    root is approximated by Newton steps, each iterate rounded down to the
    grid [2^-40] so that the rationals keep a bounded size (exact Newton
    iterates double their number of digits at every step); only examples
    use it. *)
Definition qround (q : Q) : Q :=
  Qmake (Qfloor (q * inject_Z (Z.pow 2 40))) (Pos.pow 2 40).

Fixpoint qsqrt_newton (n : nat) (x g : Q) : Q :=
  match n with
  | O => g
  | S n' => qsqrt_newton n' x (qround ((g + x / g) / 2))
  end.

Definition qsqrt (x : Q) : Q :=
  if Qle_bool x 0 then 0 else qsqrt_newton 40 x (qround (Qmax x 1)).

#[export] Instance Q_num : ExprNum Q := {
  nzero := 0%Q;
  nlit := fun q => q;
  nadd := Qplus;
  nsub := Qminus;
  nmul := Qmult;
  ndiv := Qdiv;
  nmax := Qmax;
  nmin := Qmin;
  nsqrt := qsqrt;
  nabs := Qabs.Qabs
}.

(** IEEE finiteness.  VapourSynth computes the float formats in single
    precision, where a division by zero gives an infinity or a NaN and
    the square root of a negative number gives a NaN, both of which every
    later operation propagates.  An [fsample] is the exact value of a
    sample together with the proposition that its float computation
    stayed finite: [ndiv] needs a non-zero divisor, [nsqrt] a
    non-negative argument, every other operation finite operands.
    Overflow is not modelled (the values are real numbers), and [max] and
    [min] are finite when both operands are, although an IEEE [max] may
    drop a NaN operand: the abstraction can only call a finite float
    non-finite, never the converse, so a proof of finiteness holds of the
    floats. *)
Record fsample := FS { fval : R; ffin : Prop }.

#[export] Instance F_num : ExprNum fsample := {
  nzero := FS 0%R True;
  nlit := fun q => FS (Q2R q) True;
  nadd := fun a b => FS (fval a + fval b)%R (ffin a /\ ffin b);
  nsub := fun a b => FS (fval a - fval b)%R (ffin a /\ ffin b);
  nmul := fun a b => FS (fval a * fval b)%R (ffin a /\ ffin b);
  ndiv := fun a b => FS (fval a / fval b)%R (ffin a /\ ffin b /\ fval b <> 0%R);
  nmax := fun a b => FS (Rmax (fval a) (fval b)) (ffin a /\ ffin b);
  nmin := fun a b => FS (Rmin (fval a) (fval b)) (ffin a /\ ffin b);
  nsqrt := fun a => FS (sqrt (fval a)) (ffin a /\ (0 <= fval a)%R);
  nabs := fun a => FS (Rabs (fval a)) (ffin a)
}.

(** Unfold the [R] instance to the real-number operations. *)
Ltac num_R := cbn [nzero nlit nadd nsub nmul ndiv nmax nmin nsqrt nabs R_num] in *.

(** ** Results: a value or the error a call raises *)

Inductive res (E A : Type) : Type :=
| Ok (a : A)
| Err (e : E).
Arguments Ok {E A} a.
Arguments Err {E A} e.

Definition res_bind {E A B} (m : res E A) (k : A -> res E B) : res E B :=
  match m with
  | Ok a => k a
  | Err e => Err e
  end.

Notation "'let*' x ':=' m 'in' k" := (res_bind m (fun x => k))
  (at level 10, x name, m at level 100, k at level 200) : recon_scope.
Open Scope recon_scope.

Lemma res_bind_ok {E A B} (m : res E A) (k : A -> res E B) b :
  res_bind m k = Ok b -> exists a, m = Ok a /\ k a = Ok b.
Proof. destruct m; cbn; [eauto | discriminate]. Qed.

(** ** Windows and the clamp-to-edge border *)

(** The offsets [-r .. r] of a window of radius [r], in increasing order. *)
Definition offsets (r : nat) : list Z :=
  map (fun k => Z.of_nat k - Z.of_nat r)%Z (seq 0 (2 * r + 1)).

(** Clamp a coordinate into [0, n-1]: the border policy of the box blur. *)
Definition clampz (n : nat) (c : Z) : Z := Z.max 0 (Z.min (Z.of_nat n - 1) c).

(** Sum of a list through the interface. *)
Definition nsum {A} `{ExprNum A} (l : list A) : A := fold_right nadd nzero l.

(** ** Generic lemmas *)

Create HintDb recon.
Create Rewrite HintDb recon_rw.

Lemma length_offsets r : length (offsets r) = (2 * r + 1)%nat.
Proof. unfold offsets. now rewrite length_map, length_seq. Qed.

Lemma clampz_range n c : (0 < n)%nat -> (0 <= clampz n c < Z.of_nat n)%Z.
Proof. intros Hn. unfold clampz. lia. Qed.

Lemma clampz_id n c : (0 <= c < Z.of_nat n)%Z -> clampz n c = c.
Proof. intros Hc. unfold clampz. lia. Qed.

Lemma nsum_R_app (l1 l2 : list R) : nsum (l1 ++ l2) = (nsum l1 + nsum l2)%R.
Proof.
  unfold nsum. induction l1 as [|a l1 IH]; cbn [app fold_right]; num_R.
  - lra.
  - rewrite IH. lra.
Qed.

Lemma nsum_R_cons (a : R) l : nsum (a :: l) = (a + nsum l)%R.
Proof. reflexivity. Qed.

Lemma nsum_R_nil : @nsum R _ [] = 0%R.
Proof. reflexivity. Qed.

Lemma nsum_R_map_scale {T} (g : T -> R) c l :
  nsum (map (fun a => (g a * c)%R) l) = (nsum (map g l) * c)%R.
Proof.
  induction l as [|a l IH]; cbn [map]; rewrite ?nsum_R_cons, ?nsum_R_nil; [lra|].
  rewrite IH. lra.
Qed.

Lemma nth_map_seq {T} (g : nat -> T) n i d :
  (i < n)%nat -> nth i (map g (seq 0 n)) d = g i.
Proof.
  intros Hi. rewrite (nth_indep _ d (g 0%nat)) by (rewrite length_map, length_seq; lia).
  rewrite map_nth, seq_nth by lia. reflexivity.
Qed.

Lemma length_flat_map_const {T U} (F : T -> list U) l m :
  (forall a, length (F a) = m) -> length (flat_map F l) = (length l * m)%nat.
Proof.
  intros HF. induction l as [|a l IH]; [reflexivity|].
  cbn [flat_map length]. rewrite length_app, HF, IH. lia.
Qed.

Lemma Forall2_map_r {T U} (P : T -> U -> Prop) (g : T -> U) l :
  (forall a, In a l -> P a (g a)) -> Forall2 P l (map g l).
Proof.
  induction l as [|a l IH]; intros HP; constructor; auto with datatypes.
Qed.

(** Sliding a sum over [0 .. m-1] by one index. *)
Lemma nsum_R_seq_shift (G : Z -> R) m :
  (nsum (map (fun k => G (Z.of_nat k + 1)%Z) (seq 0 m)) + G 0%Z
   = nsum (map (fun k => G (Z.of_nat k)) (seq 0 m)) + G (Z.of_nat m))%R.
Proof.
  induction m as [|m IH]; [cbn; lra|].
  rewrite seq_S, !map_app, !nsum_R_app. cbn [map]. rewrite !nsum_R_cons, !nsum_R_nil.
  replace (Z.of_nat (0 + m) + 1)%Z with (Z.of_nat (S m)) by lia.
  replace (Z.of_nat (0 + m)) with (Z.of_nat m) by lia.
  lra.
Qed.

#[export] Hint Rewrite nsum_R_app nsum_R_cons nsum_R_nil length_offsets : recon_rw.
#[export] Hint Resolve clampz_range clampz_id : recon.
