(* ===== verification/Stats.v ===== *)
(** * Moments over a finite window

    The box filter of [_Regress] turns every per-pixel product into its
    mean over the window of the pixel.  This file states those means over
    an arbitrary finite list of sample points [L] (the window) and proves
    the facts the regression relies on: linearity of the mean, the
    variance [E[X^2] - E[X]^2] is non-negative, the covariance
    [E[XY] - E[X]E[Y]] obeys the Cauchy-Schwarz bound, and the moments of
    an exactly linear or a constant window. *)

From Stdlib Require Import List ZArith Lia QArith Reals Lra Psatz.
From S2P Require Import Prelude.
Import ListNotations.
Open Scope R_scope.

Section Window.
Context {P : Type}.

(** Sum and mean of a sample function over the window points. *)
Definition wsum (L : list P) (f : P -> R) : R := nsum (map f L).
Definition wmean (L : list P) (f : P -> R) : R := wsum L f / INR (length L).

(** The variance and covariance exactly as the code forms them from
    the box-filtered moments (lines 97-99 of recon.py). *)
Definition wvar (L : list P) (f : P -> R) : R :=
  wmean L (fun p => f p * f p) - wmean L f * wmean L f.
Definition wcov (L : list P) (f g : P -> R) : R :=
  wmean L (fun p => f p * g p) - wmean L f * wmean L g.

Lemma wsum_cons p L f : wsum (p :: L) f = f p + wsum L f.
Proof. reflexivity. Qed.

Lemma wsum_nil f : wsum [] f = 0.
Proof. reflexivity. Qed.

Lemma wsum_app L1 L2 f : wsum (L1 ++ L2) f = wsum L1 f + wsum L2 f.
Proof. unfold wsum. now rewrite map_app, nsum_R_app. Qed.

Lemma wsum_flat_map {T} (F : T -> list P) (l : list T) f :
  wsum (flat_map F l) f = nsum (map (fun a => wsum (F a) f) l).
Proof.
  induction l as [|a l IH]; [reflexivity|].
  cbn [flat_map map]. now rewrite wsum_app, IH, nsum_R_cons.
Qed.

Lemma wsum_ext L f g :
  (forall p, In p L -> f p = g p) -> wsum L f = wsum L g.
Proof.
  induction L as [|p L IH]; intros H; [reflexivity|].
  rewrite !wsum_cons, H, IH; auto with datatypes.
Qed.

Lemma wsum_lin L a b f g :
  wsum L (fun p => a * f p + b * g p) = a * wsum L f + b * wsum L g.
Proof.
  induction L as [|p L IH]; rewrite ?wsum_cons, ?wsum_nil, ?IH; lra.
Qed.

Lemma wsum_const L c : wsum L (fun _ => c) = INR (length L) * c.
Proof.
  induction L as [|p L IH].
  - rewrite wsum_nil. cbn [length INR]. lra.
  - rewrite wsum_cons, IH. cbn [length]. rewrite S_INR. lra.
Qed.

Lemma wsum_nonneg L f : (forall p, 0 <= f p) -> 0 <= wsum L f.
Proof.
  intros H. induction L as [|p L IH]; rewrite ?wsum_cons, ?wsum_nil;
    [lra | specialize (H p); lra].
Qed.

(** Every moment identity below is an instance of this one: the sum of
    a quadratic polynomial in two sample functions. *)
Lemma wsum_poly L f g a b c d e k :
  wsum L (fun p => a * (f p * f p) + b * (f p * g p) + c * (g p * g p)
                   + d * f p + e * g p + k)
  = a * wsum L (fun p => f p * f p) + b * wsum L (fun p => f p * g p)
    + c * wsum L (fun p => g p * g p) + d * wsum L f + e * wsum L g
    + k * INR (length L).
Proof.
  induction L as [|p L IH].
  - rewrite !wsum_nil. cbn [length INR]. lra.
  - rewrite !wsum_cons, IH. cbn [length]. rewrite S_INR. ring.
Qed.

Lemma wmean_ext L f g :
  (forall p, In p L -> f p = g p) -> wmean L f = wmean L g.
Proof. intros H. unfold wmean. now rewrite (wsum_ext L f g H). Qed.

Lemma wmean_nonneg L f : (forall p, 0 <= f p) -> 0 <= wmean L f.
Proof.
  intros H. unfold wmean, Rdiv. apply Rmult_le_pos; [now apply wsum_nonneg|].
  destruct (length L); [cbn [INR]; rewrite Rinv_0; lra|].
  left. apply Rinv_0_lt_compat, lt_0_INR. lia.
Qed.

Section NonEmpty.
Variable L : list P.
Hypothesis HL : L <> [].

Lemma len_pos : 0 < INR (length L).
Proof. destruct L; [congruence|]. apply lt_0_INR. cbn [length]. lia. Qed.

Lemma wmean_poly f g a b c d e k :
  wmean L (fun p => a * (f p * f p) + b * (f p * g p) + c * (g p * g p)
                    + d * f p + e * g p + k)
  = a * wmean L (fun p => f p * f p) + b * wmean L (fun p => f p * g p)
    + c * wmean L (fun p => g p * g p) + d * wmean L f + e * wmean L g + k.
Proof.
  pose proof len_pos. unfold wmean. rewrite wsum_poly. field. lra.
Qed.

(** Rewrite a mean to the polynomial form of [wmean_poly]. *)
Ltac to_poly f g a b c d e k :=
  rewrite (wmean_ext L _ (fun p => a * (f p * f p) + b * (f p * g p)
             + c * (g p * g p) + d * f p + e * g p + k))
    by (intros; ring);
  rewrite wmean_poly.

Lemma wmean_affine f a k :
  wmean L (fun p => a * f p + k) = a * wmean L f + k.
Proof. to_poly f f 0 0 0 a 0 k. ring. Qed.

Lemma wmean_const c : wmean L (fun _ => c) = c.
Proof. pose proof len_pos. unfold wmean. rewrite wsum_const. field. lra. Qed.

(** [E[X^2] - E[X]^2] is the mean squared deviation. *)
Lemma wvar_centered f :
  wvar L f = wmean L (fun p => (f p - wmean L f) * (f p - wmean L f)).
Proof.
  set (m := wmean L f). to_poly f f 1 0 0 (-2 * m) 0 (m * m).
  unfold wvar. fold m. ring.
Qed.

Lemma wvar_nonneg f : 0 <= wvar L f.
Proof.
  rewrite wvar_centered. apply wmean_nonneg. intros p. apply Rle_0_sqr.
Qed.

(** The variance of [g - t f] as a quadratic in [t]. *)
Lemma wvar_shift f g t :
  wvar L (fun p => g p - t * f p)
  = wvar L g - 2 * t * wcov L f g + t * t * wvar L f.
Proof.
  unfold wvar, wcov.
  to_poly f g (t * t) (-2 * t) 1 0 0 0.
  rewrite (wmean_ext L (fun p => g p - t * f p)
             (fun p => 0 * (f p * f p) + 0 * (f p * g p) + 0 * (g p * g p)
                       + (- t) * f p + 1 * g p + 0)) by (intros; ring).
  rewrite wmean_poly. ring.
Qed.

(** Cauchy-Schwarz for the window: the squared covariance is at most
    the product of the variances. *)
Lemma wcov_cauchy_schwarz f g :
  wcov L f g * wcov L f g <= wvar L f * wvar L g.
Proof.
  pose proof (wvar_nonneg f) as Hf. pose proof (wvar_nonneg g) as Hg.
  set (c := wcov L f g) in *. set (vf := wvar L f) in *. set (vg := wvar L g) in *.
  assert (Hq : forall t, 0 <= vg - 2 * t * c + t * t * vf).
  { intros t. unfold vf, vg, c. rewrite <- wvar_shift. apply wvar_nonneg. }
  destruct (Req_dec vf 0) as [H0 | H0].
  - destruct (Req_dec c 0) as [Hc | Hc]; [rewrite Hc, H0; lra|].
    specialize (Hq ((vg + 1) / (2 * c))).
    replace (2 * ((vg + 1) / (2 * c)) * c) with (vg + 1) in Hq by (field; auto).
    rewrite H0 in Hq. lra.
  - specialize (Hq (c / vf)).
    assert (Ht : c / vf * vf = c) by (field; auto).
    nra.
Qed.

(** A window on which [g = a f + b] exactly. *)
Section Linear.
Variables (f g : P -> R) (a b : R).
Hypothesis Hlin : forall p, In p L -> g p = a * f p + b.

Lemma wmean_linear : wmean L g = a * wmean L f + b.
Proof. rewrite (wmean_ext L g _ Hlin). apply wmean_affine. Qed.

Lemma wcov_linear : wcov L f g = a * wvar L f.
Proof.
  unfold wcov, wvar. rewrite wmean_linear.
  rewrite (wmean_ext L (fun p => f p * g p)
             (fun p => a * (f p * f p) + 0 * (f p * f p) + 0 * (f p * f p)
                       + b * f p + 0 * f p + 0))
    by (intros p Hp; rewrite (Hlin p Hp); ring).
  rewrite wmean_poly. ring.
Qed.

Lemma wvar_linear : wvar L g = a * a * wvar L f.
Proof.
  unfold wvar. rewrite wmean_linear.
  rewrite (wmean_ext L (fun p => g p * g p)
             (fun p => (a * a) * (f p * f p) + 0 * (f p * f p)
                       + 0 * (f p * f p) + (2 * a * b) * f p + 0 * f p + b * b))
    by (intros p Hp; rewrite (Hlin p Hp); ring).
  rewrite wmean_poly. ring.
Qed.
End Linear.

(** A window on which [f] is constant. *)
Lemma wvar_const f c :
  (forall p, In p L -> f p = c) -> wvar L f = 0.
Proof.
  intros Hc. rewrite (wvar_linear (fun _ => 0) f 0 c) by (intros p Hp; rewrite Hc; auto; ring).
  ring.
Qed.

Lemma wcov_const f g c :
  (forall p, In p L -> f p = c) -> wcov L f g = 0.
Proof.
  intros Hc. unfold wcov.
  rewrite (wmean_ext L f (fun _ => c) Hc).
  rewrite (wmean_ext L (fun p => f p * g p) (fun p => c * g p + 0))
    by (intros p Hp; rewrite Hc; auto; ring).
  rewrite wmean_affine, wmean_const. ring.
Qed.
End NonEmpty.
End Window.
