(* ===== verification/RpnExpr.v ===== *)
(** * [std.Expr]: the reverse-Polish per-pixel evaluator

    Every per-pixel formula of [recon.py] is a string handed to
    VapourSynth's [std.Expr] (lines 86, 97-104, 112-115).  [std.Expr] is
    not under [src/]; it is modelled here from its documented behaviour:
    the string is split on white space; each word is an operator, a clip
    variable ([x], [y], [z] name clips 0-2 and [a]..[w] clips 3-25) or a
    decimal number; the program is checked once, when the filter is
    created, for unknown words, references to missing clips, stack
    underflow and a final stack that does not hold exactly one value; an
    empty string copies the first clip.  Each pixel is then computed by
    running the token list on a stack.

    The creation-time check is also stated as a typing relation [wt] on
    token lists (stack depth before and after).  Lemmas: the checker
    accepts exactly the well-typed token lists ([compile_words_typed]);
    a token list is well typed exactly when the machine runs it without
    failing, from a stack of the same depth ([wt_run_exact]); a program
    that compiles runs on every pixel to exactly one value
    ([compile_run_total]). *)

From Stdlib Require Import List ZArith Lia QArith String Ascii.
From S2P Require Import Prelude.
Import ListNotations.
Local Open Scope string_scope.

Module Expr.

(** ** Tokens *)

Inductive token : Type :=
| TVar (i : nat)
| TNum (q : Q)
| TAdd | TSub | TMul | TDiv | TMax | TMin | TSqrt | TAbs | TDup | TSwap.

(** The errors [std.Expr] raises when the filter is created. *)
Inductive expr_error : Type :=
| EBadToken (word : string)      (* "failed to convert to float" *)
| EClipIndex (i : nat)           (* a variable with no clip behind it *)
| EUnderflow (pos : nat)         (* too few values on the stack *)
| EUnbalanced (depth : nat).     (* the final stack does not hold one value *)

Inductive prog : Type :=
| PCopy                           (* the empty string: copy the first clip *)
| PRun (toks : list token).

(** ** Splitting on white space *)

Definition is_space (c : ascii) : bool :=
  (c =? " ")%char || (c =? "009")%char || (c =? "010")%char || (c =? "013")%char.

Definition flush (acc : list ascii) (rest : list string) : list string :=
  match acc with
  | [] => rest
  | _ => string_of_list_ascii (rev acc) :: rest
  end.

Fixpoint split_ws (s : string) (acc : list ascii) : list string :=
  match s with
  | EmptyString => flush acc []
  | String c s' => if is_space c then flush acc (split_ws s' []) else split_ws s' (c :: acc)
  end.

(** ** Decimal literals: [[+-]digits[.digits][(e|E)[+-]digits]] *)

Definition digit_val (c : ascii) : option Z :=
  let n := nat_of_ascii c in
  if (48 <=? n)%nat && (n <=? 57)%nat then Some (Z.of_nat (n - 48)) else None.

Fixpoint take_digits (l : list ascii) (acc : Z) (cnt : nat) : Z * nat * list ascii :=
  match l with
  | c :: l' =>
      match digit_val c with
      | Some d => take_digits l' (acc * 10 + d)%Z (S cnt)
      | None => (acc, cnt, l)
      end
  | [] => (acc, cnt, [])
  end.

Definition take_sign (l : list ascii) : Z * list ascii :=
  match l with
  | c :: l' => if (c =? "-")%char then (-1, l')%Z
               else if (c =? "+")%char then (1, l')%Z else (1, l)%Z
  | [] => (1, [])%Z
  end.

(** [m * 10^k] as an exact rational. *)
Definition scale10 (m k : Z) : Q :=
  if (0 <=? k)%Z then inject_Z (m * 10 ^ k) else Qmake m (Z.to_pos (10 ^ (- k))).

Definition parse_number (s : string) : option Q :=
  let '(sg, l1) := take_sign (list_ascii_of_string s) in
  let '(ip, ni, l2) := take_digits l1 0 0 in
  let '(mant, nf, l3) :=
    match l2 with
    | c :: l2' => if (c =? ".")%char then take_digits l2' ip 0 else (ip, O, l2)
    | [] => (ip, O, l2)
    end in
  if (ni + nf =? 0)%nat then None else
  match l3 with
  | [] => Some (scale10 (sg * mant) (- Z.of_nat nf))
  | c :: l4 =>
      if (c =? "e")%char || (c =? "E")%char then
        let '(es, l5) := take_sign l4 in
        let '(ev, ne, l6) := take_digits l5 0 0 in
        match ne, l6 with
        | S _, [] => Some (scale10 (sg * mant) (es * ev - Z.of_nat nf))
        | _, _ => None
        end
      else None
  end.

(** The clip a one-letter variable names. *)
Definition var_index (s : string) : option nat :=
  match s with
  | String c EmptyString =>
      let n := nat_of_ascii c in
      if (n =? 120)%nat then Some 0%nat          (* x *)
      else if (n =? 121)%nat then Some 1%nat     (* y *)
      else if (n =? 122)%nat then Some 2%nat     (* z *)
      else if (97 <=? n)%nat && (n <=? 119)%nat then Some (n - 97 + 3)%nat  (* a..w *)
      else None
  | _ => None
  end.

Definition classify (w : string) : option token :=
  if w =? "+" then Some TAdd else if w =? "-" then Some TSub
  else if w =? "*" then Some TMul else if w =? "/" then Some TDiv
  else if w =? "max" then Some TMax else if w =? "min" then Some TMin
  else if w =? "sqrt" then Some TSqrt else if w =? "abs" then Some TAbs
  else if w =? "dup" then Some TDup else if w =? "swap" then Some TSwap
  else match var_index w with
       | Some i => Some (TVar i)
       | None => option_map TNum (parse_number w)
       end.

(** Values a token pops and pushes. *)
Definition arity (t : token) : nat * nat :=
  match t with
  | TVar _ | TNum _ => (0, 1)
  | TSqrt | TAbs => (1, 1)
  | TDup => (1, 2)
  | TSwap => (2, 2)
  | TAdd | TSub | TMul | TDiv | TMax | TMin => (2, 1)
  end%nat.

Definition check_clip (nclips : nat) (t : token) : res expr_error unit :=
  match t with
  | TVar i => if (nclips <=? i)%nat then Err (EClipIndex i) else Ok tt
  | _ => Ok tt
  end.

(** One pass over the words, as the filter constructor does: convert the
    word, check its clip, check the stack depth [d] before it. *)
Fixpoint compile_words (nclips : nat) (ws : list string) (pos d : nat)
  : res expr_error (list token * nat) :=
  match ws with
  | [] => Ok ([], d)
  | w :: ws' =>
      match classify w with
      | None => Err (EBadToken w)
      | Some t =>
          let* _ := check_clip nclips t in
          let '(need, push) := arity t in
          if (d <? need)%nat then Err (EUnderflow pos) else
          let* r := compile_words nclips ws' (S pos) (d - need + push) in
          Ok (t :: fst r, snd r)
      end
  end.

Definition compile (nclips : nat) (s : string) : res expr_error prog :=
  if string_dec s "" then Ok PCopy else
  let* r := compile_words nclips (split_ws s []) 0 0 in
  if (snd r =? 1)%nat then Ok (PRun (fst r)) else Err (EUnbalanced (snd r)).

(** A word: a non-empty string without white space, as Python renders a
    number into an f-string. *)
Definition is_word (s : string) : bool :=
  negb (String.eqb s "") && forallb (fun c => negb (is_space c)) (list_ascii_of_string s).

(** ** Stack typing *)

(** [wt nclips d toks d']: from a stack of depth [d], with [nclips] input
    clips, every token names an existing clip and finds the values it
    pops, and the sequence leaves a stack of depth [d']. *)
Inductive wt (nclips : nat) : nat -> list token -> nat -> Prop :=
| wt_nil d : wt nclips d [] d
| wt_cons d t ts d' :
    check_clip nclips t = Ok tt -> (fst (arity t) <= d)%nat ->
    wt nclips (d - fst (arity t) + snd (arity t)) ts d' ->
    wt nclips d (t :: ts) d'.

Lemma compile_words_sound nclips ws pos d toks d' :
  compile_words nclips ws pos d = Ok (toks, d') ->
  Forall2 (fun w t => classify w = Some t) ws toks /\ wt nclips d toks d'.
Proof.
  revert pos d toks. induction ws as [|w ws IH]; intros pos d toks Hc; cbn [compile_words] in Hc.
  - injection Hc as <- <-. split; constructor.
  - destruct (classify w) as [t|] eqn:Ht; [|discriminate].
    destruct (check_clip nclips t) as [[]|] eqn:Hcl; cbn [res_bind] in Hc; [|discriminate].
    destruct (arity t) as [need push] eqn:Ha.
    destruct (Nat.ltb_spec d need); [discriminate|].
    destruct (compile_words nclips ws (S pos) (d - need + push)) as [[ts d'']|] eqn:Hr;
      cbn [res_bind fst snd] in Hc; [|discriminate].
    injection Hc as <- ->. destruct (IH _ _ _ Hr) as [Hf Hw].
    split; [now constructor|]. apply wt_cons; rewrite ?Ha; cbn [fst snd]; auto.
Qed.

Lemma compile_words_complete nclips ws toks pos d d' :
  Forall2 (fun w t => classify w = Some t) ws toks -> wt nclips d toks d' ->
  compile_words nclips ws pos d = Ok (toks, d').
Proof.
  intros Hf. revert pos d. induction Hf as [|w t ws ts Hwt Hf IH]; intros pos d Hw.
  - inversion Hw; subst. reflexivity.
  - inversion Hw as [|? ? ? ? Hcl Hd Hrest]; subst. cbn [compile_words]. rewrite Hwt, Hcl.
    cbn [res_bind]. destruct (arity t) as [need push] eqn:Ha. cbn [fst snd] in Hd, Hrest.
    destruct (Nat.ltb_spec d need); [lia|]. now rewrite (IH (S pos) _ Hrest).
Qed.

(** Type checking of [std.Expr] programs: the pass the filter
    constructor makes over the words accepts them, with the token list
    [toks] and the final depth [d'], exactly when every word converts to
    its token and [toks] is well typed for the stack from depth [d]. *)
Theorem compile_words_typed nclips ws pos d toks d' :
  compile_words nclips ws pos d = Ok (toks, d')
  <-> Forall2 (fun w t => classify w = Some t) ws toks /\ wt nclips d toks d'.
Proof.
  split; [apply compile_words_sound|].
  intros [Hf Hw]. now apply compile_words_complete.
Qed.

(** A program [compile] accepts is well typed from the empty stack to a
    stack of one value. *)
Lemma compile_wt nclips s toks : compile nclips s = Ok (PRun toks) -> wt nclips 0 toks 1.
Proof.
  unfold compile. intros Hc. destruct (string_dec s ""); [discriminate|].
  destruct (compile_words nclips (split_ws s []) 0 0) as [[ts d]|] eqn:Hw;
    cbn [res_bind fst snd] in Hc; [|discriminate].
  destruct (Nat.eqb_spec d 1); [|discriminate]. injection Hc as <-. subst d.
  exact (proj2 (compile_words_sound _ _ _ _ _ _ Hw)).
Qed.

(** ** Words spliced into a program string *)

Lemma split_ws_app_word w s acc :
  forallb (fun c => negb (is_space c)) (list_ascii_of_string w) = true ->
  split_ws (w ++ s) acc = split_ws s (rev (list_ascii_of_string w) ++ acc)%list.
Proof.
  revert acc. induction w as [|c w IH]; intros acc Hw; [reflexivity|].
  cbn [list_ascii_of_string forallb] in Hw. apply andb_prop in Hw as [Hc Hw].
  apply negb_true_iff in Hc. cbn [append split_ws]. rewrite Hc, IH by exact Hw.
  cbn [rev list_ascii_of_string]. now rewrite <- app_assoc.
Qed.

(** The tokenizer reads back a word spliced between spaces. *)
Lemma split_ws_word w s :
  is_word w = true ->
  split_ws (w ++ String " " s) [] = w :: split_ws s [].
Proof.
  unfold is_word. intros Hw. apply andb_prop in Hw as [Hne Hw].
  rewrite split_ws_app_word by exact Hw. rewrite app_nil_r. cbn [split_ws].
  change (is_space " ") with true. cbv iota.
  destruct (list_ascii_of_string w) as [|c l] eqn:El.
  - destruct w; [discriminate Hne | discriminate El].
  - assert (Hr : rev (c :: l) <> []).
    { intros E. apply (f_equal (@List.length ascii)) in E. rewrite length_rev in E. discriminate. }
    destruct (rev (c :: l)) as [|d l'] eqn:Er; [congruence|]. cbn [flush].
    rewrite <- Er, rev_involutive, <- El, string_of_list_ascii_of_string. reflexivity.
Qed.

(** A clip variable is never a number. *)
Lemma var_index_not_number w i : var_index w = Some i -> parse_number w = None.
Proof.
  destruct w as [|c [|c' w']]; try discriminate.
  destruct c as [[] [] [] [] [] [] [] []]; vm_compute; first [discriminate | reflexivity].
Qed.

(** A word that parses as a number is a number token. *)
Lemma classify_num w q : parse_number w = Some q -> classify w = Some (TNum q).
Proof.
  intros Hq. unfold classify.
  repeat match goal with
  | |- context [String.eqb w ?o] =>
      destruct (String.eqb_spec w o) as [->|_]; [vm_compute in Hq; discriminate|]
  end.
  destruct (var_index w) as [i|] eqn:Ev.
  - rewrite (var_index_not_number w i Ev) in Hq. discriminate.
  - now rewrite Hq.
Qed.

(** ** Per-pixel evaluation *)

Section Eval.
Context {A : Type} `{ExprNum A}.

Definition step (vars : list A) (t : token) (st : list A) : option (list A) :=
  match t, st with
  | TVar i, _ => option_map (fun v => v :: st) (nth_error vars i)
  | TNum q, _ => Some (nlit q :: st)
  | TAdd, b :: a :: st' => Some (nadd a b :: st')
  | TSub, b :: a :: st' => Some (nsub a b :: st')
  | TMul, b :: a :: st' => Some (nmul a b :: st')
  | TDiv, b :: a :: st' => Some (ndiv a b :: st')
  | TMax, b :: a :: st' => Some (nmax a b :: st')
  | TMin, b :: a :: st' => Some (nmin a b :: st')
  | TSqrt, a :: st' => Some (nsqrt a :: st')
  | TAbs, a :: st' => Some (nabs a :: st')
  | TDup, a :: st' => Some (a :: a :: st')
  | TSwap, b :: a :: st' => Some (a :: b :: st')
  | _, _ => None
  end.

Fixpoint run (vars : list A) (toks : list token) (st : list A) : option (list A) :=
  match toks with
  | [] => Some st
  | t :: ts =>
      match step vars t st with
      | Some st' => run vars ts st'
      | None => None
      end
  end.

(** The value of one output pixel from the input pixels [vars]. *)
Definition pixel (p : prog) (vars : list A) : A :=
  match p with
  | PCopy => hd nzero vars
  | PRun toks =>
      match run vars toks [] with
      | Some [v] => v
      | _ => nzero
      end
  end.

(** The formula a string computes on given input pixels. *)
Definition denote (nclips : nat) (s : string) (vars : list A) : res expr_error A :=
  let* p := compile nclips s in Ok (pixel p vars).
(** A token that passes the creation-time checks runs on any stack of
    the depth the check saw, and leaves the depth the check predicts. *)
Lemma step_total nclips (vars : list A) t (st : list A) u :
  check_clip nclips t = Ok u -> List.length vars = nclips ->
  (fst (arity t) <= List.length st)%nat ->
  exists st', step vars t st = Some st' /\
    List.length st' = (List.length st - fst (arity t) + snd (arity t))%nat.
Proof.
  intros Hc Hv Hd.
  destruct t; cbn [step arity fst snd] in *.
  { cbn in Hc. destruct (Nat.leb_spec nclips i); [discriminate|].
    destruct (nth_error vars i) eqn:E.
    - eexists; split; [reflexivity | simpl; lia].
    - apply nth_error_None in E. lia. }
  all: destruct st as [|a [|b st]]; simpl in *; try lia.
  all: eexists; split; [reflexivity | simpl; lia].
Qed.

(** A step that succeeds passed the creation-time checks and changed the
    depth as [arity] says. *)
Lemma step_inv nclips (vars : list A) t st st' :
  List.length vars = nclips -> step vars t st = Some st' ->
  check_clip nclips t = Ok tt /\ (fst (arity t) <= List.length st)%nat
  /\ List.length st' = (List.length st - fst (arity t) + snd (arity t))%nat.
Proof.
  intros Hv Hs. destruct t; cbn [step arity fst snd check_clip] in *.
  1: { destruct (nth_error vars i) eqn:E; cbn in Hs; [|discriminate]. injection Hs as <-.
        assert (i < List.length vars)%nat by (apply nth_error_Some; congruence).
        destruct (Nat.leb_spec nclips i); [lia|]. cbn. repeat split; lia. }
  1: { injection Hs as <-. cbn. repeat split; lia. }
  all: destruct st as [|a [|b st]]; try discriminate; injection Hs as <-; cbn; repeat split; lia.
Qed.

Lemma wt_run_total nclips d toks d' (vars st : list A) :
  wt nclips d toks d' -> List.length vars = nclips -> List.length st = d ->
  exists st', run vars toks st = Some st' /\ List.length st' = d'.
Proof.
  intros Hw. revert st. induction Hw as [d|d t ts d' Hcl Hd Hw IH]; intros st Hv Hs.
  - exists st. auto.
  - destruct (step_total nclips vars t st tt Hcl Hv) as [st1 [H1 L1]]; [lia|].
    destruct (IH st1 Hv) as [st2 [H2 L2]]; [lia|].
    exists st2. cbn [run]. now rewrite H1.
Qed.

Lemma run_wt nclips toks (vars st st' : list A) :
  List.length vars = nclips -> run vars toks st = Some st' ->
  wt nclips (List.length st) toks (List.length st').
Proof.
  intros Hv. revert st. induction toks as [|t ts IH]; intros st Hr; cbn [run] in Hr.
  - injection Hr as <-. constructor.
  - destruct (step vars t st) as [st1|] eqn:Hs; [|discriminate].
    destruct (step_inv nclips vars t st st1 Hv Hs) as (Hcl & Hd & L1).
    apply wt_cons; auto. rewrite <- L1. now apply IH.
Qed.

(** The stack typing is exact: on input pixels for [nclips] clips
    and a stack of depth [d], a token sequence is well typed with final
    depth [d'] exactly when running it succeeds with a stack of depth
    [d'], whatever the pixel values. *)
Theorem wt_run_exact nclips d toks d' (vars st : list A) :
  List.length vars = nclips -> List.length st = d ->
  wt nclips d toks d' <-> exists st', run vars toks st = Some st' /\ List.length st' = d'.
Proof.
  intros Hv Hs. split; [intros Hw; now apply (wt_run_total nclips d toks d')|].
  intros [st' [Hr <-]]. subst d. now apply (run_wt nclips toks vars st st').
Qed.

(** Safety of [std.Expr]: a program accepted when the filter is created
    evaluates every pixel to exactly one value, whatever the pixels. *)
Theorem compile_run_total nclips s toks (vars : list A) :
  compile nclips s = Ok (PRun toks) -> List.length vars = nclips ->
  exists v, run vars toks [] = Some [v].
Proof.
  intros Hc Hv.
  destruct (wt_run_total nclips 0 toks 1 vars [] (compile_wt nclips s toks Hc) Hv eq_refl)
    as [[|v [|? ?]] [Hr Hl]]; simpl in Hl; try lia.
  eauto.
Qed.
End Eval.

Lemma compile_run_total_example :
  compile 2 "x y dup * - 0 max"
    = Ok (PRun [TVar 0; TVar 1; TDup; TMul; TSub; TNum (inject_Z (0 * 10 ^ 0)); TMax])
  /\ List.length [3%Q; 4%Q] = 2%nat
  /\ exists v : Q, run [3%Q; 4%Q] [TVar 0; TVar 1; TDup; TMul; TSub;
                                    TNum (inject_Z (0 * 10 ^ 0)); TMax] [] = Some [v].
Proof.
  split; [vm_compute; reflexivity|]. split; [reflexivity|].
  apply (compile_run_total 2 "x y dup * - 0 max"); [vm_compute; reflexivity | reflexivity].
Defined.

End Expr.
