(* ===== verification/BoxBlur.v ===== *)
(** * [std.BoxBlur]: the sliding-window mean

    [_Regress] and [_mean] (recon.py lines 83 and 120) call
    [std.BoxBlur(c, hradius=r, vradius=r)], VapourSynth's box filter with
    one pass in each direction.  It is not under [src/]; it is modelled
    from the specification (sections 4.2, 6 and 9), with the border policy
    the specification leaves open fixed to clamp-to-edge: a window reaching
    past the border repeats the edge sample.

    The filter is separable: a horizontal pass over each row, then a
    vertical pass over each column.  Each pass keeps a running sum that
    enters the next sample and drops the oldest one while it moves along
    the line ([run_sum]); a radius of 0 leaves the line unchanged.

    Theorems: the running sum equals the direct window sum at every
    position ([blur_line_nth]); the two passes together give the mean over
    the [(2r+1) x (2r+1)] window of clamped points ([box_blur_mean]). *)

From Stdlib Require Import List ZArith Lia QArith Qreals Reals Lra FunctionalExtensionality.
From S2P Require Import Prelude Stats.
Import ListNotations.

(** A plane: the sample at column [x], row [y]. *)
Definition plane (A : Type) := Z -> Z -> A.

Module Blur.

Section Line.
Context {A : Type} `{ExprNum A}.

(** The samples of the window around [x] on a line of [n] samples. *)
Definition window_sum (r n : nat) (f : Z -> A) (x : Z) : A :=
  nsum (map (fun d => f (clampz n (x + d)%Z)) (offsets r)).

(** The running sum: emit [acc * scale] at [x], then slide the window by
    one, adding the entering sample and subtracting the leaving one. *)
Fixpoint run_sum (r n : nat) (f : Z -> A) (scale : A) (k : nat) (x : Z) (acc : A)
  : list A :=
  match k with
  | O => []
  | S k' =>
      nmul acc scale
      :: run_sum r n f scale k' (x + 1)%Z
           (nsub (nadd acc (f (clampz n (x + Z.of_nat r + 1)%Z)))
                 (f (clampz n (x - Z.of_nat r)%Z)))
  end.

(** One pass of radius [r] over a line of [n] samples. *)
Definition blur_line (r n : nat) (f : Z -> A) : list A :=
  match r with
  | O => map (fun i => f (Z.of_nat i)) (seq 0 n)
  | S _ => run_sum r n f (nlit (1 # Pos.of_nat (2 * r + 1))) n 0%Z (window_sum r n f 0%Z)
  end.
End Line.

Section Plane.
Context {A : Type} `{ExprNum A}.

Definition hpass (r w : nat) (p : plane A) : plane A :=
  fun x y => nth (Z.to_nat x) (blur_line r w (fun x' => p x' y)) nzero.

Definition vpass (r h : nat) (p : plane A) : plane A :=
  fun x y => nth (Z.to_nat y) (blur_line r h (fun y' => p x y')) nzero.

(** [std.BoxBlur(hradius=hr, vradius=vr)] on a [w x h] plane. *)
Definition box_blur (hr vr w h : nat) (p : plane A) : plane A :=
  vpass vr h (hpass hr w p).
End Plane.

(** ** The reference: the mean over the clamped window *)

Definition window_pts (r w h : nat) (x y : Z) : list (Z * Z) :=
  flat_map (fun dy => map (fun dx => (clampz w (x + dx), clampz h (y + dy))%Z) (offsets r))
           (offsets r).

Definition box_mean (r w h : nat) (p : plane R) (x y : Z) : R :=
  wmean (window_pts r w h x y) (fun q => p (fst q) (snd q)).

(** ** The blur is the window mean *)

Section Proofs.
Variables (r : nat).

Lemma window_sum_seq n (f : Z -> R) x :
  window_sum r n f x
  = nsum (map (fun k => f (clampz n (x + (Z.of_nat k - Z.of_nat r)))%Z) (seq 0 (2 * r + 1))).
Proof. unfold window_sum, offsets. now rewrite map_map. Qed.

(** Moving the window by one sample adds the entering sample and drops
    the leaving one. *)
Lemma window_sum_slide n (f : Z -> R) x :
  window_sum r n f (x + 1)%Z
  = (window_sum r n f x + f (clampz n (x + Z.of_nat r + 1)%Z)
     - f (clampz n (x - Z.of_nat r)%Z))%R.
Proof.
  rewrite !window_sum_seq.
  set (G := fun j => f (clampz n (x + (j - Z.of_nat r))%Z)).
  pose proof (nsum_R_seq_shift G (2 * r + 1)) as Hs. unfold G in Hs.
  rewrite (map_ext (fun k => f (clampz n (x + 1 + (Z.of_nat k - Z.of_nat r)))%Z)
             (fun k => f (clampz n (x + (Z.of_nat k + 1 - Z.of_nat r)))%Z))
    by (intros; f_equal; f_equal; lia).
  replace (x + Z.of_nat r + 1)%Z with (x + (Z.of_nat (2 * r + 1) - Z.of_nat r))%Z by lia.
  replace (x - Z.of_nat r)%Z with (x + (0 - Z.of_nat r))%Z by lia.
  lra.
Qed.

Lemma run_sum_nth n (f : Z -> R) s k x acc i :
  acc = window_sum r n f x -> (i < k)%nat ->
  nth i (run_sum r n f s k x acc) 0%R = (window_sum r n f (x + Z.of_nat i) * s)%R.
Proof.
  revert x acc i. induction k as [|k IH]; intros x acc i Hacc Hi; [lia|].
  destruct i as [|i]; cbn [run_sum nth]; num_R.
  - subst acc. now rewrite Z.add_0_r.
  - rewrite IH by (try lia; rewrite Hacc, window_sum_slide; reflexivity).
    now replace (x + Z.of_nat (S i))%Z with (x + 1 + Z.of_nat i)%Z by lia.
Qed.

Lemma Q2R_inv_nat m : (0 < m)%nat -> Q2R (1 # Pos.of_nat m) = (/ INR m)%R.
Proof.
  intros Hm. unfold Q2R. cbn [Qnum Qden]. rewrite INR_IZR_INZ.
  replace (Z.of_nat m) with (Z.pos (Pos.of_nat m)) by lia. lra.
Qed.

(** One pass computes the window mean at every position of the line. *)
Lemma blur_line_nth n (f : Z -> R) x :
  (0 <= x < Z.of_nat n)%Z ->
  nth (Z.to_nat x) (blur_line r n f) 0%R = (window_sum r n f x / INR (2 * r + 1))%R.
Proof.
  intros Hx. unfold blur_line. destruct r as [|r'] eqn:Er.
  - rewrite nth_map_seq by lia. unfold window_sum, offsets. simpl. num_R.
    rewrite Z2Nat.id, Z.add_0_r, clampz_id by lia. lra.
  - rewrite <- Er. rewrite run_sum_nth by (try reflexivity; lia).
    num_R. rewrite Q2R_inv_nat by lia. rewrite Z2Nat.id by lia. reflexivity.
Qed.

Lemma hpass_eq w (p : plane R) x y :
  (0 <= x < Z.of_nat w)%Z ->
  hpass r w p x y = (window_sum r w (fun x' => p x' y) x / INR (2 * r + 1))%R.
Proof. intros Hx. unfold hpass. now rewrite blur_line_nth. Qed.

Lemma length_window_pts w h x y :
  length (window_pts r w h x y) = ((2 * r + 1) * (2 * r + 1))%nat.
Proof.
  unfold window_pts. rewrite (length_flat_map_const _ _ (2 * r + 1)).
  - now rewrite length_offsets.
  - intros a. now rewrite length_map, length_offsets.
Qed.

Lemma window_pts_nonempty w h x y : window_pts r w h x y <> [].
Proof.
  intros He. pose proof (length_window_pts w h x y) as Hl. rewrite He in Hl. cbn in Hl. lia.
Qed.

(** Every point of a window lies in the plane. *)
Lemma window_pts_in w h x y q :
  (0 < w)%nat -> (0 < h)%nat -> In q (window_pts r w h x y) ->
  (0 <= fst q < Z.of_nat w)%Z /\ (0 <= snd q < Z.of_nat h)%Z.
Proof.
  intros Hw Hh Hq. unfold window_pts in Hq. apply in_flat_map in Hq as [dy [_ Hq]].
  apply in_map_iff in Hq as [dx [<- _]]. cbn. auto using clampz_range.
Qed.

(** The window mean reads the plane only inside it. *)
Lemma box_mean_ext_in w h (p p' : plane R) x y :
  (0 < w)%nat -> (0 < h)%nat ->
  (forall i j, (0 <= i < Z.of_nat w)%Z -> (0 <= j < Z.of_nat h)%Z -> p i j = p' i j) ->
  box_mean r w h p x y = box_mean r w h p' x y.
Proof.
  intros Hw Hh Hp. unfold box_mean. apply wmean_ext. intros q Hq.
  destruct (window_pts_in w h x y q Hw Hh Hq). auto.
Qed.

(** [std.BoxBlur] with equal radii is the mean over the clamped
    [(2r+1) x (2r+1)] window, at every pixel of the plane. *)
Theorem box_blur_mean w h (p : plane R) x y :
  (0 <= x < Z.of_nat w)%Z -> (0 <= y < Z.of_nat h)%Z ->
  box_blur r r w h p x y = box_mean r w h p x y.
Proof.
  intros Hx Hy. unfold box_blur, vpass, box_mean, wmean.
  rewrite blur_line_nth by exact Hy. unfold window_sum at 1.
  rewrite (map_ext (fun d => hpass r w p x (clampz h (y + d)))
             (fun d => window_sum r w (fun x' => p x' (clampz h (y + d))) x
                       * / INR (2 * r + 1))%R)
    by (intros d; now rewrite hpass_eq).
  rewrite nsum_R_map_scale, length_window_pts. unfold window_pts.
  rewrite wsum_flat_map.
  rewrite (map_ext (fun dy => wsum (map (fun dx => (clampz w (x + dx), clampz h (y + dy)))%Z
                                        (offsets r)) (fun q => p (fst q) (snd q)))
             (fun dy => window_sum r w (fun x' => p x' (clampz h (y + dy))) x))
    by (intros dy; unfold wsum, window_sum; now rewrite map_map).
  rewrite mult_INR.
  assert (0 < INR (2 * r + 1))%R by (apply lt_0_INR; lia).
  field. lra.
Qed.
End Proofs.

(** ** Transport to another sample type

    The passes are written against the numeric interface, so they commute
    with any map between two instances that respects zero, literals,
    addition, subtraction and multiplication, and they keep any property
    of samples that those operations keep. *)

Section Transport.
Context {A B : Type} {EA : ExprNum A} {EB : ExprNum B}.
Variable hm : A -> B.
Hypotheses (hm_zero : hm nzero = nzero) (hm_lit : forall q, hm (nlit q) = nlit q)
           (hm_add : forall a b, hm (nadd a b) = nadd (hm a) (hm b))
           (hm_sub : forall a b, hm (nsub a b) = nsub (hm a) (hm b))
           (hm_mul : forall a b, hm (nmul a b) = nmul (hm a) (hm b)).

Lemma nsum_hom (l : list A) : hm (nsum l) = nsum (map hm l).
Proof. unfold nsum. induction l as [|a l IH]; cbn [fold_right map]; [exact hm_zero|]. now rewrite hm_add, IH. Qed.

Lemma run_sum_hom r n (f : Z -> A) scale k x acc :
  map hm (run_sum r n f scale k x acc) = run_sum r n (fun z => hm (f z)) (hm scale) k x (hm acc).
Proof.
  revert x acc. induction k as [|k IH]; intros x acc; cbn [run_sum map]; [reflexivity|].
  now rewrite hm_mul, IH, hm_sub, hm_add.
Qed.

Lemma blur_line_hom r n (f : Z -> A) : map hm (blur_line r n f) = blur_line r n (fun z => hm (f z)).
Proof.
  destruct r as [|r']; cbn [blur_line]; [now rewrite map_map|].
  rewrite run_sum_hom, hm_lit. unfold window_sum. now rewrite nsum_hom, map_map.
Qed.

Lemma nth_hom (l : list A) k : hm (nth k l nzero) = nth k (map hm l) nzero.
Proof. rewrite <- hm_zero. symmetry. apply map_nth. Qed.

Lemma box_blur_hom hr vr w h (P : plane A) x y :
  hm (box_blur hr vr w h P x y) = box_blur hr vr w h (fun i j => hm (P i j)) x y.
Proof.
  unfold box_blur, vpass. rewrite nth_hom, blur_line_hom. do 3 f_equal.
  apply functional_extensionality. intros y'. unfold hpass. now rewrite nth_hom, blur_line_hom.
Qed.
End Transport.

Section Closure.
Context {A : Type} `{ExprNum A}.
Variable Pr : A -> Prop.
Hypotheses (pr_zero : Pr nzero) (pr_lit : forall q, Pr (nlit q))
           (pr_add : forall a b, Pr a -> Pr b -> Pr (nadd a b))
           (pr_sub : forall a b, Pr a -> Pr b -> Pr (nsub a b))
           (pr_mul : forall a b, Pr a -> Pr b -> Pr (nmul a b)).

Lemma nsum_closed (l : list A) : Forall Pr l -> Pr (nsum l).
Proof. unfold nsum. induction 1; cbn [fold_right]; auto. Qed.

Lemma run_sum_closed r n (f : Z -> A) scale k x acc :
  (forall z, Pr (f z)) -> Pr scale -> Pr acc -> Forall Pr (run_sum r n f scale k x acc).
Proof.
  intros Hf Hs. revert x acc. induction k as [|k IH]; intros x acc Ha; cbn [run_sum]; constructor; auto.
Qed.

Lemma blur_line_closed r n (f : Z -> A) : (forall z, Pr (f z)) -> Forall Pr (blur_line r n f).
Proof.
  intros Hf. destruct r as [|r']; cbn [blur_line].
  - apply Forall_forall. intros a Ha. apply in_map_iff in Ha as [i [<- _]]. apply Hf.
  - apply run_sum_closed; [exact Hf | apply pr_lit|]. unfold window_sum. apply nsum_closed.
    apply Forall_forall. intros a Ha. apply in_map_iff in Ha as [d [<- _]]. apply Hf.
Qed.

Lemma nth_closed (l : list A) k : Forall Pr l -> Pr (nth k l nzero).
Proof.
  intros Hl. destruct (Nat.lt_ge_cases k (length l)) as [Hk|Hk].
  - eapply Forall_forall; [exact Hl|]. now apply nth_In.
  - now rewrite nth_overflow.
Qed.

Lemma box_blur_closed hr vr w h (P : plane A) :
  (forall x y, Pr (P x y)) -> forall x y, Pr (box_blur hr vr w h P x y).
Proof.
  intros HP x y. unfold box_blur, vpass. apply nth_closed, blur_line_closed.
  intros y'. unfold hpass. now apply nth_closed, blur_line_closed.
Qed.
End Closure.

End Blur.
