(* ===== verification/VSCore.v ===== *)
(** * The VapourSynth and vsutil calls of [recon.py]

    A VapourSynth script builds a graph of filters: each call checks its
    arguments when the filter is created, raises on a bad argument, and
    otherwise returns a new clip.  The model keeps one frame of a clip
    (frames are processed independently, spec section 5): its format, its
    dimensions and its planes.  Calls run in the monad [VS], which threads
    the list of filters created so far (the order in which the script
    creates them) and stops at the first error, as a Python exception
    does.

    The calls are modelled from the specification (section 6) and the
    documented behaviour of the libraries, which are not under [src/]:
    [std.Expr] (through [RpnExpr]), [std.BoxBlur] (through [BoxBlur]),
    [std.MakeDiff] and [std.MergeDiff] on float clips, [vsutil.split],
    [join], [depth] and [get_depth], and [resize.Bicubic]/[resize.Point],
    whose kernel is the abstract interface [Resampler].

    Lemmas: the success paths of the calls the script makes, on the clips
    it makes them on ([vs_ok] facts): one-plane clips of one shape for
    [std.Expr], [std.BoxBlur], [MakeDiff], [MergeDiff] and [resize];
    well-formed three-plane or one-plane clips for [depth], [split],
    [join] and the final [resize].  [vs_then] states that a script
    behaves as its remainder once some filters are created.

    Integer formats: [std.Expr] and [std.BoxBlur] round and clamp their
    results on an integer clip; the model computes exactly, which is
    what they do on the float clips the script gives them (line 52
    converts to 32-bit float before any of them). *)

From Stdlib Require Import String List ZArith Lia QArith.
From S2P Require Import Prelude RpnExpr BoxBlur.
Import ListNotations.

Module VS.

(** ** Formats and clips *)

Inductive color_family := Gray | RGB | YUV.
Inductive sample_type := Integer | Float.

Record format := mkFormat {
  fam : color_family;
  stype : sample_type;
  bits : nat;
  ssw : nat;
  ssh : nat
}.

Definition color_family_eqb (a b : color_family) : bool :=
  match a, b with Gray, Gray | RGB, RGB | YUV, YUV => true | _, _ => false end.
Definition sample_type_eqb (a b : sample_type) : bool :=
  match a, b with Integer, Integer | Float, Float => true | _, _ => false end.
Definition format_eqb (f g : format) : bool :=
  color_family_eqb (fam f) (fam g) && sample_type_eqb (stype f) (stype g)
  && (bits f =? bits g)%nat && (ssw f =? ssw g)%nat && (ssh f =? ssh g)%nat.

(** VapourSynth's [GRAYS] and [YUV420P8], used by the examples. *)
Definition GRAYS : format := mkFormat Gray Float 32 0 0.
Definition YUV420P8 : format := mkFormat YUV Integer 8 1 1.
Definition YUV444PS : format := mkFormat YUV Float 32 0 0.

Definition num_planes (f : format) : nat :=
  match fam f with Gray => 1 | _ => 3 end.

(** Width and height of plane [i]: chroma planes are subsampled. *)
Definition plane_w (f : format) (w i : nat) : nat :=
  if (i =? 0)%nat then w else Nat.shiftr w (ssw f).
Definition plane_h (f : format) (h i : nat) : nat :=
  if (i =? 0)%nat then h else Nat.shiftr h (ssh f).

(** One frame of a clip; [cfmt = None] is a variable-format clip. *)
Record clip (A : Type) := mkClip {
  cfmt : option format;
  cw : nat;
  ch : nat;
  cplanes : list (plane A)
}.
Arguments mkClip {A}.
Arguments cfmt {A}.
Arguments cw {A}.
Arguments ch {A}.
Arguments cplanes {A}.

(** A clip is well formed when it has a format, non-empty dimensions
    that the subsampling divides, and one plane per plane of its format. *)
Definition wf {A} (c : clip A) : Prop :=
  match cfmt c with
  | Some f => (0 < cw c)%nat /\ (0 < ch c)%nat
              /\ Nat.modulo (cw c) (2 ^ ssw f) = 0%nat /\ Nat.modulo (ch c) (2 ^ ssh f) = 0%nat
              /\ length (cplanes c) = num_planes f
  | None => False
  end.

(** ** Errors and the filter-creation monad *)

Inductive vs_error :=
| ValueError (msg : string)             (* raised by recon.py itself *)
| IndexError                            (* a Python list index out of range *)
| ExprError (e : Expr.expr_error)       (* std.Expr rejected its string *)
| FilterError (filter msg : string).    (* another filter rejected its arguments *)

Definition VS (X : Type) := list string -> res vs_error X * list string.

Definition vret {X} (x : X) : VS X := fun t => (Ok x, t).
Definition vbind {X Y} (m : VS X) (k : X -> VS Y) : VS Y :=
  fun t => match m t with
           | (Ok a, t') => k a t'
           | (Err e, t') => (Err e, t')
           end.
Definition raise {X} (e : vs_error) : VS X := fun t => (Err e, t).
(** Record the creation of a filter. *)
Definition created {X} (name : string) (x : X) : VS X := fun t => (Ok x, (t ++ [name])%list).

Declare Scope vs_scope.
Delimit Scope vs_scope with vs.
Notation "x <- m ;; k" := (vbind m (fun x => k))
  (at level 61, m at next level, right associativity) : vs_scope.
Open Scope vs_scope.

Fixpoint vmap {X Y} (f : X -> VS Y) (l : list X) : VS (list Y) :=
  match l with
  | [] => vret []
  | x :: l' => y <- f x ;; ys <- vmap f l' ;; vret (y :: ys)
  end.

(** Python's [l[i]]. *)
Definition index {X} (l : list X) (i : nat) : VS X :=
  match nth_error l i with Some x => vret x | None => raise IndexError end.

(** ** The resizer: an interface, its kernel abstract *)

Inductive kernel := Bicubic (b c : Q) | Point.

(** [filter_param_a]/[filter_param_b] default to b = 0, c = 1/2. *)
Definition bicubic_default : kernel := Bicubic 0 (1 # 2).

Class Resampler (A : Type) := {
  (** Scale plane [i] of a clip from [sw x sh] to [tw x th], reading the
      source shifted by [src_left] luma samples, and convert its samples
      from format [sf] to [tf]. *)
  rs_plane : kernel -> Q -> format -> format -> nat ->
             nat -> nat -> nat -> nat -> plane A -> plane A
}.

(** An instance to run the model: nearest-neighbour sampling, the source
    position of a target sample found by integer scaling. *)
#[export] Instance nearest_resampler {A} : Resampler A := {
  rs_plane := fun _ _ _ _ _ sw sh tw th p =>
    fun x y => p (x * Z.of_nat sw / Z.of_nat (Nat.max tw 1))%Z
                 (y * Z.of_nat sh / Z.of_nat (Nat.max th 1))%Z
}.

Section Calls.
Context {A : Type} `{ExprNum A} `{Resampler A}.

Definition zero_plane : plane A := fun _ _ => nzero.

Definition fmt_of (name : string) (c : clip A) : VS format :=
  match cfmt c with
  | Some f => vret f
  | None => raise (FilterError name "variable format clips not supported")
  end.

(** The planes of a resize of [c] from format [sf] to [tf] and size
    [tw x th]: plane [i] of the target from plane [i] of the source
    (plane 0 when the source has fewer planes). *)
Definition resize_planes (k : kernel) (src_left : Q) (sf tf : format) (c : clip A) (tw th : nat)
  : list (plane A) :=
  map (fun i => rs_plane k src_left sf tf i
                   (plane_w sf (cw c) i) (plane_h sf (ch c) i)
                   (plane_w tf tw i) (plane_h tf th i)
                   (nth (if (i <? num_planes sf)%nat then i else 0) (cplanes c) zero_plane))
      (seq 0 (num_planes tf)).

(** [resize.*(clip, width, height, format, src_left)].  The filter
    checks the target size when it is created.  A conversion between the
    YUV and RGB families needs a matrix, which the script never passes:
    VapourSynth then reads it from the [_Matrix] property of each frame,
    so the filter is created and a frame without that property fails only
    when it is requested.  Frame properties and frame-time errors are not
    modelled (see the root header); the planes of such a conversion are
    the resampler's and no theorem states their values. *)
Definition resize (k : kernel) (c : clip A) (width height : option nat)
           (format : option format) (src_left : Q) : VS (clip A) :=
  let name := "resize"%string in
  sf <- fmt_of name c ;;
  let tf := match format with Some f => f | None => sf end in
  let tw := match width with Some w => w | None => cw c end in
  let th := match height with Some h => h | None => ch c end in
  if (tw =? 0)%nat || (th =? 0)%nat then raise (FilterError name "invalid dimensions") else
  if negb (Nat.modulo tw (2 ^ ssw tf) =? 0)%nat || negb (Nat.modulo th (2 ^ ssh tf) =? 0)%nat
  then raise (FilterError name "dimensions not divisible by subsampling") else
  created name (mkClip (Some tf) tw th (resize_planes k src_left sf tf c tw th)).

(** [vsutil.get_depth] and [vsutil.depth]: a clip already at the depth
    and sample type is returned unchanged, otherwise [resize.Point]
    converts it. *)
Definition get_depth (c : clip A) : VS nat :=
  f <- fmt_of "get_depth" c ;; vret (bits f).

Definition depth (c : clip A) (bitdepth : nat) : VS (clip A) :=
  f <- fmt_of "depth" c ;;
  let st := if (bitdepth =? 32)%nat then Float else Integer in
  if (bits f =? bitdepth)%nat && sample_type_eqb (stype f) st then vret c
  else resize Point c None None
         (Some (mkFormat (fam f) st bitdepth (ssw f) (ssh f))) 0.

Definition gray_of (f : format) : format := mkFormat Gray (stype f) (bits f) 0 0.

(** [vsutil.split]: a one-plane clip is returned as it is; otherwise one
    [std.ShufflePlanes(clip, i, GRAY)] per plane. *)
Definition split (c : clip A) : VS (list (clip A)) :=
  f <- fmt_of "split" c ;;
  if (num_planes f =? 1)%nat then vret [c] else
  vmap (fun i => created "std.ShufflePlanes"
                   (mkClip (Some (gray_of f)) (plane_w f (cw c) i) (plane_h f (ch c) i)
                           [nth i (cplanes c) zero_plane]))
       (seq 0 (num_planes f)).

(** The subsampling [k] with [full = part * 2^k], if any ([k <= 2]). *)
Definition ss_of (full part : nat) : option nat :=
  if (Nat.shiftl part 0 =? full)%nat then Some 0%nat
  else if (Nat.shiftl part 1 =? full)%nat then Some 1%nat
  else if (Nat.shiftl part 2 =? full)%nat then Some 2%nat else None.

(** [vsutil.join(planes)]: [std.ShufflePlanes(planes, [0,0,0], YUV)]. *)
Definition join (cs : list (clip A)) : VS (clip A) :=
  let name := "std.ShufflePlanes"%string in
  match cs with
  | [cy; cu; cv] =>
      fy <- fmt_of name cy ;; fu <- fmt_of name cu ;; fv <- fmt_of name cv ;;
      if negb (sample_type_eqb (stype fy) (stype fu) && sample_type_eqb (stype fy) (stype fv)
               && (bits fy =? bits fu)%nat && (bits fy =? bits fv)%nat)
      then raise (FilterError name "formats do not match") else
      if negb ((cw cu =? cw cv)%nat && (ch cu =? ch cv)%nat)
      then raise (FilterError name "chroma planes differ in size") else
      match ss_of (cw cy) (cw cu), ss_of (ch cy) (ch cu) with
      | Some sw, Some sh =>
          created name
            (mkClip (Some (mkFormat YUV (stype fy) (bits fy) sw sh)) (cw cy) (ch cy)
                    [nth 0 (cplanes cy) zero_plane; nth 0 (cplanes cu) zero_plane;
                     nth 0 (cplanes cv) zero_plane])
      | _, _ => raise (FilterError name "invalid subsampling")
      end
  | _ => raise (ValueError "Color family must have 3 planes.")
  end.

(** Same format and dimensions, as the two-clip filters require. *)
Definition same_shape (a b : clip A) : bool :=
  match cfmt a, cfmt b with
  | Some f, Some g => format_eqb f g && (cw a =? cw b)%nat && (ch a =? ch b)%nat
  | _, _ => false
  end.

(** [std.Expr(clips, expr)]: one expression for every plane. *)
Definition expr (cs : list (clip A)) (s : string) : VS (clip A) :=
  let name := "std.Expr"%string in
  match cs with
  | [] => raise (FilterError name "at least one clip required")
  | c0 :: _ =>
      f <- fmt_of name c0 ;;
      if negb (forallb (same_shape c0) cs) then raise (FilterError name "clips differ") else
      match Expr.compile (length cs) s with
      | Err e => raise (ExprError e)
      | Ok p =>
          created name
            (mkClip (Some f) (cw c0) (ch c0)
               (map (fun i => fun x y =>
                       Expr.pixel p (map (fun c => nth i (cplanes c) zero_plane x y) cs))
                    (seq 0 (num_planes f))))
      end
  end.

(** [std.BoxBlur(c, hradius=hr, vradius=vr)] on every plane. *)
Definition box_blur (c : clip A) (hr vr : Z) : VS (clip A) :=
  let name := "std.BoxBlur"%string in
  f <- fmt_of name c ;;
  if (hr <? 0)%Z || (vr <? 0)%Z then raise (FilterError name "radius must not be negative") else
  created name
    (mkClip (Some f) (cw c) (ch c)
       (map (fun i => Blur.box_blur (Z.to_nat hr) (Z.to_nat vr)
                        (plane_w f (cw c) i) (plane_h f (ch c) i)
                        (nth i (cplanes c) zero_plane))
            (seq 0 (num_planes f)))).

(** [std.MakeDiff(a, b)] and [std.MergeDiff(a, b)] on float clips. *)
Definition make_diff (a b : clip A) : VS (clip A) :=
  let name := "std.MakeDiff"%string in
  f <- fmt_of name a ;;
  if negb (same_shape a b) then raise (FilterError name "clips differ") else
  created name
    (mkClip (Some f) (cw a) (ch a)
       (map (fun i => fun x y => nsub (nth i (cplanes a) zero_plane x y)
                                      (nth i (cplanes b) zero_plane x y))
            (seq 0 (num_planes f)))).

Definition merge_diff (a b : clip A) : VS (clip A) :=
  let name := "std.MergeDiff"%string in
  f <- fmt_of name a ;;
  if negb (same_shape a b) then raise (FilterError name "clips differ") else
  created name
    (mkClip (Some f) (cw a) (ch a)
       (map (fun i => fun x y => nadd (nth i (cplanes a) zero_plane x y)
                                      (nth i (cplanes b) zero_plane x y))
            (seq 0 (num_planes f)))).

(** ** Success paths *)

(** [m] succeeds with [x] and creates the filters [n], from any trace. *)
Definition vs_ok {X} (m : VS X) (x : X) (n : list string) : Prop :=
  forall t, m t = (Ok x, (t ++ n)%list).

Lemma vs_ok_ret {X} (x : X) : vs_ok (vret x) x [].
Proof. intros t. now rewrite app_nil_r. Qed.

Lemma vs_ok_ret_eq {X} (x y : X) : x = y -> vs_ok (vret x) y [].
Proof. intros ->. apply vs_ok_ret. Qed.

Lemma vs_ok_created {X} name (x : X) : vs_ok (created name x) x [name].
Proof. intros t. reflexivity. Qed.

Lemma vs_ok_bind {X Y} (m : VS X) (k : X -> VS Y) a b n1 n2 :
  vs_ok m a n1 -> vs_ok (k a) b n2 -> vs_ok (vbind m k) b (n1 ++ n2).
Proof. intros H1 H2 t. unfold vbind. now rewrite H1, H2, app_assoc. Qed.

(** [vmap] over the image of a list, each call creating [n]. *)
Lemma vs_ok_vmap {T X Y} (f : X -> VS Y) (h : T -> X) (g : T -> Y) n l :
  (forall a, In a l -> vs_ok (f (h a)) (g a) n) ->
  vs_ok (vmap f (map h l)) (map g l) (flat_map (fun _ => n) l).
Proof.
  induction l as [|a l IH]; intros Hf t; cbn [vmap map flat_map].
  - apply vs_ok_ret.
  - unfold vbind. rewrite (Hf a (or_introl eq_refl) t).
    rewrite (IH (fun b Hb => Hf b (or_intror Hb)) (t ++ n)%list).
    unfold vret. now rewrite app_assoc.
Qed.

(** A one-plane clip of format [f] and size [w x h]. *)
Definition gclip (f : format) (w h : nat) (p : plane A) : clip A := mkClip (Some f) w h [p].

Definition plane0 (c : clip A) : plane A := nth 0 (cplanes c) zero_plane.

Section Gray.
Variables (f : format) (w h : nat).
Hypothesis Hgray : fam f = Gray.

Lemma format_eqb_refl g : format_eqb g g = true.
Proof.
  unfold format_eqb. destruct g as [[] [] b sw sh]; cbn; now rewrite !Nat.eqb_refl.
Qed.

Lemma same_shape_gclip p q : same_shape (gclip f w h p) (gclip f w h q) = true.
Proof. unfold same_shape; cbn. now rewrite format_eqb_refl, !Nat.eqb_refl. Qed.

Lemma forallb_same_shape p0 ps :
  forallb (same_shape (gclip f w h p0)) (map (gclip f w h) ps) = true.
Proof.
  apply forallb_forall. intros c Hc. apply in_map_iff in Hc as [q [<- _]].
  apply same_shape_gclip.
Qed.

(** [std.Expr] over one-plane clips of one shape computes the compiled
    program pixel by pixel. *)
Lemma expr_gray_ok (ps : list (plane A)) s pr :
  ps <> [] -> Expr.compile (length ps) s = Ok pr ->
  vs_ok (expr (map (gclip f w h) ps) s)
        (gclip f w h (fun x y => Expr.pixel pr
                         (map (fun c => plane0 c x y) (map (gclip f w h) ps))))
        ["std.Expr"%string].
Proof.
  intros Hne Hc t. destruct ps as [|p0 ps']; [congruence|].
  unfold expr. cbn [map fmt_of cfmt]. unfold vbind, vret.
  rewrite <- (map_cons (gclip f w h) p0 ps'), forallb_same_shape, length_map, Hc.
  unfold fmt_of, vret, gclip at 1. cbn [cfmt negb].
  unfold num_planes. rewrite Hgray. reflexivity.
Qed.

(** [std.BoxBlur] with radius [r] in both directions. *)
Lemma box_blur_gray_ok p (r : Z) :
  (0 <= r)%Z ->
  vs_ok (box_blur (gclip f w h p) r r)
        (gclip f w h (Blur.box_blur (Z.to_nat r) (Z.to_nat r) w h p)) ["std.BoxBlur"%string].
Proof.
  intros Hr t. unfold box_blur. cbn [fmt_of cfmt gclip]. unfold vbind, vret.
  destruct (Z.ltb_spec r 0); [lia|]. cbn [orb].
  unfold num_planes. rewrite Hgray. reflexivity.
Qed.

Lemma make_diff_gray_ok p q :
  vs_ok (make_diff (gclip f w h p) (gclip f w h q))
        (gclip f w h (fun x y => nsub (p x y) (q x y))) ["std.MakeDiff"%string].
Proof.
  intros t. unfold make_diff. cbn [fmt_of cfmt gclip]. unfold vbind, vret.
  rewrite same_shape_gclip. unfold num_planes. rewrite Hgray. reflexivity.
Qed.

Lemma merge_diff_gray_ok p q :
  vs_ok (merge_diff (gclip f w h p) (gclip f w h q))
        (gclip f w h (fun x y => nadd (p x y) (q x y))) ["std.MergeDiff"%string].
Proof.
  intros t. unfold merge_diff. cbn [fmt_of cfmt gclip]. unfold vbind, vret.
  rewrite same_shape_gclip. unfold num_planes. rewrite Hgray. reflexivity.
Qed.
End Gray.

(** Chain a call that succeeds into a continuation with a property. *)
Lemma vs_ok_bind_ex {X Y} (m : VS X) (k : X -> VS Y) a (P : Y -> Prop) :
  (exists n1, vs_ok m a n1) -> (exists b n2, vs_ok (k a) b n2 /\ P b) ->
  exists b n, vs_ok (vbind m k) b n /\ P b.
Proof.
  intros [n1 H1] (b & n2 & H2 & HP). exists b, (n1 ++ n2). split; [|exact HP].
  now apply vs_ok_bind with (a := a).
Qed.

(** [m] behaves as [F] once it has created the filters [n]: the
    script up to a point, with the rest of it still to run. *)
Definition vs_then {X} (m F : VS X) (n : list string) : Prop := forall t, m t = F (t ++ n)%list.

Lemma vs_then_refl {X} (m : VS X) : vs_then m m [].
Proof. intros t. now rewrite app_nil_r. Qed.

Lemma vs_then_bind {X Y} (m : VS X) (k : X -> VS Y) a n1 F n2 :
  vs_ok m a n1 -> vs_then (k a) F n2 -> vs_then (vbind m k) F (n1 ++ n2).
Proof. intros H1 H2 t. unfold vbind. rewrite H1, H2. now rewrite app_assoc. Qed.

Lemma vs_then_ok {X} (m F : VS X) n1 x n2 : vs_then m F n1 -> vs_ok F x n2 -> vs_ok m x (n1 ++ n2).
Proof. intros H1 H2 t. rewrite H1, H2. now rewrite app_assoc. Qed.

(** A script whose first call raises raises that error. *)
Lemma vs_then_raise_bind {X Y} (m : VS X) (k : X -> VS Y) e n :
  vs_then m (raise e) n -> vs_then (vbind m k) (raise e) n.
Proof. intros Hm t. unfold vbind. now rewrite (Hm t). Qed.

Lemma vs_ok_index {X} (l : list X) i x : nth_error l i = Some x -> vs_ok (index l i) x [].
Proof. intros Hx t. unfold index. rewrite Hx. apply vs_ok_ret. Qed.

(** [resize] between one-plane clips of a format with no subsampling. *)
Lemma resize_gray_ok k f w h P tw th sl :
  fam f = Gray -> ssw f = 0%nat -> ssh f = 0%nat -> (0 < tw)%nat -> (0 < th)%nat ->
  vs_ok (resize k (gclip f w h P) (Some tw) (Some th) None sl)
        (gclip f tw th (rs_plane k sl f f 0 w h tw th P)) ["resize"%string].
Proof.
  intros Hg Hw Hh Htw Hth t. unfold resize, resize_planes, fmt_of, gclip, vbind, vret, num_planes.
  cbn [cfmt cw ch cplanes]. rewrite Hw, Hh, Hg. cbn [Nat.pow].
  destruct (Nat.eqb_spec tw 0); [lia|]. destruct (Nat.eqb_spec th 0); [lia|].
  rewrite !Nat.mod_1_r. reflexivity.
Qed.

(** The 32-bit float format of the same family and subsampling. *)
Definition float32 (f : format) : format := mkFormat (fam f) Float 32 (ssw f) (ssh f).

Lemma wf_planes3 (c : clip A) f :
  cfmt c = Some f -> fam f = YUV -> wf c ->
  exists P0 P1 P2, cplanes c = [P0; P1; P2].
Proof.
  intros Hc Hy Hwf. unfold wf in Hwf. rewrite Hc in Hwf.
  destruct Hwf as (_ & _ & _ & _ & Hl). unfold num_planes in Hl. rewrite Hy in Hl.
  destruct (cplanes c) as [|P0 [|P1 [|P2 [|? ?]]]]; cbn in Hl; try lia. eauto.
Qed.

(** [resize] of a well-formed clip to a format of the same family whose
    subsampling divides its size, keeping the size. *)
Lemma resize_planes_length k sl sf tf (c : clip A) tw th :
  length (resize_planes k sl sf tf c tw th) = num_planes tf.
Proof. unfold resize_planes. now rewrite length_map, length_seq. Qed.

Lemma resize_same_ok k (c : clip A) f g sl :
  cfmt c = Some f -> wf c -> fam g = fam f ->
  Nat.modulo (cw c) (2 ^ ssw g) = 0%nat -> Nat.modulo (ch c) (2 ^ ssh g) = 0%nat ->
  exists ps, length ps = num_planes g
             /\ vs_ok (resize k c None None (Some g) sl) (mkClip (Some g) (cw c) (ch c) ps)
                      ["resize"%string]
             /\ ps = resize_planes k sl f g c (cw c) (ch c).
Proof.
  intros Hc Hwf Hg Hmw Hmh. pose proof Hwf as Hwf'. unfold wf in Hwf'. rewrite Hc in Hwf'.
  destruct Hwf' as (Hw & Hh & _ & _ & _).
  eexists. split; [|split; [intros t; unfold resize, fmt_of, vbind; rewrite Hc; cbn [vret];
                    rewrite Hmw, Hmh;
                    destruct (Nat.eqb_spec (cw c) 0); [lia|];
                    destruct (Nat.eqb_spec (ch c) 0); [lia|]; reflexivity | reflexivity]].
  apply resize_planes_length.
Qed.

Lemma planes3 {X} (ps : list X) (f : format) :
  length ps = num_planes f -> fam f <> Gray -> exists P0 P1 P2, ps = [P0; P1; P2].
Proof.
  unfold num_planes. intros Hl Hg. destruct (fam f); [congruence| |];
    destruct ps as [|P0 [|P1 [|P2 [|? ?]]]]; cbn in Hl; try lia; eauto.
Qed.

(** [resize] of a well-formed YUV clip to another YUV format of the
    same subsampling, keeping its size. *)
Lemma resize_yuv_ok k (c : clip A) f g sl :
  cfmt c = Some f -> fam f = YUV -> wf c -> fam g = YUV ->
  Nat.modulo (cw c) (2 ^ ssw g) = 0%nat -> Nat.modulo (ch c) (2 ^ ssh g) = 0%nat ->
  exists P0 P1 P2, vs_ok (resize k c None None (Some g) sl)
                         (mkClip (Some g) (cw c) (ch c) [P0; P1; P2]) ["resize"%string].
Proof.
  intros Hc Hy Hwf Hg Hmw Hmh.
  destruct (resize_same_ok k c f g sl Hc Hwf ltac:(congruence) Hmw Hmh) as (ps & Hl & Hr & _).
  destruct (planes3 ps g Hl ltac:(congruence)) as (P0 & P1 & P2 & ->). eauto.
Qed.

(** [vsutil.depth(clip, 32)] on a well-formed clip: the clip itself when
    it is already 32-bit float, a [resize.Point] otherwise. *)
(** The planes [vsutil.depth(c, 32)] gives a clip of format [f]. *)
Definition depth_planes (c : clip A) (f : format) : list (plane A) :=
  if (bits f =? 32)%nat && sample_type_eqb (stype f) Float then cplanes c
  else resize_planes Point 0 f (float32 f) c (cw c) (ch c).

Lemma depth_planes_float32 (c : clip A) f :
  stype f = Float -> bits f = 32%nat -> depth_planes c f = cplanes c.
Proof. intros Hs Hb. unfold depth_planes. now rewrite Hs, Hb. Qed.

Lemma depth_float_ok (c : clip A) f :
  cfmt c = Some f -> wf c ->
  exists ps n,
    vs_ok (depth c 32) (mkClip (Some (float32 f)) (cw c) (ch c) ps) n
    /\ length ps = num_planes f
    /\ Forall (fun s => s = "resize"%string) n
    /\ ps = depth_planes c f.
Proof.
  intros Hc Hwf. pose proof Hwf as Hwf'. unfold wf in Hwf'. rewrite Hc in Hwf'.
  destruct Hwf' as (_ & _ & Hmw & Hmh & Hl).
  unfold depth. change (if (32 =? 32)%nat then Float else Integer) with Float.
  destruct (andb (bits f =? 32)%nat (sample_type_eqb (stype f) Float)) eqn:E.
  - exists (cplanes c), ([] ++ []).
    split; [|split; [exact Hl | split; [constructor | unfold depth_planes; now rewrite E]]].
    apply vs_ok_bind with (a := f); [intros t; unfold fmt_of; rewrite Hc; apply vs_ok_ret|].
    cbv beta. rewrite E. apply vs_ok_ret_eq.
    apply andb_prop in E as [Eb Es]. apply Nat.eqb_eq in Eb.
    destruct c as [cf cw' ch' cp]. cbn in *. subst.
    destruct f as [ff [] fb fsw fsh]; cbn in *; [discriminate|]. subst. reflexivity.
  - destruct (resize_same_ok Point c f (float32 f) 0 Hc Hwf eq_refl Hmw Hmh) as (ps & Hps & Hr & Hpl).
    exists ps, ([] ++ ["resize"%string]). split; [|split; [exact Hps | split]].
    + apply vs_ok_bind with (a := f); [intros t; unfold fmt_of; rewrite Hc; apply vs_ok_ret|].
      cbv beta. rewrite E. exact Hr.
    + repeat constructor.
    + unfold depth_planes. now rewrite E.
Qed.

(** The same on a three-plane clip (YUV or RGB). *)
Lemma depth_float3_ok (c : clip A) f :
  cfmt c = Some f -> fam f <> Gray -> wf c ->
  exists P0 P1 P2 n,
    vs_ok (depth c 32) (mkClip (Some (float32 f)) (cw c) (ch c) [P0; P1; P2]) n
    /\ Forall (fun s => s = "resize"%string) n
    /\ [P0; P1; P2] = depth_planes c f.
Proof.
  intros Hc Hg Hwf. destruct (depth_float_ok c f Hc Hwf) as (ps & n & Hd & Hl & Hn & Hid).
  destruct (planes3 ps f Hl Hg) as (P0 & P1 & P2 & ->).
  exists P0, P1, P2, n. split; [exact Hd | split; [exact Hn | exact Hid]].
Qed.

(** [vsutil.split] of a three-plane clip. *)
Lemma split3_ok f w h P0 P1 P2 :
  fam f <> Gray ->
  vs_ok (split (mkClip (Some f) w h [P0; P1; P2]))
        [gclip (gray_of f) w h P0;
         gclip (gray_of f) (plane_w f w 1) (plane_h f h 1) P1;
         gclip (gray_of f) (plane_w f w 2) (plane_h f h 2) P2]
        ["std.ShufflePlanes"%string; "std.ShufflePlanes"%string; "std.ShufflePlanes"%string].
Proof.
  intros Hy t. unfold split, fmt_of, vbind, num_planes. cbn [cfmt vret].
  destruct (fam f); [congruence| |]; cbn; now rewrite <- !app_assoc.
Qed.

(** [vsutil.split] of a one-plane clip: the clip as a GRAY clip. *)
Lemma split_gray_ok f w h P0 :
  fam f = Gray ->
  vs_ok (split (mkClip (Some f) w h [P0])) [mkClip (Some f) w h [P0]] [].
Proof.
  intros Hg t. unfold split, fmt_of, vbind, num_planes. cbn [cfmt vret]. rewrite Hg.
  now rewrite app_nil_r.
Qed.

(** [vsutil.join] of three one-plane clips of one format and one size:
    a 4:4:4 YUV clip. *)
Lemma join_full_ok g w h P0 P1 P2 :
  vs_ok (join [gclip g w h P0; gclip g w h P1; gclip g w h P2])
        (mkClip (Some (mkFormat YUV (stype g) (bits g) 0 0)) w h [P0; P1; P2])
        ["std.ShufflePlanes"%string].
Proof.
  intros t. unfold join, fmt_of, gclip, vbind, vret. cbn [cfmt cw ch cplanes nth].
  assert (Hst : sample_type_eqb (stype g) (stype g) = true) by (now destruct (stype g)).
  rewrite Hst, !Nat.eqb_refl. cbn [andb negb].
  unfold ss_of. rewrite !Nat.shiftl_0_r, !Nat.eqb_refl. reflexivity.
Qed.

(** [vsutil.depth(merged, d)] of a 4:4:4 float YUV clip: at [d = 32] the
    clip itself, otherwise a conversion keeping size and subsampling. *)
Lemma depth_yuv444_ok w h P0 P1 P2 d :
  (0 < w)%nat -> (0 < h)%nat ->
  let m := mkClip (Some (mkFormat YUV Float 32 0 0)) w h [P0; P1; P2] in
  exists c' n, vs_ok (depth m d) c' n
    /\ cfmt c' = Some (mkFormat YUV (if (d =? 32)%nat then Float else Integer) d 0 0)
    /\ cw c' = w /\ ch c' = h /\ length (cplanes c') = 3%nat
    /\ (d = 32%nat -> c' = m).
Proof.
  intros Hw Hh m. destruct (Nat.eqb_spec d 32) as [->|Hne].
  - exists m, ([] ++ []). split; [|repeat split; auto].
    apply vs_ok_bind with (a := mkFormat YUV Float 32 0 0); [apply vs_ok_ret|]. apply vs_ok_ret.
  - destruct (resize_yuv_ok Point m (mkFormat YUV Float 32 0 0)
                (mkFormat YUV Integer d 0 0) 0) as (Q0 & Q1 & Q2 & Hr);
      try reflexivity; cbn; try (rewrite Nat.mod_1_r; reflexivity).
    { repeat split; auto. }
    exists (mkClip (Some (mkFormat YUV Integer d 0 0)) w h [Q0; Q1; Q2]), ([] ++ ["resize"%string]).
    split; [|repeat split; cbn; auto; try congruence;
             destruct (Nat.eqb_spec d 32); congruence].
    apply vs_ok_bind with (a := mkFormat YUV Float 32 0 0); [apply vs_ok_ret|]. cbv beta zeta.
    cbn [bits stype sample_type_eqb]. rewrite (proj2 (Nat.eqb_neq 32 d)) by congruence.
    destruct (Nat.eqb_spec d 32); [congruence|]. exact Hr.
Qed.
End Calls.

(** A positive dimension that the subsampling divides stays positive. *)
Lemma shiftr_pos a k : (0 < a)%nat -> Nat.modulo a (2 ^ k) = 0%nat -> (0 < Nat.shiftr a k)%nat.
Proof.
  intros Ha Hm. rewrite Nat.shiftr_div_pow2.
  assert (0 < 2 ^ k)%nat by (apply Nat.neq_0_lt_0, Nat.pow_nonzero; lia).
  apply Nat.div_str_pos. split; [lia|].
  pose proof (Nat.div_mod_eq a (2 ^ k)) as Hd. rewrite Hm in Hd.
  destruct (a / 2 ^ k)%nat; nia.
Qed.

End VS.
