(* ===== verification/Regress.v ===== *)
(** * [_Regress]: per-pixel linear regression (recon.py lines 16-19, 71-108)

    [_Regress(x, *ys, radius, eps)] fits, around every pixel, the line
    that best predicts each [y] from [x] over the box window of the
    pixel.  It box-blurs [x], [x*x], each [y], [x*y] and [y*y] (the
    moments), and combines them with [std.Expr] strings into the slope,
    the intercept and the correlation of each [y].

    The spec's per-pixel contract (section 4.3) is [spec_slope],
    [spec_intercept] and [spec_corr] on the five moments of the window.

    Theorems:
    - [regress_refines]: on one-plane clips, [_Regress] succeeds and every
      pixel of its three result clips is the spec's value on the moments of
      the clamped window of the pixel (refinement);
    - [regress_radius_error]: a radius that is not positive raises before
      any filter is created;
    - bounds and special windows: the correlation lies in [0, 1), an
      exactly linear window gives the slope [a * v / (v + eps)];
    - [regress_finite], [regress_flat_window]: [_Regress] is generic in
      the sample arithmetic; run at [fsample], where a division by zero
      or the square root of a negative number is visible, every sample it
      returns on finite inputs is finite for a positive [eps], and a flat
      [x] window gives a finite slope 0, intercept the mean of [y] and
      correlation 0 (over [R], whose division is total, these would say
      nothing about [eps]);
    - [regress_scenario]: the concrete 4x4 scenario of spec section 8,
      evaluated by the model over the rationals, pins the clamp-to-edge
      border down;
    - [regress_filter_count]: the list comprehensions over [ys] give one
      result per [y] and create [4 + 10 k] filters for [k] clips;
    - [regress_eps_error]: an [eps] that Python renders as a word
      [std.Expr] cannot read ([inf], [nan]) raises at the first slope.

    The tactic [regress_moments] runs lines 91-99 (blurs, variances,
    covariances) once for the success path and once for the error path. *)

From Stdlib Require Import String List ZArith Lia QArith Qreals Reals Lra FunctionalExtensionality.
From S2P Require Import Prelude Stats RpnExpr BoxBlur VSCore.
Import ListNotations.
Import VS.

Module Regress.

(** [class RegressClips(NamedTuple)], lines 16-19. *)
Record RegressClips (A : Type) := mkRegressClips {
  slope : clip A;
  intercept : clip A;
  correlation : clip A
}.
Arguments mkRegressClips {A}.
Arguments slope {A}.
Arguments intercept {A}.
Arguments correlation {A}.

(** The default [eps=1e-7] (line 71) and its rendering [str(1e-7)] in the
    f-strings of lines 101 and 104. *)
Definition eps_val : Q := 1 # 10000000.
Definition eps_default : string := "1e-07".

(** The expression strings of lines 86, 97-98, 99, 101, 102 and 104. *)
Definition prog_mul : string := "x y *".
Definition prog_var : string := "x y dup * - 0 max".
Definition prog_cov : string := "x y z * -".
Definition prog_slope (eps : string) : string := "x y " ++ eps ++ " + /".
Definition prog_intercept : string := "x y z * -".
Definition prog_corr (eps : string) : string := "x dup * y z * " ++ eps ++ " + / sqrt".

Section Code.
Context {A : Type} `{ExprNum A} `{Resampler A}.

(** [mul] and [sq], lines 85-89. *)
Definition mul (a b : clip A) : VS (clip A) := expr [a; b] prog_mul.
Definition sq (c : clip A) : VS (clip A) := mul c c.

(** [E = partial(std.BoxBlur, hradius=radius, vradius=radius)], line 83. *)
Definition E (radius : Z) (c : clip A) : VS (clip A) := box_blur c radius radius.

(** [RegressClips( *x) for x in zip(slopes, intercepts, corrs)], line
    108: Python's [zip] stops at the shortest list. *)
Definition regress_clips (slopes intercepts corrs : list (clip A)) : list (RegressClips A) :=
  map (fun '(s, i, c) => mkRegressClips s i c) (combine (combine slopes intercepts) corrs).

Definition _Regress (x : clip A) (ys : list (clip A)) (radius : Z) (eps : string)
  : VS (list (RegressClips A)) :=
  if negb (0 <? radius)%Z then raise (ValueError "radius must be greater than zero") else
  Ex <- E radius x ;;
  Exx <- (s <- sq x ;; E radius s) ;;
  Eys <- vmap (E radius) ys ;;
  Exys <- vmap (fun y => m <- mul x y ;; E radius m) ys ;;
  Eyys <- vmap (fun y => s <- sq y ;; E radius s) ys ;;
  var_x <- expr [Exx; Ex] prog_var ;;
  var_ys <- vmap (fun '(Eyy, Ey) => expr [Eyy; Ey] prog_var) (combine Eyys Eys) ;;
  cov_xys <- vmap (fun '(Exy, Ey) => expr [Exy; Ex; Ey] prog_cov) (combine Exys Eys) ;;
  slopes <- vmap (fun cov_xy => expr [cov_xy; var_x] (prog_slope eps)) cov_xys ;;
  intercepts <- vmap (fun '(Ey, slope) => expr [Ey; slope; Ex] prog_intercept)
                     (combine Eys slopes) ;;
  corrs <- vmap (fun '(cov_xy, var_y) => expr [cov_xy; var_x; var_y] (prog_corr eps))
                (combine cov_xys var_ys) ;;
  vret (regress_clips slopes intercepts corrs).
End Code.

(** ** The specification: section 4.3 on the five moments *)

Record moments := mkMoments { m_x : R; m_xx : R; m_y : R; m_xy : R; m_yy : R }.

Definition spec_var_x (m : moments) : R := Rmax 0 (m_xx m - m_x m * m_x m).
Definition spec_var_y (m : moments) : R := Rmax 0 (m_yy m - m_y m * m_y m).
Definition spec_cov (m : moments) : R := m_xy m - m_x m * m_y m.
Definition spec_slope (eps : R) (m : moments) : R := spec_cov m / (spec_var_x m + eps).
Definition spec_intercept (eps : R) (m : moments) : R := m_y m - spec_slope eps m * m_x m.
Definition spec_corr (eps : R) (m : moments) : R :=
  sqrt (spec_cov m * spec_cov m / (spec_var_x m * spec_var_y m + eps)).

(** The moments of planes [X] and [Y] over a window of points. *)
Definition window_moments (L : list (Z * Z)) (X Y : plane R) : moments :=
  let fx := fun q : Z * Z => X (fst q) (snd q) in
  let fy := fun q : Z * Z => Y (fst q) (snd q) in
  mkMoments (wmean L fx) (wmean L (fun q => fx q * fx q))
            (wmean L fy) (wmean L (fun q => fx q * fy q)) (wmean L (fun q => fy q * fy q)).

(** ** The strings compute the section 4.3 formulas *)

Open Scope R_scope.

(** Evaluate the compilation of a concrete expression string. *)
Ltac compile_eval :=
  match goal with |- context [Expr.compile ?n ?s] =>
    let e := eval vm_compute in (Expr.compile n s) in change (Expr.compile n s) with e end.

(** A value of [eps] rendered by the f-strings of lines 101 and 104 as
    the word [s], which [std.Expr] reads as the number [q]. *)
Definition eps_literal (s : string) (q : Q) : Prop :=
  Expr.is_word s = true /\ Expr.parse_number s = Some q.

Lemma eps_literal_default : eps_literal eps_default eps_val.
Proof. split; reflexivity. Qed.

(** The words of lines 101 and 104 when [eps] renders as one word. *)
Lemma slope_words s :
  Expr.is_word s = true -> Expr.split_ws (prog_slope s) [] = ["x"; "y"; s; "+"; "/"]%string.
Proof. intros Hw. unfold prog_slope. simpl. now rewrite (Expr.split_ws_word s "+ /"%string Hw). Qed.

Lemma corr_words s :
  Expr.is_word s = true ->
  Expr.split_ws (prog_corr s) [] = ["x"; "dup"; "*"; "y"; "z"; "*"; s; "+"; "/"; "sqrt"]%string.
Proof. intros Hw. unfold prog_corr. simpl. now rewrite (Expr.split_ws_word s "+ / sqrt"%string Hw). Qed.

Section Denote.
Context {A : Type} `{ExprNum A}.

(** The strings, run by [std.Expr] in any arithmetic. *)
Lemma denote_mul (a b : A) : Expr.denote 2 prog_mul [a; b] = Ok (nmul a b).
Proof. reflexivity. Qed.

Lemma denote_var (a b : A) :
  Expr.denote 2 prog_var [a; b] = Ok (nmax (nsub a (nmul b b)) (nlit 0%Q)).
Proof. reflexivity. Qed.

Lemma denote_cov (a b c : A) : Expr.denote 3 prog_cov [a; b; c] = Ok (nsub a (nmul b c)).
Proof. reflexivity. Qed.

Lemma denote_intercept (a b c : A) :
  Expr.denote 3 prog_intercept [a; b; c] = Ok (nsub a (nmul b c)).
Proof. reflexivity. Qed.

Lemma denote_slope_lit s q (a b : A) :
  eps_literal s q -> Expr.denote 2 (prog_slope s) [a; b] = Ok (ndiv a (nadd b (nlit q))).
Proof.
  intros [Hw Hq]. unfold Expr.denote, Expr.compile.
  destruct (string_dec (prog_slope s) ""%string) as [E|_]; [discriminate E|].
  rewrite (slope_words s Hw). cbn [Expr.compile_words].
  rewrite (Expr.classify_num s q Hq). reflexivity.
Qed.

Lemma denote_corr_lit s q (a b c : A) :
  eps_literal s q ->
  Expr.denote 3 (prog_corr s) [a; b; c]
  = Ok (nsqrt (ndiv (nmul a a) (nadd (nmul b c) (nlit q)))).
Proof.
  intros [Hw Hq]. unfold Expr.denote, Expr.compile.
  destruct (string_dec (prog_corr s) ""%string) as [E|_]; [discriminate E|].
  rewrite (corr_words s Hw). cbn [Expr.compile_words].
  rewrite (Expr.classify_num s q Hq). reflexivity.
Qed.
End Denote.

(** A rendering of [eps] that is one word [std.Expr] cannot read, such as
    Python's [inf] or [nan]: the slope string is rejected at that word. *)
Lemma compile_slope_bad s :
  Expr.is_word s = true -> Expr.classify s = None ->
  Expr.compile 2 (prog_slope s) = Err (Expr.EBadToken s).
Proof.
  intros Hw Hc. unfold Expr.compile.
  destruct (string_dec (prog_slope s) ""%string) as [E|_]; [discriminate E|].
  rewrite (slope_words s Hw). cbn [Expr.compile_words]. rewrite Hc. reflexivity.
Qed.

(** ** The spec on the moments of a window *)

Section WindowSpec.
Variables (L : list (Z * Z)) (X Y : plane R) (eps : R).
Hypothesis HL : L <> [].
Hypothesis Heps : 0 < eps.
Let fx := fun q : Z * Z => X (fst q) (snd q).
Let fy := fun q : Z * Z => Y (fst q) (snd q).
Let m := window_moments L X Y.

Lemma spec_var_x_window : spec_var_x m = wvar L fx.
Proof. unfold spec_var_x, m. cbn. apply Rmax_right, (wvar_nonneg L HL fx). Qed.

Lemma spec_var_y_window : spec_var_y m = wvar L fy.
Proof. unfold spec_var_y, m. cbn. apply Rmax_right, (wvar_nonneg L HL fy). Qed.

Lemma spec_cov_window : spec_cov m = wcov L fx fy.
Proof. reflexivity. Qed.

(** The correlation of a window is in [0, 1): Cauchy-Schwarz. *)
Lemma spec_corr_window_bounds : 0 <= spec_corr eps m < 1.
Proof.
  unfold spec_corr. rewrite spec_var_x_window, spec_var_y_window, spec_cov_window.
  pose proof (wcov_cauchy_schwarz L HL fx fy) as Hcs.
  pose proof (wvar_nonneg L HL fx). pose proof (wvar_nonneg L HL fy).
  split; [apply sqrt_pos|]. rewrite <- sqrt_1. apply sqrt_lt_1_alt. split.
  - apply Rmult_le_pos, Rlt_le, Rinv_0_lt_compat; nra.
  - apply Rmult_lt_reg_r with (wvar L fx * wvar L fy + eps); [nra|].
    unfold Rdiv. rewrite Rmult_assoc, Rinv_l by nra. nra.
Qed.

(** A flat [x] window: slope 0, intercept the mean of [y], correlation 0. *)
Lemma spec_flat_window c :
  (forall q, In q L -> fx q = c) ->
  spec_slope eps m = 0 /\ spec_intercept eps m = wmean L fy /\ spec_corr eps m = 0.
Proof.
  intros Hc. unfold spec_intercept, spec_slope, spec_corr.
  rewrite spec_var_x_window, spec_cov_window, (wvar_const L HL fx c Hc),
    (wcov_const L HL fx fy c Hc).
  replace (0 / (0 + eps)) with 0 by (field; lra).
  replace (0 * 0 / (0 * spec_var_y m + eps)) with 0 by (field; lra).
  rewrite sqrt_0. split; [reflexivity | split; [|reflexivity]].
  replace (m_y m) with (wmean L fy) by reflexivity. ring.
Qed.

(** An exactly linear window [y = a x + b]: the slope is shrunk towards
    0 by [v / (v + eps)], the intercept moves by the rest. *)
Lemma spec_linear_window a b :
  (forall q, In q L -> fy q = a * fx q + b) ->
  let v := wvar L fx in
  spec_slope eps m = a * v / (v + eps)
  /\ spec_intercept eps m = b + a * eps / (v + eps) * wmean L fx
  /\ spec_corr eps m = sqrt (a * v * (a * v) / (a * v * (a * v) + eps)).
Proof.
  intros Hlin v. pose proof (wvar_nonneg L HL fx) as Hv. fold v in Hv.
  unfold spec_intercept, spec_slope, spec_corr.
  rewrite spec_var_x_window, spec_var_y_window, spec_cov_window,
    (wcov_linear L HL fx fy a b Hlin), (wvar_linear L HL fx fy a b Hlin).
  fold v. replace (m_y m) with (a * wmean L fx + b)
    by (unfold m; cbn; symmetry; exact (wmean_linear L HL fx fy a b Hlin)).
  replace (m_x m) with (wmean L fx) by reflexivity.
  split; [reflexivity | split].
  - field. lra.
  - do 2 f_equal. ring.
Qed.
End WindowSpec.

(** ** From the filter graph to planes *)

Lemma combine_map {T U V} (g1 : T -> U) (g2 : T -> V) l :
  combine (map g1 l) (map g2 l) = map (fun a => (g1 a, g2 a)) l.
Proof. induction l as [|a l IH]; cbn; [reflexivity | now rewrite IH]. Qed.

Section Graph.
Context {A : Type} `{ExprNum A}.
Variables (f : format) (w h : nat) (r : Z).
Hypothesis Hgray : fam f = Gray.
(** The [eps] argument of [_Regress], rendered as the word [epsw] that
    [std.Expr] reads as [epsq]. *)
Variables (epsw : string) (epsq : Q).
Hypothesis Heps : eps_literal epsw epsq.

(** The box blur [E] applies to a plane. *)
Definition blur (P : plane A) : plane A := Blur.box_blur (Z.to_nat r) (Z.to_nat r) w h P.

Lemma E_ok P : (0 <= r)%Z ->
  vs_ok (E r (gclip f w h P)) (gclip f w h (blur P)) ["std.BoxBlur"%string].
Proof. intros Hr. now apply box_blur_gray_ok. Qed.

Lemma expr_plane_eq pr (F : plane A) Ps :
  (forall x y, Expr.pixel pr (map (fun P => P x y) Ps) = F x y) ->
  (fun x y => Expr.pixel pr (map (fun c => plane0 c x y) (map (gclip f w h) Ps))) = F.
Proof.
  intros HF. apply functional_extensionality; intros x.
  apply functional_extensionality; intros y. rewrite map_map. apply HF.
Qed.

Lemma expr_ok2 s (F : A -> A -> A) P Q :
  (forall a b, Expr.denote 2 s [a; b] = Ok (F a b)) ->
  vs_ok (expr [gclip f w h P; gclip f w h Q] s)
        (gclip f w h (fun x y => F (P x y) (Q x y))) ["std.Expr"%string].
Proof.
  intros HF. unfold Expr.denote in HF.
  destruct (Expr.compile 2 s) as [pr|e] eqn:Hc; [|discriminate (HF nzero nzero)].
  rewrite <- (expr_plane_eq pr (fun x y => F (P x y) (Q x y)) [P; Q]).
  - exact (expr_gray_ok f w h Hgray [P; Q] s pr ltac:(discriminate) Hc).
  - intros x y. specialize (HF (P x y) (Q x y)). cbn in HF. now injection HF.
Qed.

Lemma expr_ok3 s (F : A -> A -> A -> A) P Q T :
  (forall a b c, Expr.denote 3 s [a; b; c] = Ok (F a b c)) ->
  vs_ok (expr [gclip f w h P; gclip f w h Q; gclip f w h T] s)
        (gclip f w h (fun x y => F (P x y) (Q x y) (T x y))) ["std.Expr"%string].
Proof.
  intros HF. unfold Expr.denote in HF.
  destruct (Expr.compile 3 s) as [pr|e] eqn:Hc; [|discriminate (HF nzero nzero nzero)].
  rewrite <- (expr_plane_eq pr (fun x y => F (P x y) (Q x y) (T x y)) [P; Q; T]).
  - exact (expr_gray_ok f w h Hgray [P; Q; T] s pr ltac:(discriminate) Hc).
  - intros x y. specialize (HF (P x y) (Q x y) (T x y)). cbn in HF. now injection HF.
Qed.

(** The three clips [_Regress] returns for [Y], as planes, in the
    arithmetic [std.Expr] runs in: the strings of lines 97-104 on the
    blurred moments. *)
Definition regress_one (X Y : plane A) : RegressClips A :=
  let Ex := blur X in
  let Exx := blur (fun i j => nmul (X i j) (X i j)) in
  let Ey := blur Y in
  let Exy := blur (fun i j => nmul (X i j) (Y i j)) in
  let Eyy := blur (fun i j => nmul (Y i j) (Y i j)) in
  let var_x := fun i j => nmax (nsub (Exx i j) (nmul (Ex i j) (Ex i j))) (nlit 0%Q) in
  let var_y := fun i j => nmax (nsub (Eyy i j) (nmul (Ey i j) (Ey i j))) (nlit 0%Q) in
  let cov := fun i j => nsub (Exy i j) (nmul (Ex i j) (Ey i j)) in
  let sl := fun i j => ndiv (cov i j) (nadd (var_x i j) (nlit epsq)) in
  mkRegressClips
    (gclip f w h sl)
    (gclip f w h (fun i j => nsub (Ey i j) (nmul (sl i j) (Ex i j))))
    (gclip f w h (fun i j => nsqrt (ndiv (nmul (cov i j) (cov i j))
                                         (nadd (nmul (var_x i j) (var_y i j)) (nlit epsq))))).

(** Lines 91-99 on one-plane clips of one shape, with [bind] the rule
    of sequencing ([vs_ok_bind] or [vs_then_bind]): the moment blurs, the
    variances and the covariances are created without error. *)
Ltac regress_moments bind X :=
  eapply bind; [apply E_ok; lia|]; cbv beta;
  eapply bind; [eapply vs_ok_bind; [apply expr_ok2, denote_mul | apply E_ok; lia]|]; cbv beta;
  eapply bind; [apply vs_ok_vmap with (g := fun Y => gclip f w h (blur Y));
                intros; apply E_ok; lia|]; cbv beta;
  eapply bind;
    [apply vs_ok_vmap with (g := fun Y => gclip f w h (blur (fun i j => nmul (X i j) (Y i j))));
     intros; eapply vs_ok_bind; [apply expr_ok2, denote_mul | apply E_ok; lia]|]; cbv beta;
  eapply bind;
    [apply vs_ok_vmap with (g := fun Y => gclip f w h (blur (fun i j => nmul (Y i j) (Y i j))));
     intros; eapply vs_ok_bind; [apply expr_ok2, denote_mul | apply E_ok; lia]|]; cbv beta;
  eapply bind; [apply expr_ok2, denote_var|]; cbv beta;
  rewrite combine_map;
  eapply bind; [apply vs_ok_vmap; intros; apply expr_ok2, denote_var|]; cbv beta;
  rewrite combine_map;
  eapply bind; [apply vs_ok_vmap; intros; apply expr_ok3, denote_cov|]; cbv beta.

Lemma length_flat_map_repeat {T X} (l : list T) (n : list X) :
  length (flat_map (fun _ => n) l) = (length n * length l)%nat.
Proof. induction l as [|a l IH]; cbn; [lia|]. rewrite length_app, IH. lia. Qed.

(** On one-plane clips of one shape, [_Regress] creates its [4 + 10 k]
    filters for [k] clips [ys] without error and returns [regress_one]
    for every [y]. *)
Lemma regress_graph X Ys :
  (0 < r)%Z ->
  exists n, vs_ok (_Regress (gclip f w h X) (map (gclip f w h) Ys) r epsw)
                  (map (regress_one X) Ys) n
            /\ length n = (4 + 10 * length Ys)%nat.
Proof.
  intros Hr. eexists. split; [unfold _Regress|].
  - destruct (Z.ltb_spec 0 r); [|lia]. cbn [negb].
    regress_moments @vs_ok_bind X.
    eapply vs_ok_bind; [apply vs_ok_vmap with (h := fun Y => _); intros; apply expr_ok2; intros;
                        apply (denote_slope_lit _ _ _ _ Heps)|].
    cbv beta. rewrite combine_map.
    eapply vs_ok_bind; [apply vs_ok_vmap; intros; apply expr_ok3, denote_intercept|]. cbv beta.
    rewrite combine_map.
    eapply vs_ok_bind; [apply vs_ok_vmap; intros; apply expr_ok3; intros;
                        apply (denote_corr_lit _ _ _ _ _ Heps)|].
    cbv beta. unfold regress_clips. rewrite !combine_map, map_map.
    apply vs_ok_ret_eq, map_ext. intros Y. reflexivity.
  - rewrite !length_app, !length_flat_map_repeat. cbn. unfold plane in *. lia.
Qed.

(** [std.Expr] rejects a string it cannot compile, creating nothing. *)
Lemma expr_err2 s e (P1 P2 : plane A) :
  Expr.compile 2 s = Err e ->
  vs_then (expr [gclip f w h P1; gclip f w h P2] s) (raise (ExprError e)) [].
Proof.
  intros Hc t. unfold expr. cbn [forallb length]. rewrite !same_shape_gclip.
  unfold fmt_of, gclip, vbind, vret. cbn [cfmt andb negb]. rewrite Hc. now rewrite app_nil_r.
Qed.

(** With an [eps] rendered as one word [std.Expr] cannot read and at
    least one [y], [_Regress] creates its [4 + 7 k] moment, variance and
    covariance filters, then raises at the first slope. *)
Lemma regress_bad_eps (X : plane A) (Ys : list (plane A)) :
  (0 < r)%Z -> Ys <> [] -> Expr.is_word epsw = true -> Expr.classify epsw = None ->
  exists n, vs_then (_Regress (gclip f w h X) (map (gclip f w h) Ys) r epsw)
                    (raise (ExprError (Expr.EBadToken epsw))) n
            /\ length n = (4 + 7 * length Ys)%nat.
Proof.
  intros Hr Hne Hw Hc. destruct Ys as [|Y0 Ys']; [congruence|].
  eexists. split; [unfold _Regress|].
  - destruct (Z.ltb_spec 0 r); [|lia]. cbn [negb].
    regress_moments @vs_then_bind X.
    cbn [map vmap]. do 2 apply vs_then_raise_bind.
    apply expr_err2, compile_slope_bad; assumption.
  - rewrite !length_app, !length_flat_map_repeat. cbn. unfold plane in *. lia.
Qed.

(** Every property of each [regress_one] holds of what [_Regress] returns. *)
Lemma regress_forall (P : plane A -> RegressClips A -> Prop) X Ys :
  (0 < r)%Z -> (forall Y, In Y Ys -> P Y (regress_one X Y)) ->
  exists rcs n, vs_ok (_Regress (gclip f w h X) (map (gclip f w h) Ys) r epsw) rcs n
                /\ Forall2 P Ys rcs.
Proof.
  intros Hr HP. destruct (regress_graph X Ys Hr) as [n [Hn _]].
  exists (map (regress_one X) Ys), n. split; [exact Hn|].
  now apply Forall2_map_r.
Qed.
End Graph.

(** ** In exact arithmetic: the spec on the window moments *)

Section Exact.
Variables (f : format) (w h : nat) (r : Z) (epsq : Q).

Lemma blur_mean P i j :
  (0 <= i < Z.of_nat w)%Z -> (0 <= j < Z.of_nat h)%Z ->
  blur w h r P i j = wmean (Blur.window_pts (Z.to_nat r) w h i j) (fun q => P (fst q) (snd q)).
Proof. intros Hi Hj. unfold blur. now rewrite Blur.box_blur_mean. Qed.

Lemma Q2R_0 : Q2R 0%Q = 0.
Proof. unfold Q2R. cbn [Qnum Qden]. lra. Qed.

(** Pixel by pixel, [regress_one] is the spec on the window moments. *)
Lemma regress_one_pixel X Y i j :
  (0 <= i < Z.of_nat w)%Z -> (0 <= j < Z.of_nat h)%Z ->
  let m := window_moments (Blur.window_pts (Z.to_nat r) w h i j) X Y in
  plane0 (slope (regress_one f w h r epsq X Y)) i j = spec_slope (Q2R epsq) m
  /\ plane0 (intercept (regress_one f w h r epsq X Y)) i j = spec_intercept (Q2R epsq) m
  /\ plane0 (correlation (regress_one f w h r epsq X Y)) i j = spec_corr (Q2R epsq) m.
Proof.
  intros Hi Hj m. cbn [regress_one slope intercept correlation plane0 gclip cplanes nth].
  num_R. rewrite !(blur_mean _ i j Hi Hj), Q2R_0.
  unfold m, spec_corr, spec_intercept, spec_slope, spec_cov, spec_var_x, spec_var_y.
  cbn [window_moments m_x m_xx m_y m_xy m_yy].
  rewrite !(Rmax_comm _ 0). repeat split.
Qed.
End Exact.

(** ** In single-precision floats: no sample becomes [inf] or [nan]

    Run at [fsample] (Prelude), [_Regress] tracks for every sample
    whether its float computation stays finite: a division needs a
    nonzero divisor and [sqrt] a non-negative argument.  The clamp
    [0 max] of line 97 makes each variance non-negative, and [eps > 0]
    then keeps every divisor of lines 101 and 104 positive, in exact
    arithmetic and in floats alike (a float sum of a non-negative float
    and a positive one is positive). *)

Lemma eps_pos q : (0 < q)%Q -> 0 < Q2R q.
Proof. intros Hq. apply Qlt_Rlt in Hq. unfold Q2R at 1 in Hq. cbn [Qnum Qden] in Hq. lra. Qed.

Section Finite.
Variables (f : format) (w h : nat) (r : Z) (epsq : Q).
Hypothesis Hq : (0 < epsq)%Q.

(** A plane of finite samples, and the exact values of a plane. *)
Definition finite_plane (P : plane fsample) : Prop := forall x y, ffin (P x y).
Definition fval_plane (P : plane fsample) : plane R := fun x y => fval (P x y).

Lemma fin_add (a b : fsample) : ffin a -> ffin b -> ffin (nadd a b).
Proof. now split. Qed.

Lemma fin_mul (a b : fsample) : ffin a -> ffin b -> ffin (nmul a b).
Proof. now split. Qed.

Lemma fin_sub (a b : fsample) : ffin a -> ffin b -> ffin (nsub a b).
Proof. now split. Qed.

Lemma blur_finite P : finite_plane P -> finite_plane (blur w h r P).
Proof.
  intros HP x y. unfold blur.
  apply (Blur.box_blur_closed ffin);
    [exact I | intros; exact I | exact fin_add | exact fin_sub | exact fin_mul | exact HP].
Qed.

Lemma blur_fval P x y : fval (blur w h r P x y) = blur w h r (fval_plane P) x y.
Proof. unfold blur, fval_plane. apply (Blur.box_blur_hom fval); reflexivity. Qed.

Lemma var_nonneg (a : fsample) : 0 <= fval (nmax a (nlit 0%Q)).
Proof. cbn [fval nmax nlit F_num]. rewrite Q2R_0. apply Rmax_r. Qed.

Lemma fin_slope (c v : fsample) :
  ffin c -> ffin v -> ffin (ndiv c (nadd (nmax v (nlit 0%Q)) (nlit epsq))).
Proof.
  intros Hc Hv. pose proof (var_nonneg v). pose proof (eps_pos _ Hq).
  cbn [ffin fval ndiv nadd nmax nlit F_num] in *. repeat split; try assumption. lra.
Qed.

Lemma fin_corr (c vx vy : fsample) :
  ffin c -> ffin vx -> ffin vy ->
  ffin (nsqrt (ndiv (nmul c c)
    (nadd (nmul (nmax vx (nlit 0%Q)) (nmax vy (nlit 0%Q))) (nlit epsq)))).
Proof.
  intros Hc Hx Hy. pose proof (var_nonneg vx). pose proof (var_nonneg vy). pose proof (eps_pos _ Hq).
  cbn [ffin fval ndiv nadd nmul nmax nsqrt nlit F_num] in *.
  assert (0 <= Rmax (fval vx) (Q2R 0) * Rmax (fval vy) (Q2R 0)) by (apply Rmult_le_pos; assumption).
  repeat split; try assumption; [lra|].
  unfold Rdiv. apply Rmult_le_pos; [nra | apply Rlt_le, Rinv_0_lt_compat; lra].
Qed.

(** Every sample of the three clips of [regress_one] on finite planes
    is finite. *)
Lemma regress_one_finite X Y :
  finite_plane X -> finite_plane Y ->
  let rc := regress_one f w h r epsq X Y in
  forall i j, ffin (plane0 (slope rc) i j) /\ ffin (plane0 (intercept rc) i j)
              /\ ffin (plane0 (correlation rc) i j).
Proof.
  intros HX HY rc i j. subst rc.
  cbn [regress_one slope intercept correlation plane0 gclip cplanes nth].
  repeat first [ apply fin_slope | apply fin_corr | apply fin_sub | apply fin_mul | split
               | apply blur_finite; intros ? ?; try apply fin_mul; auto ].
Qed.

(** Their exact values are [regress_one] on the exact values of the
    inputs. *)
Lemma regress_one_fval X Y i j :
  let rc := regress_one f w h r epsq X Y in
  let rcR := regress_one f w h r epsq (fval_plane X) (fval_plane Y) in
  fval (plane0 (slope rc) i j) = plane0 (slope rcR) i j
  /\ fval (plane0 (intercept rc) i j) = plane0 (intercept rcR) i j
  /\ fval (plane0 (correlation rc) i j) = plane0 (correlation rcR) i j.
Proof.
  cbn [regress_one slope intercept correlation plane0 gclip cplanes nth
       fval nadd nsub nmul ndiv nmax nsqrt nlit F_num].
  rewrite !blur_fval. repeat split.
Qed.
End Finite.

(** Samples of a float clip that are exact reals, all finite. *)
Definition fs_plane (P : plane R) : plane fsample := fun x y => FS (P x y) True.

Lemma fs_plane_finite P : finite_plane (fs_plane P).
Proof. intros x y. exact I. Qed.

(** ** Theorems *)

(** C1. Refinement: on one-plane clips of one shape and a positive radius,
    [_Regress] creates its filters without error, returns one
    [RegressClips] per [y], each a one-plane clip of the input's shape,
    and every pixel of the slope, intercept and correlation clips is the
    spec's (section 4.3) value on the moments of the clamped
    [(2r+1) x (2r+1)] window of the pixel.  This holds for every [eps]
    whose rendering in the f-strings of lines 101 and 104 [std.Expr]
    reads as a number [q] (the default ["1e-07"] among them), with
    [eps = q] in the formulas. *)
Theorem regress_refines f w h r (X : plane R) (Ys : list (plane R)) epsw epsq :
  fam f = Gray -> (0 < r)%Z -> eps_literal epsw epsq ->
  exists rcs n,
    vs_ok (_Regress (gclip f w h X) (map (gclip f w h) Ys) r epsw) rcs n
    /\ Forall2 (fun Y rc =>
         (forall c, In c [slope rc; intercept rc; correlation rc] -> c = gclip f w h (plane0 c))
         /\ forall i j, (0 <= i < Z.of_nat w)%Z -> (0 <= j < Z.of_nat h)%Z ->
            let m := window_moments (Blur.window_pts (Z.to_nat r) w h i j) X Y in
            plane0 (slope rc) i j = spec_slope (Q2R epsq) m
            /\ plane0 (intercept rc) i j = spec_intercept (Q2R epsq) m
            /\ plane0 (correlation rc) i j = spec_corr (Q2R epsq) m) Ys rcs.
Proof.
  intros Hg Hr He. apply (regress_forall f w h r Hg epsw epsq He); [exact Hr|]. intros Y _. split.
  - intros c [<- | [<- | [<- | []]]]; reflexivity.
  - intros i j Hi Hj. now apply regress_one_pixel.
Qed.

Definition X0 : plane R := fun i _ => IZR i.
Definition Y0 : plane R := fun i j => 2 * IZR i + IZR j.

Lemma regress_refines_witness :
  fam GRAYS = Gray /\ (0 < 1)%Z /\ eps_literal eps_default eps_val /\
  exists rcs n, vs_ok (_Regress (gclip GRAYS 4 4 X0) [gclip GRAYS 4 4 Y0] 1 eps_default) rcs n
                /\ length rcs = 1%nat.
Proof.
  split; [reflexivity|]. split; [lia|]. split; [split; reflexivity|].
  destruct (regress_refines GRAYS 4 4 1 X0 [Y0] eps_default eps_val eq_refl ltac:(lia)
              (conj eq_refl eq_refl)) as [rcs [n [Hok HF]]].
  exists rcs, n. split; [exact Hok|]. now rewrite <- (Forall2_length HF).
Defined.

(** C3. Bounds: for a positive [eps], every pixel of every correlation
    clip [_Regress] returns lies in [0, 1), so the confidence weight
    derived from it never reaches 1 (Cauchy-Schwarz on the window). *)
Theorem regress_corr_bounds f w h r (X : plane R) (Ys : list (plane R)) epsw epsq :
  fam f = Gray -> (0 < r)%Z -> eps_literal epsw epsq -> (0 < epsq)%Q ->
  exists rcs n,
    vs_ok (_Regress (gclip f w h X) (map (gclip f w h) Ys) r epsw) rcs n
    /\ Forall2 (fun _ rc => forall i j, (0 <= i < Z.of_nat w)%Z -> (0 <= j < Z.of_nat h)%Z ->
                   0 <= plane0 (correlation rc) i j < 1) Ys rcs.
Proof.
  intros Hg Hr He Hq. apply (regress_forall f w h r Hg epsw epsq He); [exact Hr|]. intros Y _ i j Hi Hj.
  rewrite (proj2 (proj2 (regress_one_pixel f w h r epsq X Y i j Hi Hj))).
  apply spec_corr_window_bounds; [apply Blur.window_pts_nonempty | now apply eps_pos].
Qed.

Lemma regress_corr_bounds_witness :
  fam GRAYS = Gray /\ (0 < 2)%Z /\ eps_literal eps_default eps_val /\ (0 < eps_val)%Q /\
  exists rcs n, vs_ok (_Regress (gclip GRAYS 3 5 X0) [gclip GRAYS 3 5 Y0; gclip GRAYS 3 5 X0] 2
                                eps_default) rcs n.
Proof.
  split; [reflexivity|]. split; [lia|]. split; [split; reflexivity|]. split; [reflexivity|].
  destruct (regress_corr_bounds GRAYS 3 5 2 X0 [Y0; X0] eps_default eps_val eq_refl ltac:(lia)
              (conj eq_refl eq_refl) eq_refl) as [rcs [n [Hok _]]].
  eauto.
Defined.

(** C4. A flat neighbourhood (spec sections 7 and 8), with [_Regress]
    run in single-precision floats: on finite inputs and for a positive
    [eps], where [x] is constant over the window of a pixel — so the
    variance and the covariance of lines 97-99 are 0 — the slope, the
    intercept and the correlation are finite (no [0/0] at lines 101 and
    104), the slope is 0, the intercept is the window mean of [y] and the
    correlation is 0. *)
Theorem regress_flat_window f w h r (X : plane fsample) (Ys : list (plane fsample)) epsw epsq :
  fam f = Gray -> (0 < r)%Z -> eps_literal epsw epsq -> (0 < epsq)%Q ->
  finite_plane X -> Forall finite_plane Ys ->
  exists rcs n,
    vs_ok (_Regress (gclip f w h X) (map (gclip f w h) Ys) r epsw) rcs n
    /\ Forall2 (fun Y rc => forall i j c,
         (0 <= i < Z.of_nat w)%Z -> (0 <= j < Z.of_nat h)%Z ->
         let L := Blur.window_pts (Z.to_nat r) w h i j in
         (forall q, In q L -> fval (X (fst q) (snd q)) = c) ->
         ffin (plane0 (slope rc) i j) /\ fval (plane0 (slope rc) i j) = 0
         /\ ffin (plane0 (intercept rc) i j)
         /\ fval (plane0 (intercept rc) i j) = wmean L (fun q => fval (Y (fst q) (snd q)))
         /\ ffin (plane0 (correlation rc) i j) /\ fval (plane0 (correlation rc) i j) = 0) Ys rcs.
Proof.
  intros Hg Hr He Hq HX HYs. apply (regress_forall f w h r Hg epsw epsq He); [exact Hr|].
  intros Y HY i j c Hi Hj L Hc.
  pose proof (proj1 (Forall_forall _ _) HYs Y HY) as HYf.
  destruct (regress_one_finite f w h r epsq Hq X Y HX HYf i j) as (Fs & Fi & Fc).
  destruct (regress_one_fval f w h r epsq X Y i j) as (-> & -> & ->).
  destruct (regress_one_pixel f w h r epsq (fval_plane X) (fval_plane Y) i j Hi Hj) as (-> & -> & ->).
  unfold L in Hc |- *.
  destruct (spec_flat_window _ (fval_plane X) (fval_plane Y) _
              (Blur.window_pts_nonempty (Z.to_nat r) w h i j) (eps_pos _ Hq) c Hc) as (-> & -> & ->).
  exact (conj Fs (conj eq_refl (conj Fi (conj eq_refl (conj Fc eq_refl))))).
Qed.

Lemma regress_flat_window_witness :
  fam GRAYS = Gray /\ (0 < 1)%Z /\ eps_literal eps_default eps_val /\ (0 < eps_val)%Q /\
  finite_plane (fs_plane (fun _ _ => 7)) /\ Forall finite_plane [fs_plane Y0] /\
  exists rcs n, vs_ok (_Regress (gclip GRAYS 4 4 (fs_plane (fun _ _ => 7)))
                                [gclip GRAYS 4 4 (fs_plane Y0)] 1 eps_default) rcs n.
Proof.
  split; [reflexivity|]. split; [lia|]. split; [split; reflexivity|]. split; [reflexivity|].
  split; [apply fs_plane_finite|]. split; [repeat constructor; apply fs_plane_finite|].
  destruct (regress_flat_window GRAYS 4 4 1 (fs_plane (fun _ _ => 7)) [fs_plane Y0] eps_default
              eps_val eq_refl ltac:(lia) (conj eq_refl eq_refl) eq_refl (fs_plane_finite _)
              ltac:(repeat constructor; apply fs_plane_finite)) as [rcs [n [Hok _]]].
  eauto.
Defined.

(** C5. An exactly linear neighbourhood (spec section 8): where
    [y = a x + b] over the window of a pixel and [v] is the window variance
    of [x], the slope is [a v / (v + eps)], the intercept is
    [b + a eps / (v + eps) * E[x]] and the correlation is
    [sqrt ((a v)^2 / ((a v)^2 + eps))]: [a], [b] and 1 up to the eps
    regularisation, for every positive [eps]. *)
Theorem regress_linear_window f w h r (X : plane R) (Ys : list (plane R)) epsw epsq :
  fam f = Gray -> (0 < r)%Z -> eps_literal epsw epsq -> (0 < epsq)%Q ->
  exists rcs n,
    vs_ok (_Regress (gclip f w h X) (map (gclip f w h) Ys) r epsw) rcs n
    /\ Forall2 (fun Y rc => forall i j a b,
         (0 <= i < Z.of_nat w)%Z -> (0 <= j < Z.of_nat h)%Z ->
         let L := Blur.window_pts (Z.to_nat r) w h i j in
         let fx := fun q : Z * Z => X (fst q) (snd q) in
         (forall q, In q L -> Y (fst q) (snd q) = a * fx q + b) ->
         let v := wvar L fx in
         let eps := Q2R epsq in
         plane0 (slope rc) i j = a * v / (v + eps)
         /\ plane0 (intercept rc) i j = b + a * eps / (v + eps) * wmean L fx
         /\ plane0 (correlation rc) i j = sqrt (a * v * (a * v) / (a * v * (a * v) + eps)))
       Ys rcs.
Proof.
  intros Hg Hr He Hq. apply (regress_forall f w h r Hg epsw epsq He); [exact Hr|].
  intros Y _ i j a b Hi Hj L fx Hlin v eps.
  destruct (regress_one_pixel f w h r epsq X Y i j Hi Hj) as [-> [-> ->]].
  apply (spec_linear_window L X Y _ (Blur.window_pts_nonempty (Z.to_nat r) w h i j) (eps_pos _ Hq) a b Hlin).
Qed.

Lemma regress_linear_window_witness :
  fam GRAYS = Gray /\ (0 < 1)%Z /\ eps_literal eps_default eps_val /\ (0 < eps_val)%Q /\
  exists rcs n, vs_ok (_Regress (gclip GRAYS 4 4 X0) [gclip GRAYS 4 4 (fun i _ => 3 * IZR i + 1)] 1
                                eps_default) rcs n.
Proof.
  split; [reflexivity|]. split; [lia|]. split; [split; reflexivity|]. split; [reflexivity|].
  destruct (regress_linear_window GRAYS 4 4 1 X0 [fun i _ => 3 * IZR i + 1] eps_default eps_val
              eq_refl ltac:(lia) (conj eq_refl eq_refl) eq_refl)
    as [rcs [n [Hok _]]].
  eauto.
Defined.

(** C15. Error path (spec section 7): a radius that is not positive raises
    [ValueError("radius must be greater than zero")] before [_Regress]
    creates any filter: the trace is unchanged. *)
Theorem regress_radius_error {A} `{ExprNum A} (x : clip A) ys r eps t :
  (r <= 0)%Z ->
  _Regress x ys r eps t = (Err (ValueError "radius must be greater than zero"), t).
Proof.
  intros Hr. unfold _Regress. destruct (Z.ltb_spec 0 r); [lia|]. reflexivity.
Qed.

Lemma regress_radius_error_witness :
  (0 <= 0)%Z /\
  @_Regress R _ (gclip GRAYS 4 4 X0) [gclip GRAYS 4 4 Y0] 0 eps_default []
  = (Err (ValueError "radius must be greater than zero"), []).
Proof. split; [lia|]. apply regress_radius_error. lia. Defined.

(** C21. The loops over [ys] (lines 93-106): on one-plane clips of one
    shape with a positive radius and a numeric [eps], [_Regress] returns
    exactly one [RegressClips] per [y], in order, after creating exactly
    [4 + 10 k] filters for [k] clips [ys]: the four of [E[x]] and
    [E[x^2]] and [var_x], and ten per [y]. *)
Theorem regress_filter_count f w h r (X : plane R) (Ys : list (plane R)) epsw epsq :
  fam f = Gray -> (0 < r)%Z -> eps_literal epsw epsq ->
  exists rcs n, vs_ok (_Regress (gclip f w h X) (map (gclip f w h) Ys) r epsw) rcs n
                /\ length rcs = length Ys /\ length n = (4 + 10 * length Ys)%nat.
Proof.
  intros Hg Hr He. destruct (regress_graph f w h r Hg epsw epsq He X Ys Hr) as (n & Hok & Hn).
  exists (map (regress_one f w h r epsq X) Ys), n. split; [exact Hok|].
  split; [apply length_map | exact Hn].
Qed.

Lemma regress_filter_count_witness :
  fam GRAYS = Gray /\ (0 < 1)%Z /\ eps_literal eps_default eps_val /\
  exists rcs n, vs_ok (_Regress (gclip GRAYS 3 3 X0) [gclip GRAYS 3 3 Y0; gclip GRAYS 3 3 X0;
                                                    gclip GRAYS 3 3 Y0] 1 eps_default) rcs n
                /\ length n = 34%nat.
Proof.
  split; [reflexivity|]. split; [lia|]. split; [exact eps_literal_default|].
  destruct (regress_filter_count GRAYS 3 3 1 X0 [Y0; X0; Y0] eps_default eps_val eq_refl
              ltac:(lia) eps_literal_default) as (rcs & n & Hok & _ & Hn).
  exists rcs, n. split; [exact Hok | exact Hn].
Defined.

(** C22. Error path for [eps] (lines 101 and 104): when the f-string
    renders [eps] as a word [std.Expr] cannot read as a number — Python
    writes [float('inf')] as [inf] and [float('nan')] as [nan] — and
    there is at least one [y], [_Regress] raises the [std.Expr] error on
    that word at the first slope, after creating the [4 + 7 k] moment,
    variance and covariance filters; no slope is created. *)
Theorem regress_eps_error f w h r (X : plane R) (Ys : list (plane R)) epsw :
  fam f = Gray -> (0 < r)%Z -> Ys <> [] -> Expr.is_word epsw = true ->
  Expr.classify epsw = None ->
  exists n, (forall t, _Regress (gclip f w h X) (map (gclip f w h) Ys) r epsw t
                       = (Err (ExprError (Expr.EBadToken epsw)), (t ++ n)%list))
            /\ length n = (4 + 7 * length Ys)%nat.
Proof.
  intros Hg Hr Hne Hw Hc.
  destruct (regress_bad_eps f w h r Hg epsw X Ys Hr Hne Hw Hc) as (n & Hthen & Hn).
  exists n. split; [exact Hthen | exact Hn].
Qed.

Lemma regress_eps_error_witness :
  fam GRAYS = Gray /\ (0 < 1)%Z /\ [Y0] <> [] /\ Expr.is_word "inf" = true
  /\ Expr.classify "inf" = None /\
  exists n, forall t, _Regress (gclip GRAYS 4 4 X0) [gclip GRAYS 4 4 Y0] 1 "inf" t
                      = (Err (ExprError (Expr.EBadToken "inf")), (t ++ n)%list).
Proof.
  split; [reflexivity|]. split; [lia|]. split; [discriminate|].
  split; [reflexivity|]. split; [vm_compute; reflexivity|].
  destruct (regress_eps_error GRAYS 4 4 1 X0 [Y0] "inf" eq_refl ltac:(lia) ltac:(discriminate)
              eq_refl ltac:(vm_compute; reflexivity)) as (n & Hn & _).
  exists n. exact Hn.
Defined.

(** C24. Safety of the divisions (spec sections 4.3 and 7), with
    [_Regress] run in single-precision floats: on finite inputs, a
    positive radius and a positive numeric [eps], [_Regress] creates its
    [4 + 10 k] filters without error and every sample of every slope,
    intercept and correlation clip it returns is finite — no division
    by zero at lines 101 and 104 and no square root of a negative
    number, whatever the inputs, flat windows included. *)
Theorem regress_finite f w h r (X : plane fsample) (Ys : list (plane fsample)) epsw epsq :
  fam f = Gray -> (0 < r)%Z -> eps_literal epsw epsq -> (0 < epsq)%Q ->
  finite_plane X -> Forall finite_plane Ys ->
  exists rcs n,
    vs_ok (_Regress (gclip f w h X) (map (gclip f w h) Ys) r epsw) rcs n
    /\ length rcs = length Ys /\ length n = (4 + 10 * length Ys)%nat
    /\ Forall (fun rc => forall i j, ffin (plane0 (slope rc) i j)
                 /\ ffin (plane0 (intercept rc) i j) /\ ffin (plane0 (correlation rc) i j)) rcs.
Proof.
  intros Hg Hr He Hq HX HYs.
  destruct (regress_graph f w h r Hg epsw epsq He X Ys Hr) as (n & Hok & Hn).
  exists (map (regress_one f w h r epsq X) Ys), n.
  split; [exact Hok|]. split; [apply length_map|]. split; [exact Hn|].
  apply Forall_map. eapply Forall_impl; [|exact HYs]. intros Y HY.
  exact (regress_one_finite f w h r epsq Hq X Y HX HY).
Qed.

Lemma regress_finite_witness :
  fam GRAYS = Gray /\ (0 < 2)%Z /\ eps_literal eps_default eps_val /\ (0 < eps_val)%Q /\
  finite_plane (fs_plane X0) /\ Forall finite_plane [fs_plane Y0; fs_plane (fun _ _ => 3)] /\
  exists rcs n, vs_ok (_Regress (gclip GRAYS 3 5 (fs_plane X0))
                                [gclip GRAYS 3 5 (fs_plane Y0); gclip GRAYS 3 5 (fs_plane (fun _ _ => 3))]
                                2 eps_default) rcs n.
Proof.
  split; [reflexivity|]. split; [lia|]. split; [split; reflexivity|]. split; [reflexivity|].
  split; [apply fs_plane_finite|]. split; [repeat constructor; apply fs_plane_finite|].
  destruct (regress_finite GRAYS 3 5 2 (fs_plane X0) [fs_plane Y0; fs_plane (fun _ _ => 3)]
              eps_default eps_val eq_refl ltac:(lia) (conj eq_refl eq_refl) eq_refl
              (fs_plane_finite _) ltac:(repeat constructor; apply fs_plane_finite))
    as (rcs & n & Hok & _).
  eauto.
Defined.

(** ** The concrete scenario of spec section 8, run on rationals *)

(** A 4x4 luma plane whose rows are all [10 20 30 40], and the 2x2 chroma
    plane [[15 35] [15 35]] brought to 4x4 by repeating each sample. *)
Definition scen_luma : plane Q := fun x _ => inject_Z (10 * (x + 1)).
Definition scen_chroma : plane Q := fun x _ => if (x <? 2)%Z then 15%Q else 35%Q.

(** The spec's concrete scenario with radius 1, computed by the model
    itself over exact rationals.  At the corner pixel (0, 0) the clamped
    window repeats column 0, so it reads luma [10 10 20] and chroma
    [15 15 15] in each row: [E[X] = 40/3], [var_x = 200/9], [var_y = 0]
    and [cov = 0], hence slope 0, intercept 15 and correlation 0.  At
    (1, 0) it reads luma [10 20 30] and chroma [15 15 35]: [E[X] = 20],
    [var_x = 200/3], [E[Y] = 65/3], [var_y = 800/9] and [cov = 200/3],
    hence slope [(200/3) / (200/3 + 1e-7)], intercept
    [65/3 - 20 * slope] and correlation [sqrt(3/4)] up to eps and to the
    rounding of the square root. *)
Example regress_scenario :
  match fst (_Regress (gclip GRAYS 4 4 scen_luma) [gclip GRAYS 4 4 scen_chroma] 1 eps_default [])
  with
  | Ok [rc] =>
      plane0 (slope rc) 0%Z 0%Z == 0 /\ plane0 (intercept rc) 0%Z 0%Z == 15
      /\ plane0 (correlation rc) 0%Z 0%Z == 0
      /\ plane0 (slope rc) 1%Z 0%Z == (2000000000 # 2000000003)
      /\ plane0 (intercept rc) 1%Z 0%Z == (65 # 3) - 20 * (2000000000 # 2000000003)
      /\ (866025 # 1000000) <= plane0 (correlation rc) 1%Z 0%Z <= (866026 # 1000000)
  | _ => False
  end%Q.
Proof. vm_compute. repeat split; vm_compute; first [reflexivity | discriminate]. Qed.

End Regress.
