(* ===== verification/Reconstruct.v ===== *)
(** * [_ReconstructMulti] and [_mean] (recon.py lines 111-120)

    [_ReconstructMulti(c, r, radius)] turns a regression into a chroma
    correction: it maps the correlation to a confidence weight with the
    ramp ["x 0.5 - 0.5 / 0 max"], weights the slope by it, box-blurs the
    weighted slope with [_mean] and multiplies the result by the luma
    residual [c].

    The spec (section 4.4) states the ramp as [spec_weight].

    Theorems:
    - [reconstruct_pixel]: on one-plane clips the result at a pixel is the
      residual times the window mean of [slope * spec_weight corr];
    - [reconstruct_confidence_floor]: where the correlation stays below
      0.5 over the window of a pixel, the correction there is 0, whatever
      the slope (spec section 8);
    - [weight_ramp]: the weight is 0 up to a correlation of 0.5 and
      [2 corr - 1] above it, so a correlation in [0, 1) gives a weight in
      [0, 1);
    - [mean_window]: [_mean] is the mean over the clamped window. *)

From Stdlib Require Import String List ZArith Lia QArith Qreals Reals Lra FunctionalExtensionality.
From S2P Require Import Prelude Stats RpnExpr BoxBlur VSCore Regress.
Import ListNotations.
Import VS Regress.

Module Reconstruct.

(** The expression strings of lines 112, 113 and 115. *)
Definition prog_weight : string := "x 0.5 - 0.5 / 0 max".
Definition prog_slope_pm : string := "x y *".
Definition prog_recons : string := "x y *".

Section Code.
Context {A : Type} `{ExprNum A}.

(** [_mean(c, radius)], lines 119-120. *)
Definition _mean (c : clip A) (radius : Z) : VS (clip A) := box_blur c radius radius.

(** [_ReconstructMulti(c, r, radius)], lines 111-116. *)
Definition _ReconstructMulti (c : clip A) (r : RegressClips A) (radius : Z) : VS (clip A) :=
  weights <- expr [correlation r] prog_weight ;;
  slope_pm <- expr [slope r; weights] prog_slope_pm ;;
  slope_pm_sum <- _mean slope_pm radius ;;
  recons <- expr [c; slope_pm_sum] prog_recons ;;
  vret recons.
End Code.

Open Scope R_scope.

(** Spec section 4.4: [weight = max(0, (correlation - 0.5) / 0.5)]. *)
Definition spec_weight (corr : R) : R := Rmax 0 ((corr - 0.5) / 0.5).

Lemma denote_weight (a : R) : Expr.denote 1 prog_weight [a] = Ok (spec_weight a).
Proof.
  unfold Expr.denote. compile_eval.
  cbn [res_bind Expr.pixel Expr.run Expr.step nth_error option_map]. num_R.
  unfold spec_weight. f_equal. rewrite Rmax_comm. unfold Q2R. cbn [Qnum Qden]. do 2 f_equal; lra.
Qed.

Lemma denote_prod (a b : R) : Expr.denote 2 prog_slope_pm [a; b] = Ok (a * b).
Proof. reflexivity. Qed.

(** Where the correlation stays at or below 0.5 over a window, the window
    mean of the weighted slope is 0: every weight in it is 0. *)
Lemma box_mean_weight_zero r w h (S K : plane R) x y :
  (forall q, In q (Blur.window_pts r w h x y) -> K (fst q) (snd q) <= 0.5) ->
  Blur.box_mean r w h (fun i j => S i j * spec_weight (K i j)) x y = 0.
Proof.
  intros Hlow. unfold Blur.box_mean. rewrite (wmean_ext _ _ (fun _ => 0)).
  - exact (wmean_const _ (Blur.window_pts_nonempty _ _ _ _ _) 0).
  - intros q Hq. specialize (Hlow q Hq). unfold spec_weight. rewrite Rmax_left by lra. ring.
Qed.

Section Graph.
Variables (f : format) (w h : nat) (radius : Z).
Hypothesis Hgray : fam f = Gray.

Lemma expr_ok1 s (F : R -> R) P :
  (forall a, Expr.denote 1 s [a] = Ok (F a)) ->
  vs_ok (expr [gclip f w h P] s) (gclip f w h (fun x y => F (P x y))) ["std.Expr"%string].
Proof.
  intros HF. unfold Expr.denote in HF.
  destruct (Expr.compile 1 s) as [pr|e] eqn:Hc; [|discriminate (HF 0)].
  rewrite <- (expr_plane_eq f w h pr (fun x y => F (P x y)) [P]).
  - exact (expr_gray_ok f w h Hgray [P] s pr ltac:(discriminate) Hc).
  - intros x y. specialize (HF (P x y)). cbn in HF. now injection HF.
Qed.

(** The clip [_ReconstructMulti] returns, as a plane. *)
Definition recons_plane (C S K : plane R) : plane R :=
  fun x y => C x y * Blur.box_blur (Z.to_nat radius) (Z.to_nat radius) w h
                       (fun i j => S i j * spec_weight (K i j)) x y.

Lemma reconstruct_graph (C S I K : plane R) :
  (0 <= radius)%Z ->
  exists n, vs_ok (_ReconstructMulti (gclip f w h C)
                     (mkRegressClips (gclip f w h S) (gclip f w h I) (gclip f w h K)) radius)
                  (gclip f w h (recons_plane C S K)) n.
Proof.
  intros Hr. eexists. unfold _ReconstructMulti.
  eapply vs_ok_bind; [apply expr_ok1, denote_weight|]. cbv beta.
  eapply vs_ok_bind; [apply (expr_ok2 f w h Hgray), denote_prod|]. cbv beta.
  eapply vs_ok_bind; [apply box_blur_gray_ok; assumption|]. cbv beta.
  eapply vs_ok_bind; [apply (expr_ok2 f w h Hgray), denote_prod|]. cbv beta.
  apply vs_ok_ret.
Qed.
End Graph.

(** ** Theorems *)

(** C6. Functional behaviour of [_ReconstructMulti] on one-plane clips of
    one shape with a radius [>= 0]: it creates its filters without error
    and, at every pixel of the plane, returns the residual times the mean,
    over the clamped window of the pixel, of the slope weighted by the
    confidence ramp of the correlation. *)
Theorem reconstruct_pixel f w h (C S I K : plane R) radius :
  fam f = Gray -> (0 <= radius)%Z ->
  exists c' n,
    vs_ok (_ReconstructMulti (gclip f w h C)
             (mkRegressClips (gclip f w h S) (gclip f w h I) (gclip f w h K)) radius) c' n
    /\ c' = gclip f w h (plane0 c')
    /\ forall x y, (0 <= x < Z.of_nat w)%Z -> (0 <= y < Z.of_nat h)%Z ->
         plane0 c' x y
         = C x y * Blur.box_mean (Z.to_nat radius) w h (fun i j => S i j * spec_weight (K i j)) x y.
Proof.
  intros Hg Hr. destruct (reconstruct_graph f w h radius Hg C S I K Hr) as [n Hn].
  exists (gclip f w h (recons_plane w h radius C S K)), n.
  split; [exact Hn|]. split; [reflexivity|].
  intros x y Hx Hy. cbn [plane0 gclip cplanes nth]. unfold recons_plane.
  now rewrite Blur.box_blur_mean.
Qed.

Definition K0 : plane R := fun i j => IZR (i + j) / 10.

Lemma reconstruct_pixel_witness :
  fam GRAYS = Gray /\ (0 <= 2)%Z /\
  exists c' n, vs_ok (_ReconstructMulti (gclip GRAYS 4 4 X0)
                        (mkRegressClips (gclip GRAYS 4 4 Y0) (gclip GRAYS 4 4 Y0)
                                        (gclip GRAYS 4 4 K0)) 2) c' n.
Proof.
  split; [reflexivity|]. split; [lia|].
  destruct (reconstruct_pixel GRAYS 4 4 X0 Y0 Y0 K0 2 eq_refl ltac:(lia)) as [c' [n [Hok _]]].
  eauto.
Defined.

(** C7. Confidence floor (spec section 8): where the correlation is below
    0.5 at every point of the window of a pixel, [_ReconstructMulti]
    contributes no correction at that pixel, whatever the slope. *)
Theorem reconstruct_confidence_floor f w h (C S I K : plane R) radius :
  fam f = Gray -> (0 <= radius)%Z ->
  exists c' n,
    vs_ok (_ReconstructMulti (gclip f w h C)
             (mkRegressClips (gclip f w h S) (gclip f w h I) (gclip f w h K)) radius) c' n
    /\ forall x y, (0 <= x < Z.of_nat w)%Z -> (0 <= y < Z.of_nat h)%Z ->
         (forall q, In q (Blur.window_pts (Z.to_nat radius) w h x y) -> K (fst q) (snd q) < 0.5) ->
         plane0 c' x y = 0.
Proof.
  intros Hg Hr. destruct (reconstruct_graph f w h radius Hg C S I K Hr) as [n Hn].
  exists (gclip f w h (recons_plane w h radius C S K)), n. split; [exact Hn|].
  intros x y Hx Hy Hlow. cbn [plane0 gclip cplanes nth]. unfold recons_plane.
  rewrite Blur.box_blur_mean by assumption.
  rewrite box_mean_weight_zero; [ring|]. intros q Hq. apply Rlt_le. exact (Hlow q Hq).
Qed.

Lemma reconstruct_confidence_floor_witness :
  fam GRAYS = Gray /\ (0 <= 1)%Z /\
  exists c' n, vs_ok (_ReconstructMulti (gclip GRAYS 4 4 X0)
                        (mkRegressClips (gclip GRAYS 4 4 Y0) (gclip GRAYS 4 4 Y0)
                                        (gclip GRAYS 4 4 (fun _ _ => 0.25))) 1) c' n
               /\ plane0 c' 1%Z 1%Z = 0.
Proof.
  split; [reflexivity|]. split; [lia|].
  destruct (reconstruct_confidence_floor GRAYS 4 4 X0 Y0 Y0 (fun _ _ => 0.25) 1 eq_refl ltac:(lia))
    as (c' & n & Hok & Hz).
  exists c', n. split; [exact Hok|]. apply Hz; [lia | lia | intros; lra].
Defined.

(** C20. The confidence ramp of line 112: the string computes 0 for a
    correlation up to 0.5 (a hard floor) and [2 corr - 1] above it, so a
    correlation in [0, 1) gets a weight in [0, 1). *)
Theorem weight_ramp (corr : R) :
  exists v, Expr.denote 1 prog_weight [corr] = Ok v
            /\ (corr <= 0.5 -> v = 0)
            /\ (0.5 <= corr -> v = 2 * corr - 1)
            /\ (0 <= corr < 1 -> 0 <= v < 1).
Proof.
  exists (spec_weight corr). split; [apply denote_weight|]. unfold spec_weight.
  split; [|split]; intros Hc.
  - apply Rmax_left. lra.
  - rewrite Rmax_right by lra. lra.
  - destruct (Rle_dec corr 0.5).
    + rewrite Rmax_left by lra. lra.
    + rewrite Rmax_right by lra. lra.
Qed.

(** C8. [_mean(c, radius)] (lines 119-120), the box filter both
    [_Regress] and [_ReconstructMulti] rely on: with a radius [>= 0] on a
    one-plane clip it returns a clip of the same shape whose every pixel is
    the mean of the input over the clamped [(2r+1) x (2r+1)] window of the
    pixel (the running-sum passes equal the direct window mean). *)
Theorem mean_window f w h (P : plane R) (radius : Z) :
  fam f = Gray -> (0 <= radius)%Z ->
  exists c' n, vs_ok (_mean (gclip f w h P) radius) c' n
    /\ c' = gclip f w h (plane0 c')
    /\ forall x y, (0 <= x < Z.of_nat w)%Z -> (0 <= y < Z.of_nat h)%Z ->
         plane0 c' x y = wmean (Blur.window_pts (Z.to_nat radius) w h x y)
                               (fun q => P (fst q) (snd q)).
Proof.
  intros Hg Hr. do 2 eexists. split; [exact (box_blur_gray_ok f w h Hg P radius Hr)|].
  split; [reflexivity|]. intros x y Hx Hy. cbn. now rewrite Blur.box_blur_mean.
Qed.

Lemma mean_window_witness :
  fam GRAYS = Gray /\ (0 <= 2)%Z /\
  exists c' n, vs_ok (_mean (gclip GRAYS 5 3 (fun x y => IZR (x * y))) 2) c' n.
Proof.
  split; [reflexivity|]. split; [lia|].
  destruct (mean_window GRAYS 5 3 (fun x y => IZR (x * y)) 2 eq_refl ltac:(lia)) as (c' & n & Hok & _).
  eauto.
Defined.

End Reconstruct.
