(* ===== verification/Pipeline.v ===== *)
(** * [chroma_reconstruct] (recon.py lines 22-68, alias line 124)

    The per-frame pipeline: reject a variable-format clip; convert the
    clip to 32-bit float; split it into one-plane clips; downscale luma to
    the size of plane 1 (bicubic b = c = 1/3, [src_left=-.5]); "demangle"
    the downscaled luma and both chroma planes back to the full [w x h]
    with [dmgl] ([src_left=.25]); take the residual [y_fix = Y - dmgl(luma)];
    regress the demangled chroma on the demangled luma; add to each
    demangled chroma plane the correction [_ReconstructMulti] computes from
    [y_fix]; join the original luma with the two corrected planes; resize
    to the input format, or with [i444] only convert the depth back.

    The Python list [planes] is updated in place (lines 55 and 57); it is
    modelled as a list value threaded through the updates, with Python's
    [IndexError] on an index past its end.  The function is split into
    [recon_prepare] (lines 43-58), [recon_finish] (lines 59-66) and
    [recon_output] (lines 67-68).

    Lemmas: [prepare_run] and [finish_run] give the exact planes of each
    half on a well-formed three-plane clip, through the resampler
    ([luma_down], [demangle]) and the reconstructed chroma [new_chroma];
    [chroma_run] composes them.  Theorems: the end-to-end per-pixel
    formula (C2), the format round trip (C9), the planes of the default
    output (C10), the confidence floor of the whole script (C11), the
    independence of the U and V branches (C12), the errors for a
    non-positive radius (C13), a variable format (C14) and a GRAY clip
    (C18), the 4:4:4 output (C16), the full-resolution intermediate
    planes (C17) and the RGB input the script accepts (C19).
    [chroma_filter_graph] lists the filters of one frame in creation
    order. *)

From Stdlib Require Import String List ZArith Lia QArith Qreals Reals Lra FunctionalExtensionality.
From S2P Require Import Prelude Stats RpnExpr BoxBlur VSCore Regress Reconstruct.
Import ListNotations.
Import VS Regress Reconstruct.

Module Pipeline.

Section Code.
Context {A : Type} `{ExprNum A} `{Resampler A}.

(** Python's [l[i] = x]. *)
Definition set_index {X} (l : list X) (i : nat) (x : X) : VS (list X) :=
  if (i <? length l)%nat
  then vret (firstn i l ++ x :: skipn (S i) l)
  else raise IndexError.

(** [dmgl], lines 46-48: back to the full [w x h], shifted by 1/4. *)
Definition dmgl (w h : nat) (c : clip A) : VS (clip A) :=
  resize bicubic_default c (Some w) (Some h) None (1 # 4).

(** Unpack a Python list of exactly two values ([yu, yv = ...]). *)
Definition unpack2 {X} (l : list X) : VS (X * X) :=
  match l with
  | [a; b] => vret (a, b)
  | _ => raise (ValueError "wrong number of values to unpack")
  end.

(** Lines 43-58: the format check, the float conversion, the split,
    the luma downscale, the demangling and the residual [y_fix].  The
    Python locals the rest of the function reads are returned: the
    format, [clip_y], the list [planes] and [y_fix]. *)
Definition recon_prepare (clip : VS.clip A)
  : VS (format * VS.clip A * list (VS.clip A) * VS.clip A) :=
  match cfmt clip with
  | None => raise (ValueError "recon: 'Variable-format clips not supported'")
  | Some fmt =>
    let w := cw clip in
    let h := ch clip in
    clipb <- depth clip 32 ;;
    planes <- split clipb ;;
    clip_y <- index planes 0 ;;
    p0 <- index planes 0 ;;
    p1 <- index planes 1 ;;
    y_down <- resize (Bicubic (1 # 3) (1 # 3)) p0 (Some (cw p1)) (Some (ch p1)) None (- 1 # 2) ;;
    planes <- set_index planes 0 y_down ;;
    q0 <- index planes 0 ;; q1 <- index planes 1 ;; q2 <- index planes 2 ;;
    d0 <- dmgl w h q0 ;; d1 <- dmgl w h q1 ;; d2 <- dmgl w h q2 ;;
    planes <- set_index planes 0 d0 ;;
    planes <- set_index planes 1 d1 ;;
    planes <- set_index planes 2 d2 ;;
    r0 <- index planes 0 ;;
    y_fix <- make_diff clip_y r0 ;;
    vret (fmt, clip_y, planes, y_fix)
  end.

(** The value returned at lines 67-68: back to the input format, or with
    [i444] only back to the input depth. *)
Definition recon_output (clip : VS.clip A) (fmt : format) (i444 : bool) (merged : VS.clip A)
  : VS (VS.clip A) :=
  if negb i444 then resize bicubic_default merged None None (Some fmt) 0
  else d <- get_depth clip ;; depth merged d.

(** [merged = join([clip_y, planes[1], planes[2]])], line 66. *)
Definition recon_join (clip_y : VS.clip A) (planes : list (VS.clip A)) : VS (VS.clip A) :=
  s1 <- index planes 1 ;; s2 <- index planes 2 ;; join [clip_y; s1; s2].

(** Lines 59-68: regression, the two corrections, the join and the
    output format. *)
Definition recon_finish (clip : VS.clip A) (radius : Z) (i444 : bool)
           (st : format * VS.clip A * list (VS.clip A) * VS.clip A) : VS (VS.clip A) :=
  let '(fmt, clip_y, planes, y_fix) := st in
  r0 <- index planes 0 ;; r1 <- index planes 1 ;; r2 <- index planes 2 ;;
  rs <- _Regress r0 [r1; r2] radius eps_default ;;
  yuyv <- unpack2 rs ;;
  u_fix <- _ReconstructMulti y_fix (fst yuyv) radius ;;
  r1 <- index planes 1 ;;
  u_new <- merge_diff r1 u_fix ;;
  planes <- set_index planes 1 u_new ;;
  v_fix <- _ReconstructMulti y_fix (snd yuyv) radius ;;
  r2 <- index planes 2 ;;
  v_new <- merge_diff r2 v_fix ;;
  planes <- set_index planes 2 v_new ;;
  merged <- recon_join clip_y planes ;;
  recon_output clip fmt i444 merged.

(** [chroma_reconstruct(clip, radius, i444)], lines 22-68. *)
Definition chroma_reconstruct (clip : VS.clip A) (radius : Z) (i444 : bool) : VS (VS.clip A) :=
  st <- recon_prepare clip ;; recon_finish clip radius i444 st.

(** [chroma_reconstruct(clip)], line 22: the defaults [radius = 2] and
    [i444 = False]. *)
Definition chroma_reconstruct_defaults (clip : VS.clip A) : VS (VS.clip A) :=
  chroma_reconstruct clip 2 false.

(** [ChromaReconstruct = chroma_reconstruct], line 124. *)
Definition ChromaReconstruct := chroma_reconstruct.
End Code.

(** ** The pipeline on a well-formed YUV clip *)

Section Run.
Context {RS : Resampler R}.

Lemma vs_ok_set_index {X} (l : list X) i x :
  (i < length l)%nat -> vs_ok (set_index l i x) (firstn i l ++ x :: skipn (S i) l) [].
Proof. intros Hi. unfold set_index. destruct (Nat.ltb_spec i (length l)); [apply vs_ok_ret | lia]. Qed.

Ltac step := eapply vs_ok_bind; [|cbv beta].

Lemma planes_of_float32 (c : clip R) fmt P0 P1 P2 :
  [P0; P1; P2] = depth_planes c fmt -> stype fmt = Float -> bits fmt = 32%nat ->
  cplanes c = [P0; P1; P2].
Proof. intros H Hs Hb. rewrite H. now rewrite depth_planes_float32. Qed.

(** The filters created before the regression: resizes, the plane
    shuffles of [split] and the [MakeDiff] of the residual. *)
Definition prep_filter (s : string) : Prop :=
  s = "resize"%string \/ s = "std.ShufflePlanes"%string \/ s = "std.MakeDiff"%string.

(** The planes lines 55 and 57 compute, through the resampler: luma
    down to the size [w1 x h1] of plane 1 (b = c = 1/3, [src_left=-.5]),
    and [dmgl] back to the full [w x h] ([src_left=.25]). *)
Definition luma_down (G : format) (w h w1 h1 : nat) (P : plane R) : plane R :=
  rs_plane (Bicubic (1 # 3) (1 # 3)) (- 1 # 2) G G 0 w h w1 h1 P.

Definition demangle (G : format) (w1 h1 w h : nat) (P : plane R) : plane R :=
  rs_plane bicubic_default (1 # 4) G G 0 w1 h1 w h P.

(** Lines 59-64 as planes: the demangled chroma [D] plus the correction
    [_ReconstructMulti] computes from the residual [P0 - D0] and the
    regression of [D] on the demangled luma [D0]. *)
Definition new_chroma (G : format) (w h : nat) (radius : Z) (P0 D0 D : plane R) : plane R :=
  let rc := regress_one G w h radius eps_val D0 D in
  fun x y => D x y + recons_plane w h radius (fun x y => P0 x y - D0 x y)
                       (plane0 (slope rc)) (plane0 (correlation rc)) x y.

(** Lines 43-58 on a well-formed three-plane clip (YUV or RGB): no error;
    [clip_y] is plane 0 of the float conversion, the three planes are the
    demangled planes at the full size and [y_fix] is the luma residual. *)
Lemma prepare_run (c : clip R) fmt :
  cfmt c = Some fmt -> fam fmt <> Gray -> wf c ->
  let G := gray_of (float32 fmt) in
  let w1 := plane_w fmt (cw c) 1 in
  let h1 := plane_h fmt (ch c) 1 in
  let D0 := fun P0 => demangle G w1 h1 (cw c) (ch c) (luma_down G (cw c) (ch c) w1 h1 P0) in
  exists P0 P1 P2 n,
    vs_ok (recon_prepare c)
          (fmt, gclip G (cw c) (ch c) P0,
           [gclip G (cw c) (ch c) (D0 P0);
            gclip G (cw c) (ch c) (demangle G w1 h1 (cw c) (ch c) P1);
            gclip G (cw c) (ch c) (demangle G w1 h1 (cw c) (ch c) P2)],
           gclip G (cw c) (ch c) (fun x y => P0 x y - D0 P0 x y)) n
    /\ Forall prep_filter n
    /\ [P0; P1; P2] = depth_planes c fmt.
Proof.
  intros Hc Hy Hwf G w1 h1 D0. pose proof Hwf as Hwf'. unfold wf in Hwf'. rewrite Hc in Hwf'.
  destruct Hwf' as (Hw & Hh & Hmw & Hmh & _).
  destruct (depth_float3_ok c fmt Hc Hy Hwf) as (P0 & P1 & P2 & n0 & Hd & Hn0 & Hid).
  assert (HG : fam G = Gray) by reflexivity.
  assert (Hw1 : (0 < w1)%nat) by (apply shiftr_pos; auto).
  assert (Hh1 : (0 < h1)%nat) by (apply shiftr_pos; auto).
  exists P0, P1, P2. eexists. split; [|split].
  - unfold recon_prepare. rewrite Hc. cbv zeta.
    step; [exact Hd|].
    step; [apply split3_ok; exact Hy|].
    step; [apply vs_ok_index; reflexivity|].
    step; [apply vs_ok_index; reflexivity|].
    step; [apply vs_ok_index; reflexivity|].
    step; [apply resize_gray_ok; auto|].
    step; [apply vs_ok_set_index; cbn; lia|].
    step; [apply vs_ok_index; reflexivity|].
    step; [apply vs_ok_index; reflexivity|].
    step; [apply vs_ok_index; reflexivity|].
    step; [apply resize_gray_ok; auto|].
    step; [apply resize_gray_ok; auto|].
    step; [apply resize_gray_ok; auto|].
    step; [apply vs_ok_set_index; cbn; lia|].
    step; [apply vs_ok_set_index; cbn; lia|].
    step; [apply vs_ok_set_index; cbn; lia|].
    step; [apply vs_ok_index; reflexivity|].
    step; [apply make_diff_gray_ok; exact HG|].
    apply vs_ok_ret.
  - unfold prep_filter. rewrite !Forall_app.
    repeat split; try (repeat constructor; tauto).
    eapply Forall_impl; [|exact Hn0]. intros s Hs. now left.
  - exact Hid.
Qed.

(** The same on a YUV clip, the demangled planes left abstract. *)
Lemma prepare_ok (c : clip R) fmt :
  cfmt c = Some fmt -> fam fmt = YUV -> wf c ->
  let G := gray_of (float32 fmt) in
  exists P0 D0 D1 D2 n,
    vs_ok (recon_prepare c)
          (fmt, gclip G (cw c) (ch c) P0,
           [gclip G (cw c) (ch c) D0; gclip G (cw c) (ch c) D1; gclip G (cw c) (ch c) D2],
           gclip G (cw c) (ch c) (fun x y => P0 x y - D0 x y)) n
    /\ Forall prep_filter n
    /\ (stype fmt = Float -> bits fmt = 32%nat -> P0 = nth 0 (cplanes c) zero_plane).
Proof.
  intros Hc Hy Hwf G.
  destruct (prepare_run c fmt Hc ltac:(congruence) Hwf) as (P0 & P1 & P2 & n & Hp & Hn & Hid).
  do 5 eexists. split; [exact Hp|]. split; [exact Hn|].
  intros Hs Hb. now rewrite (planes_of_float32 c fmt P0 P1 P2 Hid Hs Hb).
Qed.

(** Line 66 on three one-plane clips of one shape: a 4:4:4 clip of
    their planes, after one plane shuffle. *)
Lemma recon_join_ok g w h (P0 P1 P2 Q0 : plane R) :
  vs_ok (recon_join (gclip g w h Q0) [gclip g w h P0; gclip g w h P1; gclip g w h P2])
        (mkClip (Some (mkFormat YUV (stype g) (bits g) 0 0)) w h [Q0; P1; P2])
        ["std.ShufflePlanes"%string].
Proof.
  change ["std.ShufflePlanes"%string] with ([] ++ [] ++ ["std.ShufflePlanes"%string])%list.
  unfold recon_join. step; [apply vs_ok_index; reflexivity|].
  step; [apply vs_ok_index; reflexivity|]. apply join_full_ok.
Qed.

(** Lines 59-66 after [prepare_run], with a positive radius: no error up
    to the join, which gives a 4:4:4 float clip of the input's size with
    the luma [clip_y] and the two reconstructed chroma planes; what is
    left is line 67-68. *)
Lemma finish_run (c : clip R) fmt radius i444 P0 D0 D1 D2 :
  (0 < radius)%Z ->
  let G := gray_of (float32 fmt) in
  exists n,
    vs_then (recon_finish c radius i444
               (fmt, gclip G (cw c) (ch c) P0,
                [gclip G (cw c) (ch c) D0; gclip G (cw c) (ch c) D1; gclip G (cw c) (ch c) D2],
                gclip G (cw c) (ch c) (fun x y => P0 x y - D0 x y)))
            (recon_output c fmt i444
               (mkClip (Some (mkFormat YUV Float 32 0 0)) (cw c) (ch c)
                       [P0; new_chroma G (cw c) (ch c) radius P0 D0 D1;
                        new_chroma G (cw c) (ch c) radius P0 D0 D2])) n.
Proof.
  intros Hr G. assert (HG : fam G = Gray) by reflexivity.
  set (w := cw c). set (h := ch c). set (Yf := fun x y => P0 x y - D0 x y).
  set (rc1 := regress_one G w h radius eps_val D0 D1). set (rc2 := regress_one G w h radius eps_val D0 D2).
  destruct (regress_graph G w h radius HG eps_default eps_val eps_literal_default D0 [D1; D2] Hr)
    as [n1 [H1 _]].
  destruct (reconstruct_graph G w h radius HG Yf (plane0 (slope rc1)) (plane0 (intercept rc1))
              (plane0 (correlation rc1)) ltac:(lia)) as [n2 H2].
  destruct (reconstruct_graph G w h radius HG Yf (plane0 (slope rc2)) (plane0 (intercept rc2))
              (plane0 (correlation rc2)) ltac:(lia)) as [n3 H3].
  eexists. unfold recon_finish.
  do 3 (eapply vs_then_bind; [apply vs_ok_index; reflexivity|]; cbv beta).
  eapply vs_then_bind; [exact H1|]. cbv beta.
  eapply vs_then_bind; [cbn [map unpack2]; apply vs_ok_ret|]. cbv beta.
  eapply vs_then_bind; [exact H2|]. cbv beta.
  eapply vs_then_bind; [apply vs_ok_index; reflexivity|]. cbv beta.
  eapply vs_then_bind; [apply merge_diff_gray_ok; exact HG|]. cbv beta.
  eapply vs_then_bind; [apply vs_ok_set_index; cbn; lia|]. cbv beta.
  eapply vs_then_bind; [exact H3|]. cbv beta.
  eapply vs_then_bind; [apply vs_ok_index; reflexivity|]. cbv beta.
  eapply vs_then_bind; [apply merge_diff_gray_ok; exact HG|]. cbv beta.
  eapply vs_then_bind; [apply vs_ok_set_index; cbn; lia|]. cbv beta.
  eapply vs_then_bind; [apply recon_join_ok|]. cbv beta.
  apply vs_then_refl.
Qed.

(** The same, with a property of the value line 67-68 returns. *)
Lemma finish_ok (c : clip R) fmt radius i444 P0 D0 D1 D2 (P : clip R -> Prop) :
  (0 < radius)%Z ->
  let G := gray_of (float32 fmt) in
  (forall U V,
      exists b n, vs_ok (recon_output c fmt i444
                           (mkClip (Some (mkFormat YUV Float 32 0 0)) (cw c) (ch c) [P0; U; V]))
                        b n /\ P b) ->
  exists b n, vs_ok (recon_finish c radius i444
                       (fmt, gclip G (cw c) (ch c) P0,
                        [gclip G (cw c) (ch c) D0; gclip G (cw c) (ch c) D1;
                         gclip G (cw c) (ch c) D2],
                        gclip G (cw c) (ch c) (fun x y => P0 x y - D0 x y))) b n /\ P b.
Proof.
  intros Hr G Hfinal. destruct (finish_run c fmt radius i444 P0 D0 D1 D2 Hr) as [n1 H1].
  destruct (Hfinal (new_chroma G (cw c) (ch c) radius P0 D0 D1)
                   (new_chroma G (cw c) (ch c) radius P0 D0 D2)) as (b & n2 & H2 & HP).
  exists b, (n1 ++ n2). split; [exact (vs_then_ok _ _ _ _ _ H1 H2) | exact HP].
Qed.
Lemma get_depth_ok (c : clip R) f : cfmt c = Some f -> vs_ok (get_depth c) (bits f) [].
Proof. intros Hc t. unfold get_depth, fmt_of, vbind. rewrite Hc. cbn. now rewrite app_nil_r. Qed.

(** The whole script on a well-formed three-plane clip with a positive
    radius: no error up to line 66, and what is left is line 67-68 on the
    joined clip of the luma and the two reconstructed chroma planes. *)
Lemma chroma_run (c : clip R) fmt radius i444 :
  cfmt c = Some fmt -> fam fmt <> Gray -> wf c -> (0 < radius)%Z ->
  let G := gray_of (float32 fmt) in
  let w1 := plane_w fmt (cw c) 1 in
  let h1 := plane_h fmt (ch c) 1 in
  let dm := demangle G w1 h1 (cw c) (ch c) in
  exists P0 P1 P2 n,
    vs_then (chroma_reconstruct c radius i444)
      (recon_output c fmt i444
         (mkClip (Some (mkFormat YUV Float 32 0 0)) (cw c) (ch c)
            [P0; new_chroma G (cw c) (ch c) radius P0 (dm (luma_down G (cw c) (ch c) w1 h1 P0)) (dm P1);
                 new_chroma G (cw c) (ch c) radius P0 (dm (luma_down G (cw c) (ch c) w1 h1 P0)) (dm P2)]))
      n
    /\ [P0; P1; P2] = depth_planes c fmt.
Proof.
  intros Hc Hg Hwf Hr G w1 h1 dm.
  destruct (prepare_run c fmt Hc Hg Hwf) as (P0 & P1 & P2 & n1 & Hp & _ & Hid).
  destruct (finish_run c fmt radius i444 P0 (dm (luma_down G (cw c) (ch c) w1 h1 P0)) (dm P1) (dm P2) Hr)
    as [n2 H2].
  exists P0, P1, P2, (n1 ++ n2). split; [|exact Hid].
  exact (vs_then_bind _ _ _ _ _ _ Hp H2).
Qed.

(** Line 68 on a 32-bit float input: [get_depth] is 32 and [depth] returns
    the joined float clip itself. *)
Lemma output_444_float_ok (c m : clip R) fmt :
  cfmt c = Some fmt -> bits fmt = 32%nat -> cfmt m = Some (mkFormat YUV Float 32 0 0) ->
  vs_ok (recon_output c fmt true m) m [].
Proof.
  intros Hc Hb Hm t. unfold recon_output, get_depth, depth, fmt_of, vbind. rewrite Hc, Hm.
  cbn [negb vret]. rewrite Hb. now rewrite app_nil_r.
Qed.

(** Line 67 on the joined float clip: one resize to the input's YUV
    format, plane by plane. *)
Lemma output_resize_ok (c : clip R) fmt w h P0 U V :
  fam fmt <> Gray -> (0 < w)%nat -> (0 < h)%nat ->
  Nat.modulo w (2 ^ ssw fmt) = 0%nat -> Nat.modulo h (2 ^ ssh fmt) = 0%nat ->
  vs_ok (recon_output c fmt false (mkClip (Some (mkFormat YUV Float 32 0 0)) w h [P0; U; V]))
        (mkClip (Some fmt) w h
           (map (fun i => rs_plane bicubic_default 0 (mkFormat YUV Float 32 0 0) fmt i w h
                            (plane_w fmt w i) (plane_h fmt h i) (nth i [P0; U; V] zero_plane))
                [0; 1; 2]%nat))
        ["resize"%string].
Proof.
  intros Hy Hw Hh Hmw Hmh t. unfold recon_output, resize, resize_planes, fmt_of, vbind.
  cbn [negb cfmt cw ch vret]. rewrite Hmw, Hmh.
  destruct (Nat.eqb_spec w 0); [lia|]. destruct (Nat.eqb_spec h 0); [lia|].
  unfold num_planes. destruct (fam fmt); [congruence | reflexivity | reflexivity].
Qed.

(** A reconstructed chroma plane at a pixel: the demangled chroma plus
    the residual times the window mean of the weighted slope, slope and
    correlation being the section 4.3 formulas on the window moments. *)
Lemma new_chroma_pixel G w h radius P0 D0 D x y :
  (0 <= x < Z.of_nat w)%Z -> (0 <= y < Z.of_nat h)%Z ->
  let r := Z.to_nat radius in
  let M := fun i j => window_moments (Blur.window_pts r w h i j) D0 D in
  new_chroma G w h radius P0 D0 D x y
  = D x y + (P0 x y - D0 x y)
            * Blur.box_mean r w h
                (fun i j => spec_slope (Q2R eps_val) (M i j)
                            * spec_weight (spec_corr (Q2R eps_val) (M i j))) x y.
Proof.
  intros Hx Hy r M. unfold new_chroma, recons_plane. cbv zeta. f_equal. f_equal.
  rewrite Blur.box_blur_mean by assumption.
  apply Blur.box_mean_ext_in; [lia | lia |]. intros i j Hi Hj.
  destruct (regress_one_pixel G w h radius eps_val D0 D i j Hi Hj) as (Hs & _ & Hk).
  rewrite Hs, Hk. reflexivity.
Qed.

(** On a 32-bit float three-plane clip with [i444 = true]: no conversion
    at either end, the result is the joined clip itself. *)
Lemma chroma_444_float_ok (c : clip R) fmt radius :
  cfmt c = Some fmt -> fam fmt <> Gray -> stype fmt = Float -> bits fmt = 32%nat -> wf c ->
  (0 < radius)%Z ->
  let G := gray_of (float32 fmt) in
  let w := cw c in
  let h := ch c in
  let dm := demangle G (plane_w fmt w 1) (plane_h fmt h 1) w h in
  let Y := nth 0 (cplanes c) zero_plane in
  let D0 := dm (luma_down G w h (plane_w fmt w 1) (plane_h fmt h 1) Y) in
  exists n, vs_ok (chroma_reconstruct c radius true)
                  (mkClip (Some (mkFormat YUV Float 32 0 0)) w h
                     [Y; new_chroma G w h radius Y D0 (dm (nth 1 (cplanes c) zero_plane));
                         new_chroma G w h radius Y D0 (dm (nth 2 (cplanes c) zero_plane))]) n.
Proof.
  intros Hc Hg Hs Hb Hwf Hr. cbv zeta.
  destruct (chroma_run c fmt radius true Hc Hg Hwf Hr) as (P0 & P1 & P2 & n & Hrun & Hid).
  exists (n ++ []). rewrite (planes_of_float32 c fmt P0 P1 P2 Hid Hs Hb). cbn [nth].
  apply (vs_then_ok _ _ _ _ _ Hrun).
  apply output_444_float_ok with (fmt := fmt); [exact Hc | exact Hb | reflexivity].
Qed.

End Run.

(** ** Theorems *)

(** C14. Error path (spec section 7a): a variable-format clip raises
    [ValueError("recon: 'Variable-format clips not supported'")] before
    any filter is created, whatever the radius and output mode. *)
Theorem chroma_variable_format_error {A} `{ExprNum A} `{Resampler A}
    (c : clip A) radius i444 t :
  cfmt c = None ->
  chroma_reconstruct c radius i444 t
  = (Err (ValueError "recon: 'Variable-format clips not supported'"), t).
Proof. intros Hc. unfold chroma_reconstruct, recon_prepare, vbind. now rewrite Hc. Qed.

Lemma chroma_variable_format_error_witness :
  cfmt (mkClip (A := R) None 4 4 []) = None /\
  chroma_reconstruct (mkClip (A := R) None 4 4 []) 0 false []
  = (Err (ValueError "recon: 'Variable-format clips not supported'"), []).
Proof. split; [reflexivity|]. now apply chroma_variable_format_error. Defined.

(** C13. Error ordering (spec section 7b): on a well-formed YUV clip, a
    radius that is not positive raises the [ValueError] of [_Regress];
    before it the script has created only resizes, plane shuffles and the
    [MakeDiff] of the residual — no box blur and no expression, so none of
    the statistics. *)
Theorem chroma_radius_error {RS : Resampler R} (c : clip R) fmt radius i444 :
  cfmt c = Some fmt -> fam fmt = YUV -> wf c -> (radius <= 0)%Z ->
  exists n, (forall t, chroma_reconstruct c radius i444 t
                       = (Err (ValueError "radius must be greater than zero"), (t ++ n)%list))
            /\ Forall prep_filter n.
Proof.
  intros Hc Hy Hwf Hr. destruct (prepare_ok c fmt Hc Hy Hwf) as (P0 & D0 & D1 & D2 & n & Hp & Hn & _).
  exists n. split; [|exact Hn]. intros t.
  unfold chroma_reconstruct, vbind at 1. rewrite Hp. unfold recon_finish, vbind at 1 2 3.
  cbn [index nth_error vret]. unfold vbind. now rewrite regress_radius_error.
Qed.

Definition flat_plane : plane R := fun _ _ => 0.
Definition clip420 : clip R := mkClip (Some YUV420P8) 4 4 [flat_plane; flat_plane; flat_plane].

Lemma wf_clip420 : wf clip420.
Proof. unfold wf, clip420. cbn. repeat split; lia. Qed.

Lemma chroma_radius_error_witness :
  cfmt clip420 = Some YUV420P8 /\ fam YUV420P8 = YUV /\ wf clip420 /\ (0 <= 0)%Z /\
  exists n, forall t, chroma_reconstruct clip420 0 false t
                      = (Err (ValueError "radius must be greater than zero"), (t ++ n)%list).
Proof.
  split; [reflexivity|]. split; [reflexivity|]. split; [exact wf_clip420|]. split; [lia|].
  destruct (chroma_radius_error clip420 YUV420P8 0 false eq_refl eq_refl wf_clip420 ltac:(lia))
    as [n [Hn _]].
  eauto.
Defined.

(** C9. Format round trip (spec section 6, section 8): on a well-formed
    YUV clip with a positive radius and [i444 = false], the script creates
    its filters without error and returns a clip with the input's format
    (subsampling and depth) and size, with three planes. *)
Theorem chroma_format_roundtrip {RS : Resampler R} (c : clip R) fmt radius :
  cfmt c = Some fmt -> fam fmt = YUV -> wf c -> (0 < radius)%Z ->
  exists c' n, vs_ok (chroma_reconstruct c radius false) c' n
               /\ cfmt c' = Some fmt /\ cw c' = cw c /\ ch c' = ch c
               /\ length (cplanes c') = 3%nat.
Proof.
  intros Hc Hy Hwf Hr. destruct (prepare_ok c fmt Hc Hy Hwf) as (P0 & D0 & D1 & D2 & n & Hp & _ & _).
  pose proof Hwf as Hwf'. unfold wf in Hwf'. rewrite Hc in Hwf'.
  destruct Hwf' as (Hw & Hh & Hmw & Hmh & _).
  apply (vs_ok_bind_ex _ _ _ _ (ex_intro _ n Hp)).
  apply finish_ok; [exact Hr|]. intros U V. unfold recon_output. cbn [negb].
  destruct (resize_yuv_ok bicubic_default
              (mkClip (Some (mkFormat YUV Float 32 0 0)) (cw c) (ch c) [P0; U; V])
              (mkFormat YUV Float 32 0 0) fmt 0) as (Q0 & Q1 & Q2 & Hres); auto.
  { unfold wf; cbn. repeat split; auto. }
  do 2 eexists. split; [exact Hres|]. cbn. auto.
Qed.

Lemma chroma_format_roundtrip_witness :
  cfmt clip420 = Some YUV420P8 /\ fam YUV420P8 = YUV /\ wf clip420 /\ (0 < 2)%Z /\
  exists c' n, vs_ok (chroma_reconstruct clip420 2 false) c' n /\ cfmt c' = Some YUV420P8.
Proof.
  split; [reflexivity|]. split; [reflexivity|]. split; [exact wf_clip420|]. split; [lia|].
  destruct (chroma_format_roundtrip clip420 YUV420P8 2 eq_refl eq_refl wf_clip420 ltac:(lia))
    as (c' & n & Hok & Hf & _).
  eauto.
Defined.

(** C16. 4:4:4 output (spec section 6): with [i444 = true], on a
    well-formed three-plane clip (YUV, or RGB: the colour family is never
    checked), the result is a 4:4:4 YUV clip of the input's size at the
    input's bit depth; its sample type is float exactly when that depth is
    32 (vsutil's default), so a 16-bit float input comes back as 16-bit
    integer and an RGB input comes back as YUV. *)
Theorem chroma_444_output {RS : Resampler R} (c : clip R) fmt radius :
  cfmt c = Some fmt -> fam fmt <> Gray -> wf c -> (0 < radius)%Z ->
  exists c' n, vs_ok (chroma_reconstruct c radius true) c' n
               /\ cfmt c' = Some (mkFormat YUV (if (bits fmt =? 32)%nat then Float else Integer)
                                          (bits fmt) 0 0)
               /\ cw c' = cw c /\ ch c' = ch c /\ length (cplanes c') = 3%nat.
Proof.
  intros Hc Hy Hwf Hr. destruct (chroma_run c fmt radius true Hc Hy Hwf Hr) as (P0 & P1 & P2 & n & Hrun & _).
  pose proof Hwf as Hwf'. unfold wf in Hwf'. rewrite Hc in Hwf'.
  destruct Hwf' as (Hw & Hh & _ & _ & _).
  match type of Hrun with
  | vs_then _ (recon_output _ _ _ (mkClip _ _ _ [_; ?U; ?V])) _ =>
      destruct (depth_yuv444_ok (cw c) (ch c) P0 U V (bits fmt) Hw Hh) as (c' & n2 & Hd & Hprops)
  end.
  exists c', (n ++ ([] ++ n2)). split; [|tauto].
  apply (vs_then_ok _ _ _ _ _ Hrun). unfold recon_output. cbn [negb].
  exact (vs_ok_bind _ _ _ _ _ _ (get_depth_ok c fmt Hc) Hd).
Qed.

Lemma chroma_444_output_witness :
  cfmt clip420 = Some YUV420P8 /\ fam YUV420P8 <> Gray /\ wf clip420 /\ (0 < 1)%Z /\
  exists c' n, vs_ok (chroma_reconstruct clip420 1 true) c' n
               /\ cfmt c' = Some (mkFormat YUV Integer 8 0 0).
Proof.
  split; [reflexivity|]. split; [discriminate|]. split; [exact wf_clip420|].
  split; [lia|].
  destruct (chroma_444_output clip420 YUV420P8 1 eq_refl ltac:(discriminate) wf_clip420
              ltac:(lia)) as (c' & n & Hok & Hf & _).
  eauto.
Defined.

Definition clip444 : clip R := mkClip (Some YUV444PS) 2 2 [fun x y => IZR (x + y); flat_plane; flat_plane].

(** C17. Resolution of the regression (spec section 4.5, steps 4-6): on
    a well-formed YUV clip, lines 43-58 create only resizes, plane
    shuffles and the [MakeDiff], and leave [clip_y], the three demangled
    planes and [y_fix] all at the full size of the input: [dmgl] resizes
    to [w x h], so [_Regress] and [_ReconstructMulti] run at luma
    resolution, not at chroma resolution. *)
Theorem prepare_full_resolution {RS : Resampler R} (c : clip R) fmt :
  cfmt c = Some fmt -> fam fmt = YUV -> wf c ->
  exists fmt' clip_y planes y_fix n,
    vs_ok (recon_prepare c) (fmt', clip_y, planes, y_fix) n /\ Forall prep_filter n
    /\ fmt' = fmt /\ length planes = 3%nat
    /\ Forall (fun c' => cw c' = cw c /\ ch c' = ch c /\ cfmt c' = Some GRAYS)
              (clip_y :: y_fix :: planes).
Proof.
  intros Hc Hy Hwf. destruct (prepare_ok c fmt Hc Hy Hwf) as (P0 & D0 & D1 & D2 & n & Hp & Hn & _).
  do 5 eexists. split; [exact Hp|]. split; [exact Hn|]. split; [reflexivity|]. split; [reflexivity|].
  repeat constructor.
Qed.

Lemma prepare_full_resolution_witness :
  cfmt clip420 = Some YUV420P8 /\ fam YUV420P8 = YUV /\ wf clip420 /\
  exists fmt' clip_y planes y_fix n, vs_ok (recon_prepare clip420) (fmt', clip_y, planes, y_fix) n
                                     /\ cw y_fix = 4%nat.
Proof.
  split; [reflexivity|]. split; [reflexivity|]. split; [exact wf_clip420|].
  destruct (prepare_full_resolution clip420 YUV420P8 eq_refl eq_refl wf_clip420)
    as (fmt' & cy & pl & yf & n & Hok & _ & _ & _ & HF).
  exists fmt', cy, pl, yf, n. split; [exact Hok|]. inversion HF as [|? ? _ HF']. inversion HF'.
  tauto.
Defined.

(** C18. An error the spec does not name: a well-formed one-plane (GRAY)
    clip is not rejected by a check of its own; [split] returns one plane
    as it is, and [planes[1]] at line 55 raises Python's [IndexError],
    after only the depth conversion was created, whatever the radius and
    the output mode. *)
Theorem chroma_gray_index_error {A} `{ExprNum A} `{Resampler A} (c : clip A) f radius i444 :
  cfmt c = Some f -> fam f = Gray -> wf c ->
  exists n, (forall t, chroma_reconstruct c radius i444 t = (Err IndexError, (t ++ n)%list))
            /\ Forall (fun s => s = "resize"%string) n.
Proof.
  intros Hc Hg Hwf. destruct (depth_float_ok c f Hc Hwf) as (ps & n0 & Hd & Hl & Hn0 & _).
  unfold num_planes in Hl. rewrite Hg in Hl. destruct ps as [|P0 [|? ?]]; cbn in Hl; try lia.
  assert (Hp : vs_then (recon_prepare c) (raise IndexError)
                       (n0 ++ [] ++ [] ++ [] ++ [])).
  { unfold recon_prepare. rewrite Hc. cbv zeta.
    eapply vs_then_bind; [exact Hd|]. cbv beta.
    eapply vs_then_bind; [apply split_gray_ok; exact Hg|]. cbv beta.
    do 2 (eapply vs_then_bind; [apply vs_ok_index; reflexivity|]; cbv beta).
    apply vs_then_refl. }
  exists (n0 ++ [] ++ [] ++ [] ++ []). split.
  - intros t. unfold chroma_reconstruct, vbind at 1. now rewrite (Hp t).
  - rewrite !app_nil_r. exact Hn0.
Qed.

Definition clip_gray : clip R := mkClip (Some GRAYS) 4 4 [flat_plane].

Lemma chroma_gray_index_error_witness :
  cfmt clip_gray = Some GRAYS /\ fam GRAYS = Gray /\ wf clip_gray /\
  exists n, forall t, chroma_reconstruct clip_gray 2 false t = (Err IndexError, (t ++ n)%list).
Proof.
  assert (Hw : wf clip_gray) by (unfold wf, clip_gray; cbn; repeat split; lia).
  split; [reflexivity|]. split; [reflexivity|]. split; [exact Hw|].
  destruct (chroma_gray_index_error clip_gray GRAYS 2 false eq_refl eq_refl Hw) as [n [Hn _]].
  eauto.
Defined.

(** C19. RGB input (spec section 6 names no colour family): the script
    never checks the colour family.  On a well-formed 32-bit float RGB
    clip with a positive radius, both output modes build their graph
    without error: with [i444 = false] the result has the input's RGB
    format (the conversion back from the joined YUV clip takes its
    matrix from the frames, see [resize]); with [i444 = true] the result
    is a 4:4:4 YUV clip whose luma plane is the input's R plane, sample
    for sample, the G and B planes having been corrected as chroma. *)
Theorem chroma_rgb_accepted {RS : Resampler R} (c : clip R) fmt radius :
  cfmt c = Some fmt -> fam fmt = RGB -> stype fmt = Float -> bits fmt = 32%nat -> wf c ->
  (0 < radius)%Z ->
  (exists c' n, vs_ok (chroma_reconstruct c radius false) c' n /\ cfmt c' = Some fmt)
  /\ (exists c' n, vs_ok (chroma_reconstruct c radius true) c' n
        /\ cfmt c' = Some (mkFormat YUV Float 32 0 0) /\ plane0 c' = plane0 c).
Proof.
  intros Hc Hrgb Hs Hb Hwf Hr.
  pose proof Hwf as Hwf'. unfold wf in Hwf'. rewrite Hc in Hwf'.
  destruct Hwf' as (Hw & Hh & Hmw & Hmh & _). split.
  - destruct (chroma_run c fmt radius false Hc ltac:(congruence) Hwf Hr) as (P0 & P1 & P2 & n & Hrun & _).
    do 2 eexists. split; [exact (vs_then_ok _ _ _ _ _ Hrun (output_resize_ok c fmt _ _ _ _ _ ltac:(congruence) Hw Hh Hmw Hmh)) | reflexivity].
  - destruct (chroma_444_float_ok c fmt radius Hc ltac:(congruence) Hs Hb Hwf Hr) as [n Hok].
    do 2 eexists. split; [exact Hok|]. split; reflexivity.
Qed.

Definition RGBS : format := mkFormat RGB Float 32 0 0.
Definition clip_rgb : clip R :=
  mkClip (Some RGBS) 2 2 [fun x _ => IZR x; flat_plane; fun _ y => IZR y].

Lemma chroma_rgb_accepted_witness :
  cfmt clip_rgb = Some RGBS /\ fam RGBS = RGB /\ stype RGBS = Float /\ bits RGBS = 32%nat
  /\ wf clip_rgb /\ (0 < 1)%Z /\
  exists c' n, vs_ok (chroma_reconstruct clip_rgb 1 true) c' n /\ plane0 c' = (fun x _ => IZR x).
Proof.
  assert (Hw : wf clip_rgb) by (unfold wf, clip_rgb; cbn; repeat split; lia).
  do 4 (split; [reflexivity|]). split; [exact Hw|]. split; [lia|].
  destruct (chroma_rgb_accepted clip_rgb RGBS 1 eq_refl eq_refl eq_refl eq_refl Hw ltac:(lia))
    as [_ (c' & n & Hok & _ & Hp)].
  exists c', n. split; [exact Hok | exact Hp].
Defined.

(** C2. End to end (spec sections 4.3-4.5): on a well-formed 32-bit
    float YUV clip with [i444 = true] and a positive radius, the script
    succeeds; the result is a 4:4:4 float clip of the input's size whose
    luma is the input's luma, and at every pixel each chroma plane is the
    demangled chroma [D] plus the residual [Y - D0] of the luma against
    the demangled downscaled luma [D0], times the window mean of the
    slope weighted by the confidence ramp of the correlation, slope and
    correlation being the section 4.3 formulas on the moments of [D0] and
    [D] over the clamped window of each point. *)
Theorem chroma_reconstruct_pixel {RS : Resampler R} (c : clip R) fmt radius :
  cfmt c = Some fmt -> fam fmt = YUV -> stype fmt = Float -> bits fmt = 32%nat -> wf c ->
  (0 < radius)%Z ->
  let G := gray_of (float32 fmt) in
  let w := cw c in
  let h := ch c in
  let dm := demangle G (plane_w fmt w 1) (plane_h fmt h 1) w h in
  let Y := nth 0 (cplanes c) zero_plane in
  let D0 := dm (luma_down G w h (plane_w fmt w 1) (plane_h fmt h 1) Y) in
  let r := Z.to_nat radius in
  let eps := Q2R eps_val in
  exists c' n,
    vs_ok (chroma_reconstruct c radius true) c' n
    /\ cfmt c' = Some (mkFormat YUV Float 32 0 0) /\ cw c' = w /\ ch c' = h
    /\ nth 0 (cplanes c') zero_plane = Y
    /\ forall k x y, (k = 1 \/ k = 2)%nat ->
         (0 <= x < Z.of_nat w)%Z -> (0 <= y < Z.of_nat h)%Z ->
         let D := dm (nth k (cplanes c) zero_plane) in
         let M := fun i j => window_moments (Blur.window_pts r w h i j) D0 D in
         nth k (cplanes c') zero_plane x y
         = D x y + (Y x y - D0 x y)
                   * Blur.box_mean r w h
                       (fun i j => spec_slope eps (M i j) * spec_weight (spec_corr eps (M i j))) x y.
Proof.
  intros Hc Hy Hs Hb Hwf Hr.
  destruct (chroma_444_float_ok c fmt radius Hc ltac:(congruence) Hs Hb Hwf Hr) as [n Hok].
  cbv zeta in *. eexists. exists n. split; [exact Hok|].
  do 4 (split; [reflexivity|]).
  intros k x y Hk Hx Hy'. destruct Hk as [-> | ->]; cbn [nth cplanes]; now apply new_chroma_pixel.
Qed.

Lemma chroma_reconstruct_pixel_witness :
  cfmt clip444 = Some YUV444PS /\ fam YUV444PS = YUV /\ stype YUV444PS = Float
  /\ bits YUV444PS = 32%nat /\ wf clip444 /\ (0 < 1)%Z /\
  exists c' n, vs_ok (chroma_reconstruct clip444 1 true) c' n /\ cw c' = 2%nat.
Proof.
  assert (Hw : wf clip444) by (unfold wf, clip444; cbn; repeat split; lia).
  do 4 (split; [reflexivity|]). split; [exact Hw|]. split; [lia|].
  destruct (chroma_reconstruct_pixel clip444 YUV444PS 1 eq_refl eq_refl eq_refl eq_refl Hw
              ltac:(lia)) as (c' & n & Hok & _ & Hcw & _).
  eauto.
Defined.

(** The filter graph of one frame: on an 8-bit 4:2:0 clip with
    radius 2 and [i444 = false] the script creates 45 filters, in this
    order: the float conversion, three plane shuffles, the luma downscale,
    three [dmgl] resizes, the residual [MakeDiff]; then [_Regress]'s eight
    moment blurs (E[x], E[x^2], E[y] twice, E[xy] twice, E[y^2] twice, with
    their products) and its eleven expressions; then for each chroma plane
    [_ReconstructMulti]'s three expressions around one blur and the
    [MergeDiff]; finally the join and the resize back to 4:2:0. *)
Example chroma_filter_graph :
  snd (chroma_reconstruct clip420 2 false [])
  = ["resize"; "std.ShufflePlanes"; "std.ShufflePlanes"; "std.ShufflePlanes";
     "resize"; "resize"; "resize"; "resize"; "std.MakeDiff";
     "std.BoxBlur"; "std.Expr"; "std.BoxBlur"; "std.BoxBlur"; "std.BoxBlur";
     "std.Expr"; "std.BoxBlur"; "std.Expr"; "std.BoxBlur";
     "std.Expr"; "std.BoxBlur"; "std.Expr"; "std.BoxBlur";
     "std.Expr"; "std.Expr"; "std.Expr"; "std.Expr"; "std.Expr"; "std.Expr";
     "std.Expr"; "std.Expr"; "std.Expr"; "std.Expr"; "std.Expr";
     "std.Expr"; "std.Expr"; "std.BoxBlur"; "std.Expr"; "std.MergeDiff";
     "std.Expr"; "std.Expr"; "std.BoxBlur"; "std.Expr"; "std.MergeDiff";
     "std.ShufflePlanes"; "resize"]%string.
Proof. vm_compute. reflexivity. Qed.

(** C10. The default output (spec section 4.5 step 9): on a well-formed YUV
    clip with a positive radius and [i444 = false], the result is the
    clip of the input's format and size whose plane [i] is the resampler's
    plane [i], from the 4:4:4 float layout to the input format, of the
    joined clip: the float luma and the two reconstructed chroma planes
    [new_chroma], each the demangled chroma plus the correction. *)
Theorem chroma_output_resampled {RS : Resampler R} (c : clip R) fmt radius :
  cfmt c = Some fmt -> fam fmt = YUV -> wf c -> (0 < radius)%Z ->
  let G := gray_of (float32 fmt) in
  let w := cw c in
  let h := ch c in
  let dm := demangle G (plane_w fmt w 1) (plane_h fmt h 1) w h in
  exists P0 P1 P2 c' n,
    vs_ok (chroma_reconstruct c radius false) c' n
    /\ (stype fmt = Float -> bits fmt = 32%nat -> cplanes c = [P0; P1; P2])
    /\ let D0 := dm (luma_down G w h (plane_w fmt w 1) (plane_h fmt h 1) P0) in
       c' = mkClip (Some fmt) w h
              (map (fun i => rs_plane bicubic_default 0 (mkFormat YUV Float 32 0 0) fmt i w h
                               (plane_w fmt w i) (plane_h fmt h i)
                               (nth i [P0; new_chroma G w h radius P0 D0 (dm P1);
                                       new_chroma G w h radius P0 D0 (dm P2)] zero_plane))
                   [0; 1; 2]%nat).
Proof.
  intros Hc Hy Hwf Hr G w h dm.
  destruct (chroma_run c fmt radius false Hc ltac:(congruence) Hwf Hr) as (P0 & P1 & P2 & n & Hrun & Hid).
  pose proof Hwf as Hwf'. unfold wf in Hwf'. rewrite Hc in Hwf'.
  destruct Hwf' as (Hw & Hh & Hmw & Hmh & _).
  exists P0, P1, P2. do 2 eexists.
  split; [|split; [exact (planes_of_float32 c fmt P0 P1 P2 Hid) | reflexivity]].
  exact (vs_then_ok _ _ _ _ _ Hrun (output_resize_ok c fmt _ _ _ _ _ ltac:(congruence) Hw Hh Hmw Hmh)).
Qed.

Lemma chroma_output_resampled_witness :
  cfmt clip420 = Some YUV420P8 /\ fam YUV420P8 = YUV /\ wf clip420 /\ (0 < 2)%Z /\
  exists c' n, vs_ok (chroma_reconstruct clip420 2 false) c' n /\ length (cplanes c') = 3%nat.
Proof.
  split; [reflexivity|]. split; [reflexivity|]. split; [exact wf_clip420|]. split; [lia|].
  destruct (chroma_output_resampled clip420 YUV420P8 2 eq_refl eq_refl wf_clip420 ltac:(lia))
    as (P0 & P1 & P2 & c' & n & Hok & _ & Hc').
  exists c', n. split; [exact Hok|]. rewrite Hc'. reflexivity.
Defined.

(** C12. The two chroma branches are independent (spec section 5): for a
    32-bit float YUV format, a size it divides and a positive radius,
    there are two functions such that, whatever the planes [Y], [U] and
    [V], the script succeeds and the first chroma plane of its result is
    the first function of [Y] and [U] alone, the second that of [Y] and
    [V] alone: changing [V] never changes the [U] output, and back. *)
Theorem chroma_branches_independent {RS : Resampler R} fmt w h radius i444 :
  fam fmt = YUV -> stype fmt = Float -> bits fmt = 32%nat ->
  (0 < w)%nat -> (0 < h)%nat ->
  Nat.modulo w (2 ^ ssw fmt) = 0%nat -> Nat.modulo h (2 ^ ssh fmt) = 0%nat ->
  (0 < radius)%Z ->
  exists F1 F2 : plane R -> plane R -> plane R,
    forall Y U V, exists c' n,
      vs_ok (chroma_reconstruct (mkClip (Some fmt) w h [Y; U; V]) radius i444) c' n
      /\ nth 1 (cplanes c') zero_plane = F1 Y U
      /\ nth 2 (cplanes c') zero_plane = F2 Y V.
Proof.
  intros Hy Hs Hb Hw Hh Hmw Hmh Hr.
  set (G := gray_of (float32 fmt)).
  set (dm := demangle G (plane_w fmt w 1) (plane_h fmt h 1) w h).
  set (D0 := fun Y => dm (luma_down G w h (plane_w fmt w 1) (plane_h fmt h 1) Y)).
  set (out := fun k (P : plane R) => if i444 then P
              else rs_plane bicubic_default 0 (mkFormat YUV Float 32 0 0) fmt k w h
                     (plane_w fmt w k) (plane_h fmt h k) P).
  exists (fun Y U => out 1%nat (new_chroma G w h radius Y (D0 Y) (dm U))),
         (fun Y V => out 2%nat (new_chroma G w h radius Y (D0 Y) (dm V))).
  intros Y U V. set (c := mkClip (Some fmt) w h [Y; U; V]).
  assert (Hwf : wf c) by (unfold wf, c; cbn; unfold num_planes; rewrite Hy; repeat split; auto).
  destruct i444.
  - destruct (chroma_444_float_ok c fmt radius eq_refl ltac:(congruence) Hs Hb Hwf Hr) as [n Hok].
    eexists. exists n. split; [exact Hok|]. split; reflexivity.
  - destruct (chroma_run c fmt radius false eq_refl ltac:(congruence) Hwf Hr)
      as (P0 & P1 & P2 & n & Hrun & Hid).
    injection (planes_of_float32 c fmt P0 P1 P2 Hid Hs Hb) as <- <- <-.
    eexists. exists (n ++ ["resize"%string]). split.
    + exact (vs_then_ok _ _ _ _ _ Hrun (output_resize_ok c fmt _ _ _ _ _ ltac:(congruence) Hw Hh Hmw Hmh)).
    + split; reflexivity.
Qed.

Lemma chroma_branches_independent_witness :
  fam YUV444PS = YUV /\ stype YUV444PS = Float /\ bits YUV444PS = 32%nat /\ (0 < 2)%nat
  /\ (0 < 2)%nat /\ Nat.modulo 2 (2 ^ ssw YUV444PS) = 0%nat
  /\ Nat.modulo 2 (2 ^ ssh YUV444PS) = 0%nat /\ (0 < 1)%Z /\
  exists F1 F2 : plane R -> plane R -> plane R,
    forall Y U V, exists c' n,
      vs_ok (chroma_reconstruct (mkClip (Some YUV444PS) 2 2 [Y; U; V]) 1 false) c' n
      /\ nth 1 (cplanes c') zero_plane = F1 Y U.
Proof.
  do 3 (split; [reflexivity|]). do 2 (split; [lia|]). do 2 (split; [reflexivity|]). split; [lia|].
  destruct (chroma_branches_independent YUV444PS 2 2 1 false eq_refl eq_refl eq_refl
              ltac:(lia) ltac:(lia) eq_refl eq_refl ltac:(lia)) as (F1 & F2 & HF).
  exists F1, F2. intros Y U V. destruct (HF Y U V) as (c' & n & Hok & H1 & _). eauto.
Defined.

(** C11. The confidence floor at the level of the script (spec sections
    4.4 and 8): on a 32-bit float YUV clip with [i444 = true], wherever the
    correlation of the demangled chroma against the demangled luma stays
    at or below 0.5 over the whole window of a pixel, the output chroma at
    that pixel is the demangled chroma, with no correction, whatever the
    slope and the luma residual. *)
Theorem chroma_confidence_floor {RS : Resampler R} (c : clip R) fmt radius :
  cfmt c = Some fmt -> fam fmt = YUV -> stype fmt = Float -> bits fmt = 32%nat -> wf c ->
  (0 < radius)%Z ->
  let G := gray_of (float32 fmt) in
  let w := cw c in
  let h := ch c in
  let dm := demangle G (plane_w fmt w 1) (plane_h fmt h 1) w h in
  let D0 := dm (luma_down G w h (plane_w fmt w 1) (plane_h fmt h 1) (nth 0 (cplanes c) zero_plane)) in
  let r := Z.to_nat radius in
  exists c' n,
    vs_ok (chroma_reconstruct c radius true) c' n
    /\ forall k x y, (k = 1 \/ k = 2)%nat ->
         (0 <= x < Z.of_nat w)%Z -> (0 <= y < Z.of_nat h)%Z ->
         let D := dm (nth k (cplanes c) zero_plane) in
         (forall q, In q (Blur.window_pts r w h x y) ->
            spec_corr (Q2R eps_val) (window_moments (Blur.window_pts r w h (fst q) (snd q)) D0 D)
            <= 0.5) ->
         nth k (cplanes c') zero_plane x y = D x y.
Proof.
  intros Hc Hy Hs Hb Hwf Hr.
  destruct (chroma_444_float_ok c fmt radius Hc ltac:(congruence) Hs Hb Hwf Hr) as [n Hok].
  cbv zeta in *. eexists. exists n. split; [exact Hok|].
  intros k x y Hk Hx Hy' Hlow.
  destruct Hk as [-> | ->]; cbn [nth cplanes]; rewrite new_chroma_pixel by assumption;
    cbv zeta; rewrite box_mean_weight_zero by exact Hlow; ring.
Qed.

Lemma chroma_confidence_floor_witness :
  cfmt clip444 = Some YUV444PS /\ fam YUV444PS = YUV /\ stype YUV444PS = Float
  /\ bits YUV444PS = 32%nat /\ wf clip444 /\ (0 < 1)%Z /\
  exists c' n, vs_ok (chroma_reconstruct clip444 1 true) c' n.
Proof.
  assert (Hw : wf clip444) by (unfold wf, clip444; cbn; repeat split; lia).
  do 4 (split; [reflexivity|]). split; [exact Hw|]. split; [lia|].
  destruct (chroma_confidence_floor clip444 YUV444PS 1 eq_refl eq_refl eq_refl eq_refl Hw
              ltac:(lia)) as (c' & n & Hok & _).
  eauto.
Defined.

End Pipeline.
