(* ===== verification/Resample.v ===== *)
(** * The resampler and the sample conversions ([resize.Bicubic], [resize.Point])

    Every theorem of the other files holds for any [Resampler], the
    interface of [VSCore].  This file gives the one VapourSynth uses: the
    spec's PlaneAligner (section 4.1) and PrecisionConverter/FormatPacker
    (section 6), modelled after zimg, the library behind [resize.*], which
    is not under [src/].

    - The kernels: the two-lobed Mitchell-Netravali family [bc_kernel b c]
      of [resize.Bicubic] ([filter_param_a = b], [filter_param_b = c]), and
      the one-tap kernel of [resize.Point].
    - One dimension, [resample1]: output sample [i] sits at
      [pos = (i + 1/2) * src / dst + shift] on the input grid; the kernel,
      widened by [dst / src] when downscaling, is sampled at the
      [filter_size] input cells around [pos], cells past an edge are
      mirrored back into the plane, and the weights are divided by their
      total.
    - Two dimensions, [scale_plane]: horizontal then vertical, with the
      horizontal shift of a chroma plane scaled by its subsampling and
      moved by the left chroma siting (MPEG-2, VapourSynth's default); no
      vertical shift.
    - Samples, [unpack] and [pack]: integer YUV and GRAY samples are
      limited range ([16..235] for luma, [16..240] around 128 for chroma
      at 8 bits, scaled by [2^(bits-8)]), RGB full range; floats are
      luma in [[0, 1]] and chroma in [[-1/2, 1/2]].  Packing rounds half up
      and clamps to [[0, 2^bits - 1]] (no dithering, [resize]'s default).

    Lemmas: [pack]/[unpack] on integer codes, and the point resize at
    the same size as the identity; with them, C23: the luma codes of an
    integer clip survive the 4:4:4 output. *)

From Stdlib Require Import String List ZArith Lia QArith Qreals Reals Lra FunctionalExtensionality.
From S2P Require Import Prelude Stats RpnExpr BoxBlur VSCore Regress Reconstruct Pipeline.
Import ListNotations.
Import VS Regress Reconstruct Pipeline.

Module Zimg.

Open Scope R_scope.

(** ** Kernels *)

(** The Mitchell-Netravali cubic with parameters [b] and [c]. *)
Definition bc_kernel (b c x : R) : R :=
  let a := Rabs x in
  if Rlt_dec a 1 then ((12 - 9 * b - 6 * c) * (a * a * a) + (-18 + 12 * b + 6 * c) * (a * a)
                       + (6 - 2 * b)) / 6
  else if Rlt_dec a 2 then ((- b - 6 * c) * (a * a * a) + (6 * b + 30 * c) * (a * a)
                            + (-12 * b - 48 * c) * a + (8 * b + 24 * c)) / 6
  else 0.

Definition kfun (k : kernel) : R -> R :=
  match k with
  | Bicubic b c => bc_kernel (Q2R b) (Q2R c)
  | Point => fun _ => 1
  end.

(** Half-width of the kernel, in input samples at unit scale. *)
Definition support (k : kernel) : nat :=
  match k with Bicubic _ _ => 2 | Point => 0 end%nat.

(** ** One dimension *)

Definition Rsum (l : list R) : R := fold_right Rplus 0 l.

(** The kernel is widened by [src / dst] when downscaling. *)
Definition rstep (src dst : nat) : R := if (src <=? dst)%nat then 1 else INR dst / INR src.

(** [2 * ceil(support / step)] taps, at least one. *)
Definition filter_size (k : kernel) (src dst : nat) : nat :=
  Nat.max (2 * (if (src <=? dst)%nat then support k
                else (support k * src + dst - 1) / dst)) 1.

Definition rpos (src dst : nat) (shift : R) (i : Z) : R :=
  (IZR i + / 2) * INR src / INR dst + shift.

(** The first input cell of the taps of output sample [i]. *)
Definition tap_begin (k : kernel) (src dst : nat) (shift : R) (i : Z) : Z :=
  Int_part (rpos src dst shift i + INR (support k) / rstep src dst
            - INR (filter_size k src dst) + / 2).

(** A cell past an edge, mirrored back (and clamped if still outside). *)
Definition mirror (n m : Z) : Z :=
  let m' := if (m <? 0)%Z then (- m - 1)%Z
            else if (n <=? m)%Z then Z.min (2 * n - m - 1) (n - 1) else m in
  Z.max 0 (Z.min (n - 1) m').

(** The cells read for output sample [i], with their weights. *)
Definition taps (k : kernel) (src dst : nat) (shift : R) (i : Z) : list (Z * R) :=
  let B := tap_begin k src dst shift i in
  map (fun j => let m := (B + Z.of_nat j)%Z in
                (mirror (Z.of_nat src) m,
                 kfun k ((IZR m + / 2 - rpos src dst shift i) * rstep src dst)))
      (seq 0 (filter_size k src dst)).

Definition resample1 (k : kernel) (src dst : nat) (shift : R) (P : Z -> R) (i : Z) : R :=
  let ts := taps k src dst shift i in
  Rsum (map (fun t => snd t * P (fst t)) ts) / Rsum (map snd ts).

(** ** Two dimensions *)

(** The horizontal shift of plane [i]: [src_left] in luma samples, moved
    so that left-sited chroma samples stay co-sited with their luma. *)
Definition plane_shift (sf tf : format) (i : nat) (sl : Q) : R :=
  let si := if (i =? 0)%nat then 0%nat else ssw sf in
  let so := if (i =? 0)%nat then 0%nat else ssw tf in
  Q2R sl / 2 ^ si + (1 - 2 ^ so / 2 ^ si) / 2.

Definition scale_plane (k : kernel) (shift : R) (sw sh tw th : nat) (P : plane R) : plane R :=
  fun x y => resample1 k sh th 0 (fun y' => resample1 k sw tw shift (fun x' => P x' y') x) y.

(** ** Samples *)

Definition is_chroma (f : format) (i : nat) : bool :=
  match fam f with YUV => negb (i =? 0)%nat | _ => false end.

(** [2^(bits - 8)], the scale of the limited range. *)
Definition range_scale (f : format) : R := IZR (2 ^ Z.of_nat (bits f)) / 256.

Definition code_max (f : format) : Z := (2 ^ Z.of_nat (bits f) - 1)%Z.

(** The integer code [v] of plane [i] as a float sample. *)
Definition unpack (f : format) (i : nat) (v : R) : R :=
  let s := range_scale f in
  match stype f, fam f with
  | Float, _ => v
  | Integer, RGB => v / IZR (code_max f)
  | Integer, _ => if is_chroma f i then (v - 128 * s) / (224 * s) else (v - 16 * s) / (219 * s)
  end.

(** The float sample [v] of plane [i] as an integer code: scaled,
    rounded half up and clamped. *)
Definition pack (f : format) (i : nat) (v : R) : R :=
  let s := range_scale f in
  let scaled := match fam f with
                | RGB => v * IZR (code_max f)
                | _ => if is_chroma f i then v * (224 * s) + 128 * s else v * (219 * s) + 16 * s
                end in
  match stype f with
  | Float => v
  | Integer => IZR (Z.max 0 (Z.min (code_max f) (Int_part (scaled + / 2))))
  end.

(** [resize.*]: unpack, scale, pack. *)
Definition zimg_resampler : Resampler R := {|
  rs_plane := fun k sl sf tf i sw sh tw th P =>
    let S := scale_plane k (plane_shift sf tf i sl) sw sh tw th (fun x y => unpack sf i (P x y)) in
    fun x y => pack tf i (S x y)
|}.

(** ** Samples *)

Lemma range_scale_pos f : 0 < range_scale f.
Proof.
  unfold range_scale. apply Rdiv_lt_0_compat; [|lra].
  apply IZR_lt, Z.pow_pos_nonneg; lia.
Qed.

Lemma Int_part_half z : Int_part (IZR z + / 2) = z.
Proof. symmetry. apply Int_part_spec. lra. Qed.

(** A sample value of format [f]: any value for a float format, an
    integer code in [[0, 2^bits - 1]] for an integer format. *)
Definition is_code (f : format) (v : R) : Prop :=
  match stype f with
  | Float => True
  | Integer => exists z, v = IZR z /\ (0 <= z <= code_max f)%Z
  end.

Lemma unpack_float f i v : stype f = Float -> unpack f i v = v.
Proof. intros Hs. unfold unpack. now rewrite Hs. Qed.

Lemma pack_float f i v : stype f = Float -> pack f i v = v.
Proof. intros Hs. unfold pack. now rewrite Hs. Qed.

(** The scaled value [pack] rounds is the code [unpack] started from. *)
Lemma pack_unpack_code f i z :
  stype f = Integer -> (0 <= z <= code_max f)%Z -> pack f i (unpack f i (IZR z)) = IZR z.
Proof.
  intros Hs Hz. pose proof (range_scale_pos f) as Hr. unfold pack, unpack. rewrite Hs.
  cbv zeta. unfold is_chroma.
  match goal with |- context [Int_part (?e + / 2)] => replace e with (IZR z) end.
  - rewrite Int_part_half. f_equal. lia.
  - destruct (fam f); [field; lra | | destruct (negb _); field; lra].
    destruct (Z.eq_dec (code_max f) 0) as [E|E].
    + rewrite E in *. replace z with 0%Z by lia. unfold Rdiv. ring.
    + field. now apply not_0_IZR.
Qed.

Lemma pack_unpack f i v : is_code f v -> pack f i (unpack f i v) = v.
Proof.
  unfold is_code. destruct (stype f) eqn:Hs.
  - intros (z & -> & Hz). now apply pack_unpack_code.
  - intros _. now rewrite pack_float, unpack_float.
Qed.

(** ** [resize.Point] at the same size *)

Lemma mirror_in n m : (0 <= m < n)%Z -> mirror n m = m.
Proof.
  intros Hm. unfold mirror. destruct (Z.ltb_spec m 0); [lia|]. destruct (Z.leb_spec n m); [lia|]. lia.
Qed.

(** One tap, at the sample itself. *)
Lemma resample1_point_same n Q i :
  (0 <= i < Z.of_nat n)%Z -> resample1 Point n n 0 Q i = Q i.
Proof.
  intros Hi. assert (Hn : INR n <> 0) by (apply not_0_INR; lia).
  unfold resample1, taps, tap_begin, filter_size, rstep, rpos. rewrite Nat.leb_refl.
  change (Nat.max (2 * support Point) 1) with 1%nat. change (INR (support Point)) with 0.
  cbn [seq map fst snd kfun Rsum fold_right Z.of_nat].
  replace ((IZR i + / 2) * INR n / INR n + 0 + 0 / 1 - INR 1 + / 2) with (IZR i)
    by (cbn [INR]; field; exact Hn).
  replace (Int_part (IZR i)) with i by (apply Int_part_spec; lra).
  rewrite Z.add_0_r, mirror_in by lia. field.
Qed.

Lemma plane_shift_0 sf tf : plane_shift sf tf 0 0 = 0.
Proof. unfold plane_shift, Q2R. cbn. field. Qed.

Lemma scale_point_same w h P x y :
  (0 <= x < Z.of_nat w)%Z -> (0 <= y < Z.of_nat h)%Z -> scale_plane Point 0 w h w h P x y = P x y.
Proof. intros Hx Hy. unfold scale_plane. now rewrite !resample1_point_same. Qed.

(** [pack] reads the sample type, the family and the depth only. *)
Lemma pack_ext f g i v :
  stype f = stype g -> fam f = fam g -> bits f = bits g -> pack f i v = pack g i v.
Proof.
  intros Hs Hf Hb. unfold pack, is_chroma, range_scale, code_max. now rewrite Hs, Hf, Hb.
Qed.

(** [vsutil.depth(merged, d)] of the joined 4:4:4 float clip, for an
    integer depth [d]: one [resize.Point] to the 4:4:4 integer format. *)
Lemma depth_back_ok (m : clip R) d :
  cfmt m = Some (mkFormat YUV Float 32 0 0) -> wf m -> (d < 32)%nat ->
  vs_ok (@depth R R_num zimg_resampler m d)
        (mkClip (Some (mkFormat YUV Integer d 0 0)) (cw m) (ch m)
                (@resize_planes R R_num zimg_resampler Point 0 (mkFormat YUV Float 32 0 0)
                                (mkFormat YUV Integer d 0 0) m (cw m) (ch m)))
        ([] ++ ["resize"%string]).
Proof.
  intros Hm Hwf Hd.
  assert (H1 : forall a, Nat.modulo a (2 ^ 0) = 0%nat) by (intros; apply Nat.mod_1_r).
  destruct (@resize_same_ok R R_num zimg_resampler Point m _ (mkFormat YUV Integer d 0 0) 0
              Hm Hwf eq_refl (H1 _) (H1 _)) as (ps & _ & Hr & ->).
  unfold depth. apply vs_ok_bind with (a := mkFormat YUV Float 32 0 0).
  - intros t. unfold fmt_of. rewrite Hm. apply vs_ok_ret.
  - cbv beta zeta. replace (d =? 32)%nat with false by (symmetry; apply Nat.eqb_neq; lia).
    cbn [bits stype fam ssw ssh sample_type_eqb]. rewrite andb_false_r. exact Hr.
Qed.

(** ** Theorems *)

Lemma is_code_8 (z : Z) : (0 <= z <= 255)%Z -> is_code YUV420P8 (IZR z).
Proof. intros Hz. exists z. split; [reflexivity | unfold code_max; cbn; lia]. Qed.

(** C23. The luma codes survive the 4:4:4 output (spec section 4.5 steps
    1, 8 and 9, with the PrecisionConverter of section 6): with the
    resampler VapourSynth uses, on a well-formed YUV clip of an integer
    format (below 32 bits) whose luma samples are codes of the format,
    with a positive radius and [i444 = true], the script succeeds, the
    result is 4:4:4 at the input's depth, and inside the frame its luma is
    the input's luma, code for code: the conversion to 32-bit float of
    line 52 and the one back of line 68 ([resize.Point] at the same size)
    are inverse. *)
Theorem chroma_luma_codes (c : clip R) fmt radius :
  cfmt c = Some fmt -> fam fmt = YUV -> stype fmt = Integer -> (bits fmt < 32)%nat -> wf c ->
  (0 < radius)%Z ->
  (forall x y, (0 <= x < Z.of_nat (cw c))%Z -> (0 <= y < Z.of_nat (ch c))%Z ->
               is_code fmt (nth 0 (cplanes c) zero_plane x y)) ->
  exists c' n, vs_ok (@chroma_reconstruct R R_num zimg_resampler c radius true) c' n
    /\ cfmt c' = Some (mkFormat YUV Integer (bits fmt) 0 0)
    /\ forall x y, (0 <= x < Z.of_nat (cw c))%Z -> (0 <= y < Z.of_nat (ch c))%Z ->
         nth 0 (cplanes c') zero_plane x y = nth 0 (cplanes c) zero_plane x y.
Proof.
  intros Hc Hy Hs Hb Hwf Hr Hcode.
  pose proof Hwf as Hwf'. unfold wf in Hwf'. rewrite Hc in Hwf'.
  destruct Hwf' as (Hw & Hh & _ & _ & _).
  destruct (@chroma_run zimg_resampler c fmt radius true Hc ltac:(congruence) Hwf Hr)
    as (P0 & P1 & P2 & n & Hrun & Hid).
  match type of Hrun with
  | vs_then _ (recon_output _ _ _ ?m) _ =>
      assert (Hm : wf m) by (unfold wf; cbn; repeat split; auto);
      pose proof (depth_back_ok m (bits fmt) eq_refl Hm Hb) as Hd
  end.
  do 2 eexists. split.
  { eapply (vs_then_ok _ _ _ _ _ Hrun). unfold recon_output. cbn [negb].
    exact (vs_ok_bind _ _ _ _ _ _ (get_depth_ok c fmt Hc) Hd). }
  split; [reflexivity|]. intros x y Hx Hy'.
  unfold depth_planes in Hid. rewrite Hs, andb_false_r in Hid.
  unfold resize_planes, num_planes in Hid. change (fam (float32 fmt)) with (fam fmt) in Hid.
  rewrite Hy in Hid. cbn [seq map Nat.ltb Nat.leb] in Hid. injection Hid as HP0 _ _.
  unfold resize_planes. cbn [num_planes fam seq map nth Nat.ltb Nat.leb rs_plane zimg_resampler].
  unfold plane_w, plane_h. cbn [Nat.eqb cw ch cplanes nth]. rewrite plane_shift_0, scale_point_same by assumption.
  rewrite unpack_float by reflexivity. rewrite HP0.
  cbn [rs_plane zimg_resampler]. rewrite (pack_float (float32 fmt)) by reflexivity.
  rewrite plane_shift_0, scale_point_same by assumption.
  rewrite (pack_ext _ fmt) by (cbn; congruence). apply pack_unpack, Hcode; assumption.
Qed.

(** An 8-bit 4:2:0 clip with a luma ramp. *)
Definition ramp420 : clip R :=
  mkClip (Some YUV420P8) 4 4 [fun x y => IZR (16 * x + y); fun _ _ => 128; fun _ _ => 128].

Lemma chroma_luma_codes_witness :
  cfmt ramp420 = Some YUV420P8 /\ fam YUV420P8 = YUV /\ stype YUV420P8 = Integer
  /\ (bits YUV420P8 < 32)%nat /\ wf ramp420 /\ (0 < 1)%Z
  /\ (forall x y, (0 <= x < Z.of_nat (cw ramp420))%Z -> (0 <= y < Z.of_nat (ch ramp420))%Z ->
                  is_code YUV420P8 (nth 0 (cplanes ramp420) zero_plane x y)) /\
  exists c' n, vs_ok (@chroma_reconstruct R R_num zimg_resampler ramp420 1 true) c' n
               /\ nth 0 (cplanes c') zero_plane 3%Z 2%Z = 50.
Proof.
  assert (Hw : wf ramp420) by (unfold wf, ramp420; cbn; repeat split; lia).
  assert (Hcode : forall x y, (0 <= x < Z.of_nat (cw ramp420))%Z -> (0 <= y < Z.of_nat (ch ramp420))%Z ->
                              is_code YUV420P8 (nth 0 (cplanes ramp420) zero_plane x y))
    by (intros x y Hx Hy; cbn in Hx, Hy; apply is_code_8; lia).
  do 3 (split; [reflexivity|]). split; [cbn; lia|]. split; [exact Hw|]. split; [lia|].
  split; [exact Hcode|].
  destruct (chroma_luma_codes ramp420 YUV420P8 1 eq_refl eq_refl eq_refl ltac:(cbn; lia) Hw
              ltac:(lia) Hcode) as (c' & n & Hok & _ & Hluma).
  exists c', n. split; [exact Hok|]. rewrite Hluma by (cbn; lia). cbn. lra.
Defined.

End Zimg.
